(** * Free-GPT4-WEB-API: the chat-bot runtime (telegram_bot.py, slack_bot.py)

    A shallow embedding of the bot orchestration layer: the message
    segmenter [_split_message], the response orchestrator
    [_generate_answer] of both adapters, the two [handle_message] handlers
    with the typing-indicator task, and the two launchers.

    Python values are modelled as follows.
    - [str] is a list of characters; the only characters the code inspects
      are the newline and the white space removed by [str.strip].
    - [int] is [Z]; indices and lengths are [Z] so that the sentinel [-1]
      of [str.rfind] and Python's negative slice bounds are the code's own.
    - [Optional[T]] is [option T]; truthiness is written out.
    - exceptions, the event log of calls to collaborators and the asyncio
      task table are threaded by a small state-and-exception monad. *)

From Stdlib Require Import List String Ascii ZArith Lia Bool.
From Stdlib Require Import Numbers.DecimalString.
From Stdlib Require Numbers.DecimalZ.
Import ListNotations.

Set Implicit Arguments.
Open Scope Z_scope.

(** ** Python string primitives *)

Module Py.

Definition str := list ascii.

(** String literals of the source. *)
Definition lit (s : string) : str := list_ascii_of_string s.

Definition NL : ascii := "010"%char.

(** [len(s)] *)
Definition len (s : str) : Z := Z.of_nat (List.length s).

(** Truthiness of a string: [if s], [while s]. *)
Definition truthy (s : str) : bool :=
  match s with [] => false | _ :: _ => true end.

(** Resolution of a slice bound: a negative bound counts from the end and
    is clamped at 0; a bound past the end is clamped by [firstn]/[skipn]. *)
Definition bound (s : str) (k : Z) : nat :=
  if 0 <=? k then Z.to_nat k else Z.to_nat (len s + k).

(** [s[:k]] *)
Definition slice_to (s : str) (k : Z) : str := firstn (bound s k) s.

(** [s[k:]] *)
Definition slice_from (s : str) (k : Z) : str := skipn (bound s k) s.

(** [s[i:j]] *)
Definition slice (s : str) (i j : Z) : str :=
  skipn (bound s i) (firstn (bound s j) s).

(** [s.startswith(sub)] *)
Fixpoint startswith (s sub : str) {struct sub} : bool :=
  match sub, s with
  | [], _ => true
  | _ :: _, [] => false
  | c :: sub', d :: s' => Ascii.eqb c d && startswith s' sub'
  end.

(** [s.rfind(sub)]: the highest index at which [sub] occurs in [s], [-1]
    when it does not occur. The scan runs left to right from index [i] and
    remembers the last match in [best]. *)
Fixpoint rfind_from (s sub : str) (i best : Z) : Z :=
  match s with
  | [] => if startswith [] sub then i else best
  | _ :: s' => rfind_from s' sub (i + 1) (if startswith s sub then i else best)
  end.

Definition rfind (s sub : str) : Z := rfind_from s sub 0 (-1).

(** [s.lstrip(chars)]: drop the leading characters that belong to [chars]. *)
Fixpoint lstrip (s chars : str) : str :=
  match s with
  | [] => []
  | c :: s' => if existsb (Ascii.eqb c) chars then lstrip s' chars else s
  end.

(** [c.isspace()] on the code points below 256: the ASCII white space
    (tab, line feed, vertical tab, form feed, carriage return, space), the
    information separators 28..31, NEL (133) and the no-break space (160). *)
Definition isspace (c : ascii) : bool :=
  let n := Z.of_nat (nat_of_ascii c) in
  ((9 <=? n) && (n <=? 13)) || ((28 <=? n) && (n <=? 32))
  || (n =? 133) || (n =? 160).

Fixpoint lstrip_space (s : str) : str :=
  match s with
  | [] => []
  | c :: s' => if isspace c then lstrip_space s' else s
  end.

(** [s.strip()] *)
Definition strip (s : str) : str :=
  rev (lstrip_space (rev (lstrip_space s))).

(** [str(n)] for an [int]. *)
Definition str_of_int (n : Z) : str :=
  lit (NilEmpty.string_of_int (Z.to_int n)).

(** [s.lower()] on the code points below 256. *)
Definition lower_char (c : ascii) : ascii :=
  let n := Z.of_nat (nat_of_ascii c) in
  if ((65 <=? n) && (n <=? 90)) || ((192 <=? n) && (n <=? 214))
     || ((216 <=? n) && (n <=? 222))
  then ascii_of_nat (nat_of_ascii c + 32) else c.

Definition lower (s : str) : str := map lower_char s.

(** [a == b] on strings. *)
Fixpoint str_eqb (a b : str) : bool :=
  match a, b with
  | [], [] => true
  | c :: a', d :: b' => Ascii.eqb c d && str_eqb a' b'
  | _, _ => false
  end.

(** A [dict] with string keys and values, and [d.get(key, default)]. *)
Definition dict := list (str * str).

Fixpoint dict_get (d : dict) (key default : str) : str :=
  match d with
  | [] => default
  | (k, v) :: d' => if str_eqb k key then v else dict_get d' key default
  end.

(** [a or b] on [Optional[str]]: [a] when it is truthy, else [b]. *)
Definition opt_truthy (a : option str) : bool :=
  match a with Some s => truthy s | None => false end.

Definition or_else (a b : option str) : option str :=
  if opt_truthy a then a else b.

End Py.

Import Py.

(** ** The runtime the bots execute in

    Exceptions, the collaborators at the boundary of the core (user store,
    AI backend, platform SDKs, logger), an event log of every call made to
    them, and the part of asyncio the handlers rely on: tasks created with
    [create_task], their cancellation, and what awaiting them returns. *)

Module Runtime.

(** *** Exceptions *)

(** The exception classes the code tells apart. All three derive from
    [Exception]; [OtherError] stands for every other subclass. *)
Inductive exc_class := RuntimeError | BadRequest | OtherError.

Definition exc_class_eqb (a b : exc_class) : bool :=
  match a, b with
  | RuntimeError, RuntimeError | BadRequest, BadRequest
  | OtherError, OtherError => true
  | _, _ => false
  end.

(** An instance of [Exception]; [err_str] is [str(e)]. *)
Record error := { err_class : exc_class; err_str : str }.

(** What a [raise] can carry. [asyncio.CancelledError] derives from
    [BaseException] only (Python 3.8 and later; the [list[str]] annotation
    of [_split_message] needs 3.9). *)
Inductive exn := Exc (e : error) | CancelledError.

Definition exn_str (x : exn) : str :=
  match x with Exc e => err_str e | CancelledError => [] end.

(** The [except] clauses of the source. *)
Inductive except_clause :=
| ExceptException                (* except Exception *)
| Except (c : exc_class)         (* except RuntimeError, except BadRequest *)
| ExceptCancelledError.          (* except asyncio.CancelledError *)

Definition handles (clause : except_clause) (x : exn) : bool :=
  match clause, x with
  | ExceptException, Exc _ => true
  | Except c, Exc e => exc_class_eqb c (err_class e)
  | ExceptCancelledError, CancelledError => true
  | _, _ => false
  end.

(** The answer of a collaborator: a value or an error. *)
Inductive outcome (A : Type) := Ok (a : A) | Fail (e : error).
Arguments Fail {A} e.

(** The result of running code of the core: a value, an exception, or no
    result at all (the code waits forever). *)
Inductive result (A : Type) := Return (a : A) | Raise (x : exn) | Hang.
Arguments Raise {A} x.
Arguments Hang {A}.

(** *** Data at the boundary *)

(** A row of the user store; the core only tests it for presence. *)
Record UserRecord := { record_username : str }.

(** The keyword arguments of [ai_service.generate_response]. *)
Record request := {
  req_message : str;
  req_username : str;
  use_history : bool;
  remove_sources : bool;
  use_proxies : bool;
  cookie_file : str
}.

Inductive ParseMode := MARKDOWN.
Inductive ChatAction := TYPING.
Inductive log_level := DEBUG | INFO | WARNING | ERROR.

(** The parts of a Telegram [Update] the handlers read. *)
Record User := { user_id : Z }.
Record Chat := { chat_id : Z }.
Record Message := { msg_text : option str }.
Record Update := {
  upd_message : option Message;
  effective_user : option User;
  effective_chat : option Chat
}.

(** Handlers registered on a Telegram application. *)
Inductive handler := CommandHandler (command : str) | MessageHandler.

(** The coroutines the launchers schedule. *)
Inductive receive_loop := run_webhook | _run_polling | _setup_and_run.

(** The [asyncio.Task] a launcher returns. *)
Inductive future := Task (c : receive_loop).

(** *** The event log *)

Inductive event :=
| EvLog (level : log_level) (msg : str)
| EvGetUser (username : str) (o : outcome (option UserRecord))
| EvCreateUser (username : str) (o : outcome unit)
| EvGenerate (req : request) (o : outcome str)
| EvCreateTask (id : nat)
| EvCancelTask (id : nat)
| EvSendAction (chat : Chat) (action : ChatAction) (o : outcome unit)
| EvReplyText (text : str) (parse_mode : option ParseMode) (o : outcome unit)
| EvSay (text : str) (o : outcome unit)
| EvGetRunningLoop (running : bool)
| EvBuildApplication (token : str) (o : outcome unit)
| EvAsyncApp (token : str) (o : outcome unit)
| EvAddHandler (h : handler)
| EvLoopCreateTask (c : receive_loop)
| EvRunUntilComplete
| EvThreadStart (name : str).

(** *** Collaborators

    What the core consumes and does not implement, as transitions of an
    abstract world [W]. The awaited call of the backend also tells for how
    many turns of the event loop the caller stayed suspended: [0] when the
    awaitable completed without yielding to the loop ([await] of a
    coroutine runs it inline; only a pending future hands control to the
    loop). The sends to the platform are awaited when the handler's own
    task has ended or does not exist, and are modelled as plain calls. *)
Class Collaborators (W : Type) : Type := {
  (* database.db_manager *)
  db_get_user_by_username : str -> W -> outcome (option UserRecord) * W;
  db_create_user : str -> W -> outcome unit * W;
  (* ai_service.ai_service *)
  ai_generate_response : request -> W -> outcome str * nat * W;
  (* telegram *)
  chat_send_action : Chat -> ChatAction -> W -> outcome unit * W;
  message_reply_text : Message -> str -> option ParseMode -> W -> outcome unit * W;
  Application_build : str -> W -> outcome unit * W;
  (* slack_bolt *)
  slack_say : str -> W -> outcome unit * W;
  AsyncApp_new : str -> W -> outcome unit * W;
  (* asyncio: is an event loop running in the calling thread? *)
  asyncio_running_loop : W -> bool
}.

(** *** State, and the monad that threads it *)

Inductive task_status := Pending | Parked | Finished (r : result unit).

(** A task of the event loop: the coroutine it wraps ([K] names the
    coroutine functions of the program), where it stands, and whether a
    cancellation has been requested and not yet delivered. *)
Record task (K : Type) := {
  task_coro : K;
  task_state : task_status;
  task_must_cancel : bool
}.

Record state (W K : Type) := {
  world : W;
  trace : list event;
  tasks : list (task K)
}.

Definition M (W K A : Type) : Type := state W K -> result A * state W K.

Section Monad.

Context {W K : Type}.

Definition ret {A} (a : A) : M W K A := fun st => (Return a, st).

Definition bind {A B} (m : M W K A) (k : A -> M W K B) : M W K B :=
  fun st =>
    match m st with
    | (Return a, st') => k a st'
    | (Raise x, st') => (Raise x, st')
    | (Hang, st') => (Hang, st')
    end.

Definition raise {A} (x : exn) : M W K A := fun st => (Raise x, st).

Definition hang {A} : M W K A := fun st => (Hang, st).

(** [try: m  except clause as e: h e] *)
Definition try_except {A} (m : M W K A) (clause : except_clause)
    (h : exn -> M W K A) : M W K A :=
  fun st =>
    match m st with
    | (Raise x, st') => if handles clause x then h x st' else (Raise x, st')
    | r => r
    end.

(** [for x in xs: body x] *)
Fixpoint for_each {A} (xs : list A) (body : A -> M W K unit) : M W K unit :=
  match xs with
  | [] => ret tt
  | x :: xs' => bind (body x) (fun _ => for_each xs' body)
  end.

Definition emit (ev : event) : M W K unit :=
  fun st =>
    (Return tt,
     {| world := world st; trace := trace st ++ [ev]; tasks := tasks st |}).

(** Deliver the answer of a collaborator to the caller. *)
Definition deliver {A} (o : outcome A) : M W K A :=
  match o with Ok a => ret a | Fail e => raise (Exc e) end.

(** A synchronous call of a collaborator: the world moves, the call and
    its answer are logged, the answer is delivered. *)
Definition call {A} (f : W -> outcome A * W) (ev : outcome A -> event)
    : M W K A :=
  fun st =>
    let (o, w) := f (world st) in
    deliver o {| world := w; trace := trace st ++ [ev o]; tasks := tasks st |}.

End Monad.

Declare Scope monad_scope.
Delimit Scope monad_scope with monad.
Notation "x <- m ;; k" := (bind m (fun x => k))
  (at level 61, m at next level, right associativity) : monad_scope.
Notation "m ;; k" := (bind m (fun _ => k))
  (at level 61, right associativity) : monad_scope.
Open Scope monad_scope.

(** *** asyncio tasks *)

(** What a coroutine does when the loop resumes it. *)
Inductive step_result := Suspended | Returned.

(** A coroutine function, up to its suspension points: [co_step] runs it
    from the point where it is parked (or from its first line) to its next
    suspension, or to its return; [co_cancel] is what happens when
    [CancelledError] is raised at the point where it is parked. *)
Record coroutine (W K : Type) := {
  co_step : M W K step_result;
  co_cancel : M W K unit
}.

(** The coroutine functions the program hands to [asyncio.create_task]. *)
Class Coroutines (W K : Type) : Type := { resume : K -> coroutine W K }.

Section Asyncio.

Context {W K : Type} {C : Collaborators W} {P : Coroutines W K}.

Fixpoint update_nth {A} (n : nat) (f : A -> A) (l : list A) : list A :=
  match l, n with
  | [], _ => []
  | x :: l', O => f x :: l'
  | x :: l', S n' => x :: update_nth n' f l'
  end.

Definition set_task (id : nat) (f : task K -> task K) : M W K unit :=
  fun st =>
    (Return tt,
     {| world := world st; trace := trace st;
        tasks := update_nth id f (tasks st) |}).

Definition set_status (id : nat) (s : task_status) : M W K unit :=
  set_task id (fun t => {| task_coro := task_coro t; task_state := s;
                           task_must_cancel := false |}).

(** Run a piece of a task's coroutine and record where the task stands
    afterwards. An exception that leaves the coroutine ends the task. *)
Definition run_piece (id : nat) (piece : M W K step_result) : M W K unit :=
  fun st =>
    match piece st with
    | (Return Suspended, st') => set_status id Parked st'
    | (Return Returned, st') => set_status id (Finished (Return tt)) st'
    | (Raise x, st') => set_status id (Finished (Raise x)) st'
    | (Hang, st') => (Hang, st')
    end.

(** One scheduling of task [id] by the event loop (asyncio's
    [Task.__step]). A cancellation requested before the first step is
    thrown into a coroutine that has not started: none of its code runs,
    so none of its [try] blocks is active, and the task ends cancelled. *)
Definition run_task (id : nat) : M W K unit :=
  fun st =>
    match nth_error (tasks st) id with
    | None => (Return tt, st)
    | Some t =>
      match task_state t, task_must_cancel t with
      | Finished _, _ => (Return tt, st)
      | Pending, true => set_status id (Finished (Raise CancelledError)) st
      | Parked, true =>
        run_piece id (co_cancel (resume (task_coro t)) ;; ret Returned) st
      | _, false => run_piece id (co_step (resume (task_coro t))) st
      end
    end.

(** One turn of the loop: every task gets to run once, oldest first. *)
Definition loop_turn : M W K unit :=
  fun st => for_each (seq 0 (List.length (tasks st))) run_task st.

(** The running coroutine stays suspended for [n] turns of the loop. *)
Fixpoint suspend (n : nat) : M W K unit :=
  match n with
  | O => ret tt
  | S n' => loop_turn ;; suspend n'
  end.

(** [await] of a collaborator's coroutine. *)
Definition await {A} (f : W -> outcome A * nat * W) (ev : outcome A -> event)
    : M W K A :=
  fun st =>
    let '(o, n, w) := f (world st) in
    (suspend n ;; deliver o)
      {| world := w; trace := trace st ++ [ev o]; tasks := tasks st |}.

(** [asyncio.create_task(coro)]: the task is queued, not started. *)
Definition create_task (coro : K) : M W K nat :=
  fun st =>
    let id := List.length (tasks st) in
    (Return id,
     {| world := world st;
        trace := trace st ++ [EvCreateTask id];
        tasks := tasks st ++ [{| task_coro := coro; task_state := Pending;
                                 task_must_cancel := false |}] |}).

(** [task.cancel()]: a request, delivered at the task's next step. *)
Definition cancel (id : nat) : M W K unit :=
  emit (EvCancelTask id) ;;
  set_task id (fun t =>
    match task_state t with
    | Finished _ => t
    | _ => {| task_coro := task_coro t; task_state := task_state t;
              task_must_cancel := true |}
    end).

Definition status_of (id : nat) (st : state W K) : option task_status :=
  option_map (@task_state K) (nth_error (tasks st) id).

(** The result of a finished task, as [await task] hands it over. *)
Definition task_result (id : nat) : M W K unit :=
  fun st =>
    match status_of id st with
    | Some (Finished r) => (r, st)
    | _ => (Hang, st)
    end.

(** [await task]: the result of a finished task at once; otherwise the
    caller is suspended, the loop runs, and the caller resumes when the
    task has ended. A task that is still parked after that turn was not
    cancelled and, being an endless loop, never ends. *)
Definition await_task (id : nat) : M W K unit :=
  fun st =>
    match status_of id st with
    | Some (Finished r) => (r, st)
    | _ => (loop_turn ;; task_result id) st
    end.

(** *** Calls of the collaborators *)

Definition log (level : log_level) (msg : str) : M W K unit :=
  emit (EvLog level msg).

Definition get_user_by_username (username : str) : M W K (option UserRecord) :=
  call (db_get_user_by_username username) (EvGetUser username).

Definition create_user (username : str) : M W K unit :=
  call (db_create_user username) (EvCreateUser username).

Definition generate_response (req : request) : M W K str :=
  await (ai_generate_response req) (EvGenerate req).

Definition send_action (chat : Chat) (action : ChatAction) : M W K unit :=
  call (chat_send_action chat action) (EvSendAction chat action).

Definition reply_text (message : Message) (text : str)
    (parse_mode : option ParseMode) : M W K unit :=
  call (message_reply_text message text parse_mode) (EvReplyText text parse_mode).

Definition say (text : str) : M W K unit :=
  call (slack_say text) (EvSay text).

(** [asyncio.get_running_loop()] *)
Definition get_running_loop : M W K unit :=
  fun st =>
    let running := asyncio_running_loop (world st) in
    (emit (EvGetRunningLoop running) ;;
     if running then ret tt
     else raise (Exc {| err_class := RuntimeError;
                        err_str := lit "no running event loop" |})) st.

(** [loop.run_until_complete(task)] on the loop [get_running_loop]
    returned: that loop is running, and asyncio refuses. *)
Definition run_until_complete : M W K unit :=
  emit EvRunUntilComplete ;;
  raise (Exc {| err_class := RuntimeError;
                err_str := lit "This event loop is already running" |}).

(** [loop.create_task(coro)] in a launcher. *)
Definition loop_create_task (c : receive_loop) : M W K future :=
  emit (EvLoopCreateTask c) ;; ret (Task c).

(** [threading.Thread(target, name, daemon=True).start()]. The worker's
    body runs on its own thread, with its own event loop, outside this
    log. *)
Definition thread_start (name : str) : M W K unit :=
  emit (EvThreadStart name).

End Asyncio.

(** The events logged between two states. *)
Definition events_since {W K} (before after : state W K) : list event :=
  skipn (List.length (trace before)) (trace after).

(** Running from a fresh state: no event logged, no task on the loop. *)
Definition initial {W K} (w : W) : state W K :=
  {| world := w; trace := []; tasks := [] |}.

End Runtime.

Import Runtime.

(** ** config.py *)

Module ConfigPy.

Record TelegramConfig := {
  bot_token : option str;
  webhook_url : option str;
  use_webhook : bool
}.

Record SlackConfig := {
  slack_bot_token : option str;
  slack_app_token : option str
}.

Record FileConfig := { cookies_file : str }.

Record Config := {
  files : FileConfig;
  telegram : TelegramConfig;
  slack : SlackConfig
}.

(** The defaults of the two dataclasses, read from the environment. *)
Definition getenv_default (getenv : str -> option str) (key default : str) : str :=
  match getenv key with Some v => v | None => default end.

Definition TelegramConfig_default (getenv : str -> option str) : TelegramConfig :=
  {| bot_token := getenv (lit "TELEGRAM_BOT_TOKEN");
     webhook_url := getenv (lit "TELEGRAM_WEBHOOK_URL");
     use_webhook :=
       str_eqb (lower (getenv_default getenv (lit "TELEGRAM_USE_WEBHOOK") (lit "false")))
               (lit "true") |}.

Definition SlackConfig_default (getenv : str -> option str) : SlackConfig :=
  {| slack_bot_token := getenv (lit "SLACK_BOT_TOKEN");
     slack_app_token := getenv (lit "SLACK_APP_TOKEN") |}.

End ConfigPy.

Import ConfigPy.

(** ** telegram_bot.py *)

Module Telegram.

Definition TELEGRAM_USERNAME_PREFIX : str := lit "tg_".

(** Lines 45-50: the split point of an over-length [remaining]. *)
Definition split_point (remaining : str) (max_len : Z) : Z :=
  let window := slice_to remaining max_len in
  let split_idx := rfind window [NL; NL] in
  let split_idx := if split_idx =? -1 then rfind window [NL] else split_idx in
  let split_idx := if split_idx =? -1 then max_len else split_idx in
  split_idx.

(** Lines 40-52: the [while remaining:] loop. Each unit of [fuel] pays for
    one evaluation of the loop condition; [None] is "still looping". *)
Fixpoint split_loop (fuel : nat) (max_len : Z) (remaining : str)
    (parts : list str) : option (list str) :=
  match fuel with
  | O => None
  | S fuel' =>
    if truthy remaining then
      if len remaining <=? max_len then Some (parts ++ [remaining])
      else
        let split_idx := split_point remaining max_len in
        split_loop fuel' max_len
          (lstrip (slice_from remaining split_idx) [NL])
          (parts ++ [slice_to remaining split_idx])
    else Some parts
  end.

(** [_split_message(text, max_len)]. The loop is given one more unit of
    fuel than the text has characters; [split_loop_total] shows that this
    is enough whenever [max_len] is positive. *)
Definition _split_message (text : str) (max_len : Z) : option (list str) :=
  if len text <=? max_len then Some [text]
  else split_loop (S (List.length text)) max_len text [].

Definition DEFAULT_MAX_LEN : Z := 4000.


(** The coroutine functions this file hands to [asyncio.create_task].
    [_typing_loop] is defined first because the event loop runs it
    whenever a coroutine below awaits. *)
Inductive coro := TypingLoop (update : Update).

Section Bot.

Context {W : Type} {C : Collaborators W}.
Variable config : Config.

(** [_typing_loop(update)], lines 119-130. A step is one turn of
    [while True]: the indicator is sent, any [Exception] of the send is
    swallowed, and the coroutine parks in [asyncio.sleep(4.0)]. A
    [CancelledError] raised where it is parked is inside the outer [try],
    whose clause returns. *)
Definition _typing_loop (update : Update) : coroutine W coro := {|
  co_step :=
    try_except
      (match effective_chat update with
       | Some chat => send_action chat TYPING
       | None => ret tt
       end)
      ExceptException (fun _ => ret tt) ;;
    ret Suspended;
  co_cancel :=
    try_except (raise CancelledError)
      ExceptCancelledError (fun _ => ret tt)
|}.

#[global] Instance telegram_coroutines : Coroutines W coro :=
  {| resume k := match k with TypingLoop update => _typing_loop update end |}.

(** [_generate_answer(text, username)], lines 56-79. *)
Definition _generate_answer (text username : str) : M W coro str :=
  try_except
    (user <- get_user_by_username username ;;
     username <-
       (match user with
        | None =>
          try_except
            (create_user username ;;
             log INFO (lit "Created new Telegram virtual user '" ++ username
                       ++ lit "'") ;;
             ret username)
            ExceptException
            (fun create_err =>
               log WARNING (lit "Could not create Telegram user '" ++ username
                            ++ lit "': " ++ exn_str create_err
                            ++ lit ". Falling back to admin context.") ;;
               ret (lit "admin"))
        | Some _ => ret username
        end) ;;
     reply <- generate_response
                {| req_message := text;
                   req_username := username;
                   use_history := true;
                   remove_sources := true;
                   use_proxies := false;
                   cookie_file := cookies_file (files config) |} ;;
     ret reply)
    ExceptException
    (fun e =>
       log ERROR (lit "Telegram bot failed to get AI response: " ++ exn_str e) ;;
       ret (lit "Sorry, I couldn't get a response right now. Please try again.")).

(** [start_cmd] and [help_cmd], lines 82-90. *)
Definition start_cmd (update : Update) : M W coro unit :=
  match effective_user update with
  | None => ret tt
  | Some _ =>
    match upd_message update with
    | Some message =>
      reply_text message
        (lit "Hi! Send me any message and I'll reply using FreeGPT4.") None
    | None => raise (Exc {| err_class := OtherError;
                            err_str := lit "'NoneType' object has no attribute 'reply_text'" |})
    end
  end.

Definition help_cmd (update : Update) : M W coro unit :=
  match upd_message update with
  | Some message =>
    reply_text message (lit "Just send a message, no commands needed.") None
  | None => raise (Exc {| err_class := OtherError;
                          err_str := lit "'NoneType' object has no attribute 'reply_text'" |})
  end.

(** The chunks of [_split_message(reply)]; a segmentation that does not
    end leaves the handler without a result. *)
Definition split_reply (reply : str) : M W coro (list str) :=
  match _split_message reply DEFAULT_MAX_LEN with
  | Some chunks => ret chunks
  | None => hang
  end.

(** The body of the [for] loop, lines 112-116: a chunk the platform
    rejects with [BadRequest] is sent once more without markdown. *)
Definition send_chunk (message : Message) (chunk : str) : M W coro unit :=
  try_except
    (reply_text message chunk (Some MARKDOWN))
    (Except BadRequest)
    (fun _ => reply_text message chunk None).

(** [update.message.text or ""] *)
Definition text_or_empty (message : Message) : str :=
  match msg_text message with
  | Some t => if truthy t then t else []
  | None => []
  end.

(** [f"{TELEGRAM_USERNAME_PREFIX}{update.effective_user.id}"] *)
Definition username_of (user : User) : str :=
  TELEGRAM_USERNAME_PREFIX ++ str_of_int (user_id user).

(** [handle_message(update, context)], lines 93-116. Between
    [create_task] and [cancel] the only point at which the event loop can
    run the new task is the [await] of the backend inside
    [_generate_answer]. *)
Definition handle_message (update : Update) : M W coro unit :=
  match upd_message update, effective_user update with
  | Some message, Some user =>
    let text := text_or_empty message in
    if negb (truthy (strip text)) then ret tt
    else
      let username := username_of user in
      typing_task <- create_task (TypingLoop update) ;;
      reply <- _generate_answer text username ;;
      cancel typing_task ;;
      try_except (await_task typing_task) ExceptException (fun _ => ret tt) ;;
      chunks <- split_reply reply ;;
      for_each chunks (send_chunk message)
  | _, _ => ret tt
  end.

(** [start_telegram_bot(blocking, token_override)], lines 144-203. *)
Definition start_telegram_bot (blocking : bool) (token_override : option str)
    : M W coro (option future) :=
  match or_else token_override (bot_token (telegram config)) with
  | Some token =>
    if negb (truthy token) then
      log INFO (lit "TELEGRAM_BOT_TOKEN not set; Telegram bot disabled") ;;
      ret None
    else
      try_except
        (get_running_loop ;;
         call (Application_build token) (EvBuildApplication token) ;;
         emit (EvAddHandler (CommandHandler (lit "start"))) ;;
         emit (EvAddHandler (CommandHandler (lit "help"))) ;;
         emit (EvAddHandler MessageHandler) ;;
         if use_webhook (telegram config)
            && opt_truthy (webhook_url (telegram config))
         then
           task <- loop_create_task run_webhook ;;
           ret (Some task)
         else
           task <- loop_create_task _run_polling ;;
           (if blocking then run_until_complete else ret tt) ;;
           ret (Some task))
        (Except RuntimeError)
        (fun _ =>
           thread_start (lit "telegram-bot") ;;
           log INFO (lit "Telegram bot polling started in background thread") ;;
           ret None)
  | None =>
    log INFO (lit "TELEGRAM_BOT_TOKEN not set; Telegram bot disabled") ;;
    ret None
  end.

End Bot.

End Telegram.

(** ** slack_bot.py *)

Module Slack.

(** This file hands no coroutine to [asyncio.create_task]. *)
Inductive coro := .

Section Bot.

Context {W : Type} {C : Collaborators W}.
Variable config : Config.

#[global] Instance slack_coroutines : Coroutines W coro :=
  {| resume := fun k : coro => match k with end |}.

(** [_generate_answer(text, user_id)], lines 25-51. *)
Definition _generate_answer (text user_id : str) : M W coro str :=
  try_except
    (let username := lit "slack_" ++ user_id in
     user <- get_user_by_username username ;;
     username <-
       (match user with
        | None =>
          try_except
            (create_user username ;;
             log INFO (lit "Created new Slack virtual user '" ++ username
                       ++ lit "'") ;;
             ret username)
            ExceptException
            (fun create_err =>
               log WARNING (lit "Could not create Slack user '" ++ username
                            ++ lit "': " ++ exn_str create_err
                            ++ lit ". Falling back to admin context.") ;;
               ret (lit "admin"))
        | Some _ => ret username
        end) ;;
     reply <- generate_response
                {| req_message := text;
                   req_username := username;
                   use_history := true;
                   remove_sources := true;
                   use_proxies := false;
                   cookie_file := cookies_file (files config) |} ;;
     ret reply)
    ExceptException
    (fun e =>
       log ERROR (lit "Slack bot failed to get AI response: " ++ exn_str e) ;;
       ret (lit "Sorry, I couldn't get a response right now. Please try again.")).

(** [handle_message(message, say)], lines 82-90, as registered by
    [_register_handlers]. *)
Definition handle_message (message : dict) : M W coro unit :=
  let text := dict_get message (lit "text") [] in
  let user_id := dict_get message (lit "user") (lit "unknown") in
  if negb (truthy (strip text)) then ret tt
  else
    reply <- _generate_answer text user_id ;;
    say reply.

(** [start_slack_bot(blocking, bot_token_override, app_token_override)],
    lines 59-148. *)
Definition start_slack_bot (blocking : bool)
    (bot_token_override app_token_override : option str)
    : M W coro (option future) :=
  let bot_token := or_else bot_token_override (slack_bot_token (slack config)) in
  let app_token := or_else app_token_override (slack_app_token (slack config)) in
  match bot_token, app_token with
  | Some bot, Some app =>
    if negb (truthy bot) || negb (truthy app) then
      log INFO (lit "SLACK_BOT_TOKEN or SLACK_APP_TOKEN not set; Slack bot disabled") ;;
      ret None
    else
      try_except
        (try_except
           (get_running_loop ;;
            log INFO (lit "Starting Slack bot in current loop") ;;
            call (AsyncApp_new bot) (EvAsyncApp bot) ;;
            emit (EvAddHandler MessageHandler) ;;
            task <- loop_create_task _setup_and_run ;;
            (if blocking then run_until_complete else ret tt) ;;
            ret (Some task))
           (Except RuntimeError)
           (fun _ =>
              thread_start (lit "slack-bot") ;;
              log INFO (lit "Slack bot started in background thread") ;;
              ret None))
        ExceptException
        (fun e =>
           log ERROR (lit "Failed to initialize Slack bot: " ++ exn_str e) ;;
           ret None)
  | _, _ =>
    log INFO (lit "SLACK_BOT_TOKEN or SLACK_APP_TOKEN not set; Slack bot disabled") ;;
    ret None
  end.

End Bot.

End Slack.

(** ** Scripted collaborators

    A world in which every collaborator answers as a script says, used to
    run the code on concrete inputs. *)

Module Scenario.

Record script := {
  on_get_user : outcome (option UserRecord);
  on_create_user : outcome unit;
  on_generate : outcome str;
  generate_turns : nat;
  on_send_action : outcome unit;
  on_reply_text : option ParseMode -> outcome unit;
  on_say : outcome unit;
  on_build : outcome unit;
  loop_running : bool
}.

#[global] Instance scripted : Collaborators script := {|
  db_get_user_by_username := fun _ w => (on_get_user w, w);
  db_create_user := fun _ w => (on_create_user w, w);
  ai_generate_response := fun _ w => (on_generate w, generate_turns w, w);
  chat_send_action := fun _ _ w => (on_send_action w, w);
  message_reply_text := fun _ _ mode w => (on_reply_text w mode, w);
  Application_build := fun _ w => (on_build w, w);
  slack_say := fun _ w => (on_say w, w);
  AsyncApp_new := fun _ w => (on_build w, w);
  asyncio_running_loop := loop_running
|}.

Definition store_down : error :=
  {| err_class := OtherError; err_str := lit "database is locked" |}.

Definition backend_down : error :=
  {| err_class := OtherError; err_str := lit "provider exhausted" |}.

(** Everything works: the user is known, the backend answers "pong"
    after one turn of the loop. *)
Definition all_well : script := {|
  on_get_user := Ok (Some {| record_username := lit "tg_42" |});
  on_create_user := Ok tt;
  on_generate := Ok (lit "pong");
  generate_turns := 1;
  on_send_action := Ok tt;
  on_reply_text := fun _ => Ok tt;
  on_say := Ok tt;
  on_build := Ok tt;
  loop_running := true
|}.

Definition with_get_user (o : outcome (option UserRecord)) (s : script) : script :=
  {| on_get_user := o; on_create_user := on_create_user s;
     on_generate := on_generate s; generate_turns := generate_turns s;
     on_send_action := on_send_action s; on_reply_text := on_reply_text s;
     on_say := on_say s; on_build := on_build s;
     loop_running := loop_running s |}.

Definition with_create_user (o : outcome unit) (s : script) : script :=
  {| on_get_user := on_get_user s; on_create_user := o;
     on_generate := on_generate s; generate_turns := generate_turns s;
     on_send_action := on_send_action s; on_reply_text := on_reply_text s;
     on_say := on_say s; on_build := on_build s;
     loop_running := loop_running s |}.

Definition with_generate (o : outcome str) (turns : nat) (s : script) : script :=
  {| on_get_user := on_get_user s; on_create_user := on_create_user s;
     on_generate := o; generate_turns := turns;
     on_send_action := on_send_action s; on_reply_text := on_reply_text s;
     on_say := on_say s; on_build := on_build s;
     loop_running := loop_running s |}.

Definition a_config : Config := {|
  files := {| cookies_file := lit "data/cookies.json" |};
  telegram := {| bot_token := None; webhook_url := None; use_webhook := false |};
  slack := {| slack_bot_token := None; slack_app_token := None |}
|}.

(** A Telegram message "ping" from user 42 in chat 7. *)
Definition ping : Update := {|
  upd_message := Some {| msg_text := Some (lit "ping") |};
  effective_user := Some {| user_id := 42 |};
  effective_chat := Some {| chat_id := 7 |}
|}.

(** A Slack message "ping" from user U1. *)
Definition slack_ping : dict :=
  [(lit "text", lit "ping"); (lit "user", lit "U1")].

(** A Slack message whose text is only white space. *)
Definition slack_blank : dict :=
  [(lit "text", lit "   "); (lit "user", lit "U1")].

(** A reply of 4001 characters without a newline. *)
Definition long_reply : str := repeat "a"%char (Z.to_nat 4001).

(** The scenario text of the specification: 9000 characters with
    paragraph breaks at 3990 and 7990. *)
Definition two_breaks : str :=
  repeat "a"%char (Z.to_nat 3990) ++ [NL; NL]
  ++ repeat "b"%char (Z.to_nat 3998) ++ [NL; NL]
  ++ repeat "c"%char (Z.to_nat 1008).

(** A short text with a paragraph break and a line break. *)
Definition short_text : str := lit "ab

cdefgh
ij".

End Scenario.

(** ** Vocabulary of the orchestrator's and the adapters' contracts *)

Module BotSpec.

(** The fallback text of both adapters. *)
Definition APOLOGY : str :=
  lit "Sorry, I couldn't get a response right now. Please try again.".

(** A typing indicator sent by a liveness task. *)
Definition is_indicator (ev : event) : Prop :=
  match ev with EvSendAction _ _ _ => True | _ => False end.

(** [after] continues [before] with events [evs]. *)
Definition continues {W K} (before after : state W K) (evs : list event) : Prop :=
  trace after = trace before ++ evs.

(** The request the orchestrators build. *)
Definition request_for (config : Config) (text username : str) : request :=
  {| req_message := text;
     req_username := username;
     use_history := true;
     remove_sources := true;
     use_proxies := false;
     cookie_file := cookies_file (files config) |}.

(** How the virtual user is resolved: the events of the user store and
    the username the backend is then called with. *)
Inductive resolved (username : str) : list event -> str -> Prop :=
| Known (u : UserRecord) :
    resolved username [EvGetUser username (Ok (Some u))] username
| Created (msg : str) :
    resolved username
      [EvGetUser username (Ok None); EvCreateUser username (Ok tt);
       EvLog INFO msg] username
| Fallback (e : error) (msg : str) :
    resolved username
      [EvGetUser username (Ok None); EvCreateUser username (Fail e);
       EvLog WARNING msg] (lit "admin").

(** The runs of an orchestrator: its events and its result. *)
Inductive orchestrated (config : Config) (text username : str)
    : list event -> result str -> Prop :=
| LookupFailed (e : error) (msg : str) :
    orchestrated config text username
      [EvGetUser username (Fail e); EvLog ERROR msg]
      (Return APOLOGY)
| Answered (pre : list event) (name reply : str) (ind : list event) :
    resolved username pre name ->
    Forall is_indicator ind ->
    orchestrated config text username
      (pre ++ EvGenerate (request_for config text name) (Ok reply) :: ind)
      (Return reply)
| BackendFailed (pre : list event) (name : str) (e : error)
    (ind : list event) (msg : str) :
    resolved username pre name ->
    Forall is_indicator ind ->
    orchestrated config text username
      (pre ++ EvGenerate (request_for config text name) (Fail e) :: ind
           ++ [EvLog ERROR msg])
      (Return APOLOGY).

(** The backend was called and failed. *)
Definition backend_failed (evs : list event) : Prop :=
  exists req e, In (EvGenerate req (Fail e)) evs.

(** The user store failed, at lookup or at creation. *)
Definition store_failed (evs : list event) : Prop :=
  (exists name e, In (EvGetUser name (Fail e)) evs)
  \/ (exists name e, In (EvCreateUser name (Fail e)) evs).

Definition creation_failed (evs : list event) : Prop :=
  exists name e, In (EvCreateUser name (Fail e)) evs.

Definition lookup_failed (evs : list event) : Prop :=
  exists name e, In (EvGetUser name (Fail e)) evs.

(** The backend was called under the identity [name]. *)
Definition backend_called_as (name : str) (evs : list event) : Prop :=
  exists req o, In (EvGenerate req o) evs /\ req_username req = name.

Definition backend_called (evs : list event) : Prop :=
  exists req o, In (EvGenerate req o) evs.

(** A liveness task was started. *)
Definition liveness_started (evs : list event) : Prop :=
  exists id, In (EvCreateTask id) evs.

(** The messages sent to the platform, in order. *)
Definition sent (evs : list event) : list str :=
  flat_map (fun ev => match ev with
                      | EvReplyText text _ _ => [text]
                      | EvSay text _ => [text]
                      | _ => []
                      end) evs.

(** A message sent with [reply_text]. *)
Definition is_reply (ev : event) : Prop :=
  match ev with EvReplyText _ _ _ => True | _ => False end.

(** A liveness task of the Telegram handler that has started and waits
    in its loop, with no cancellation requested. *)
Definition parked (update : Update) : task Telegram.coro :=
  {| task_coro := Telegram.TypingLoop update; task_state := Parked;
     task_must_cancel := false |}.

(** [st'] continues [st] with typing indicators only. *)
Definition quietly {W K} (st st' : state W K) : Prop :=
  exists ind, continues st st' ind /\ Forall is_indicator ind.

(** The coroutines of a program only send indicators, always suspend
    again, and return when cancelled. *)
Definition quiet_coroutines {W K} {P : Coroutines W K} : Prop :=
  forall (k : K) (st : state W K),
    (exists st', co_step (resume k) st = (Return Suspended, st') /\ quietly st st')
    /\ (exists st', co_cancel (resume k) st = (Return tt, st') /\ quietly st st').

(** The result a caller gets from a collaborator's answer. *)
Definition delivered {A} (o : outcome A) : result A :=
  match o with Ok a => Return a | Fail e => Raise (Exc e) end.

End BotSpec.

Import BotSpec.

(** ** Vocabulary of the segmenter's contract

    These definitions follow the wording of the specification; the
    theorems relate them to the code above. *)

Module SegmenterSpec.

(** [sub] occurs in [s] at index [i]. *)
Definition occurs_at (sub s : str) (i : Z) : Prop :=
  0 <= i /\ startswith (slice_from s i) sub = true.

(** [i] is the last index at which [sub] occurs in [s]. *)
Definition last_occurrence (sub s : str) (i : Z) : Prop :=
  occurs_at sub s i /\ forall j, i < j -> ~ occurs_at sub s j.

(** [sub] occurs nowhere in [s]. *)
Definition absent (sub s : str) : Prop := forall j, ~ occurs_at sub s j.

(** A paragraph break and a line break. *)
Definition PARAGRAPH_BREAK : str := [NL; NL].
Definition LINE_BREAK : str := [NL].

(** A run of newlines, as removed by [lstrip("\n")]. *)
Definition newlines (s : str) : Prop := Forall (fun c => c = NL) s.

(** Concatenation of the chunks, each followed by the newlines that were
    stripped after it. *)
Fixpoint restore (chunks stripped : list str) : str :=
  match chunks, stripped with
  | c :: cs, n :: ns => c ++ n ++ restore cs ns
  | _, _ => []
  end.

(** The indices at which [sub] occurs in [s], in increasing order. *)
Fixpoint occurrences_from (sub s : str) (i : Z) : list Z :=
  match s with
  | [] => if startswith [] sub then [i] else []
  | _ :: s' =>
    (if startswith s sub then [i] else []) ++ occurrences_from sub s' (i + 1)
  end.

Definition occurrences (sub s : str) : list Z := occurrences_from sub s 0.

(** [ceil(a / b)] for a positive [b]. *)
Definition ceil_div (a b : Z) : Z := (a + b - 1) / b.

End SegmenterSpec.

Import SegmenterSpec.

(** ** Vocabulary for further properties of the segmenter, the handlers
    and the launchers *)

Module RunSpec.

(** The text without its newlines. *)
Definition content (s : str) : str :=
  filter (fun c => negb (Ascii.eqb c NL)) s.

(** A chunk that is not empty and does not begin with a newline. *)
Definition begins_with_text (c : str) : Prop :=
  exists a t, c = a :: t /\ a <> NL.

(** Every chunk but the last is either as long as the limit or followed,
    in the text, by at least one newline. *)
Fixpoint boundaries (max_len : Z) (chunks stripped : list str) : Prop :=
  match chunks, stripped with
  | c :: ((_ :: _) as cs), n :: ns =>
    (len c = max_len \/ n <> []) /\ boundaries max_len cs ns
  | _, _ => True
  end.

(** A text made of white space only (the empty text included). *)
Definition blank (s : str) : Prop := Forall (fun c => isspace c = true) s.

(** The requests passed to the backend, in order. *)
Definition generate_calls (evs : list event) : list request :=
  flat_map (fun ev => match ev with EvGenerate req _ => [req] | _ => [] end) evs.

(** The lookups of the user store, with their answers, in order. *)
Definition lookups (evs : list event)
    : list (str * outcome (option UserRecord)) :=
  flat_map (fun ev => match ev with
                      | EvGetUser name o => [(name, o)]
                      | _ => []
                      end) evs.

(** The usernames whose creation was attempted, in order. *)
Definition creations (evs : list event) : list str :=
  flat_map (fun ev => match ev with EvCreateUser name _ => [name] | _ => [] end)
    evs.

(** The texts sent with a parse mode (the first attempt of a chunk). *)
Definition first_attempts (evs : list event) : list str :=
  flat_map (fun ev => match ev with
                      | EvReplyText text (Some _) _ => [text]
                      | _ => []
                      end) evs.

(** The threads started and the coroutines scheduled by a launcher. *)
Definition threads_started (evs : list event) : list str :=
  flat_map (fun ev => match ev with EvThreadStart name => [name] | _ => [] end)
    evs.

Definition scheduled (evs : list event) : list receive_loop :=
  flat_map (fun ev => match ev with EvLoopCreateTask c => [c] | _ => [] end) evs.

(** A key that a [dict] does not hold. *)
Definition missing (key : str) (d : dict) : Prop :=
  Forall (fun kv => str_eqb (fst kv) key = false) d.

(** A platform that accepts every message. *)
Definition platform_accepts {W} {C : Collaborators W} : Prop :=
  forall message text mode w,
    fst (message_reply_text message text mode w) = Ok tt.

(** A user store whose lookup never raises. *)
Definition lookup_answers {W} {C : Collaborators W} : Prop :=
  forall name w, exists r, fst (db_get_user_by_username name w) = Ok r.

(** A backend whose call always keeps the caller suspended for at least
    one turn of the event loop. *)
Definition backend_yields {W} {C : Collaborators W} : Prop :=
  forall req w, exists n, snd (fst (ai_generate_response req w)) = S n.

End RunSpec.

Import RunSpec.

(** ** More scripted worlds *)

Module Cases.

Import Scenario.

Definition with_loop (running : bool) (s : script) : script :=
  {| on_get_user := on_get_user s; on_create_user := on_create_user s;
     on_generate := on_generate s; generate_turns := generate_turns s;
     on_send_action := on_send_action s; on_reply_text := on_reply_text s;
     on_say := on_say s; on_build := on_build s;
     loop_running := running |}.

Definition with_build (o : outcome unit) (s : script) : script :=
  {| on_get_user := on_get_user s; on_create_user := on_create_user s;
     on_generate := on_generate s; generate_turns := generate_turns s;
     on_send_action := on_send_action s; on_reply_text := on_reply_text s;
     on_say := on_say s; on_build := o;
     loop_running := loop_running s |}.

Definition with_reply_text (f : option ParseMode -> outcome unit) (s : script)
    : script :=
  {| on_get_user := on_get_user s; on_create_user := on_create_user s;
     on_generate := on_generate s; generate_turns := generate_turns s;
     on_send_action := on_send_action s; on_reply_text := f;
     on_say := on_say s; on_build := on_build s;
     loop_running := loop_running s |}.

Definition bad_markdown : error :=
  {| err_class := BadRequest; err_str := lit "can't parse entities" |}.

Definition invalid_token : error :=
  {| err_class := OtherError; err_str := lit "invalid token" |}.

(** A configuration with both tokens and no webhook. *)
Definition tokens : Config := {|
  files := {| cookies_file := lit "data/cookies.json" |};
  telegram := {| bot_token := Some (lit "123:abc"); webhook_url := None;
                 use_webhook := false |};
  slack := {| slack_bot_token := Some (lit "xoxb-1");
              slack_app_token := Some (lit "xapp-1") |}
|}.

(** An environment that asks for the webhook, in upper case. *)
Definition webhook_env (key : str) : option str :=
  if str_eqb key (lit "TELEGRAM_BOT_TOKEN") then Some (lit "123:abc")
  else if str_eqb key (lit "TELEGRAM_USE_WEBHOOK") then Some (lit "TRUE")
  else if str_eqb key (lit "TELEGRAM_WEBHOOK_URL")
       then Some (lit "https://bot.example/hook")
  else None.

(** The configuration read from that environment: the Telegram and Slack
    sections take their defaults from it (config.py, lines 44-55). *)
Definition webhook_config : Config := {|
  files := {| cookies_file := lit "data/cookies.json" |};
  telegram := TelegramConfig_default webhook_env;
  slack := SlackConfig_default webhook_env
|}.

(** A Telegram update that is a command from a known user. *)
Definition command_update : Update := {|
  upd_message := Some {| msg_text := Some (lit "/help") |};
  effective_user := Some {| user_id := 42 |};
  effective_chat := Some {| chat_id := 7 |}
|}.

(** A Telegram message whose text is white space only. *)
Definition blank_update : Update := {|
  upd_message := Some {| msg_text := Some (lit "   ") |};
  effective_user := Some {| user_id := 42 |};
  effective_chat := Some {| chat_id := 7 |}
|}.

(** A Slack event without a "user" key. *)
Definition anonymous_ping : dict := [(lit "text", lit "ping")].

(** Collaborators that always answer: every user is known, the backend
    replies "pong" after one turn of the loop, the platform accepts every
    message, an event loop is running. *)
#[global] Instance steady : Collaborators unit := {|
  db_get_user_by_username :=
    fun name w => (Ok (Some {| record_username := name |}), w);
  db_create_user := fun _ w => (Ok tt, w);
  ai_generate_response := fun _ w => (Ok (lit "pong"), 1%nat, w);
  chat_send_action := fun _ _ w => (Ok tt, w);
  message_reply_text := fun _ _ _ w => (Ok tt, w);
  Application_build := fun _ w => (Ok tt, w);
  slack_say := fun _ w => (Ok tt, w);
  AsyncApp_new := fun _ w => (Ok tt, w);
  asyncio_running_loop := fun _ => true
|}.

End Cases.

(** * Properties *)

Example split_demo :
  Telegram._split_message (lit "ab

cdefgh
ij") 5 = Some [lit "ab"; lit "cdefg"; lit "h
ij"].
Proof. vm_compute. reflexivity. Qed.

(** ** Python string primitives *)

Section PyFacts.

Lemma len_nonneg (s : str) : 0 <= len s.
Proof. unfold len. lia. Qed.

Lemma len_app (s t : str) : len (s ++ t) = len s + len t.
Proof. unfold len. rewrite length_app. lia. Qed.

Lemma bound_nonneg (s : str) (k : Z) : 0 <= k -> bound s k = Z.to_nat k.
Proof. intros H. unfold bound. destruct (Z.leb_spec 0 k); [reflexivity | lia]. Qed.

Lemma slice_to_from (s : str) (k : Z) : slice_to s k ++ slice_from s k = s.
Proof. unfold slice_to, slice_from. apply firstn_skipn. Qed.

Lemma len_slice_to (s : str) (k : Z) :
  0 <= k -> len (slice_to s k) = Z.min k (len s).
Proof.
  intros H. unfold slice_to, len. rewrite bound_nonneg by assumption.
  rewrite length_firstn. lia.
Qed.

Lemma len_slice_from (s : str) (k : Z) :
  0 <= k -> len (slice_from s k) = len s - Z.min k (len s).
Proof.
  intros H. unfold slice_from, len. rewrite bound_nonneg by assumption.
  rewrite length_skipn. lia.
Qed.

Lemma startswith_iff (sub s : str) :
  startswith s sub = true <-> exists t, s = sub ++ t.
Proof.
  revert s. induction sub as [|c sub IH]; intros s; simpl.
  - split; [intros _; exists s; reflexivity | reflexivity].
  - destruct s as [|d s].
    + split; [discriminate | intros [t Ht]; discriminate].
    + rewrite andb_true_iff, Ascii.eqb_eq, IH. split.
      * intros [-> [t ->]]. exists t. reflexivity.
      * intros [t Ht]. injection Ht as -> ->. split; [reflexivity | exists t; reflexivity].
Qed.

Lemma startswith_false_iff (sub s : str) :
  startswith s sub = false <-> ~ exists t, s = sub ++ t.
Proof.
  rewrite <- startswith_iff. destruct (startswith s sub); split; congruence.
Qed.

End PyFacts.

Section RfindFacts.

Variable sub : str.
Hypothesis sub_nonempty : sub <> [].

Lemma startswith_nil : startswith [] sub = false.
Proof. destruct sub; [congruence | reflexivity]. Qed.

Lemma startswith_skipn_nil (n : nat) : startswith (skipn n (@nil ascii)) sub = false.
Proof. rewrite skipn_nil. apply startswith_nil. Qed.

Lemma rfind_from_spec (s : str) : forall i best,
  (rfind_from s sub i best = best /\
     forall n, startswith (skipn n s) sub = false)
  \/ (exists n, rfind_from s sub i best = i + Z.of_nat n /\
        startswith (skipn n s) sub = true /\
        forall m, (n < m)%nat -> startswith (skipn m s) sub = false).
Proof.
  induction s as [|a s IH]; intros i best.
  - left. simpl. rewrite startswith_nil. split; [reflexivity|].
    intros n. apply startswith_skipn_nil.
  - cbn [rfind_from].
    destruct (IH (i + 1) (if startswith (a :: s) sub then i else best))
      as [[Hr Hno] | [n [Hr [Hocc Hlast]]]].
    + destruct (startswith (a :: s) sub) eqn:E.
      * right. exists 0%nat. split; [rewrite Hr; simpl; lia|]. split; [exact E|].
        intros m Hm. destruct m as [|m]; [lia|]. apply Hno.
      * left. split; [exact Hr|]. intros [|n]; [exact E | apply Hno].
    + right. exists (S n). split; [rewrite Hr; lia|]. split; [exact Hocc|].
      intros m Hm. destruct m as [|m]; [lia|]. apply Hlast. lia.
Qed.

Lemma len_sub_pos : 0 < len sub.
Proof. unfold len. destruct sub; [congruence | simpl; lia]. Qed.

Lemma occurs_at_lt (s : str) (i : Z) : occurs_at sub s i -> i + len sub <= len s.
Proof.
  intros [H0 H]. apply startswith_iff in H. destruct H as [t Ht].
  pose proof (len_slice_from s H0) as L. rewrite Ht, len_app in L.
  pose proof (len_nonneg t). pose proof len_sub_pos. lia.
Qed.

Lemma rfind_spec (s : str) :
  (rfind s sub = -1 /\ absent sub s) \/ last_occurrence sub s (rfind s sub).
Proof.
  unfold rfind.
  destruct (rfind_from_spec s 0 (-1)) as [[Hr Hno] | [n [Hr [Hocc Hlast]]]].
  - left. split; [exact Hr|]. intros j [Hj H].
    unfold slice_from in H. rewrite bound_nonneg in H by assumption.
    rewrite Hno in H. discriminate.
  - right. rewrite Hr. split.
    + split; [lia|]. unfold slice_from. rewrite bound_nonneg by lia.
      replace (Z.to_nat (0 + Z.of_nat n)) with n by lia. exact Hocc.
    + intros j Hj [Hj0 H]. unfold slice_from in H.
      rewrite bound_nonneg in H by assumption.
      rewrite Hlast in H by lia. discriminate.
Qed.

Lemma last_occurrence_unique (s : str) (i j : Z) :
  last_occurrence sub s i -> last_occurrence sub s j -> i = j.
Proof.
  intros [Hi Li] [Hj Lj].
  destruct (Z.lt_trichotomy i j) as [H | [H | H]]; [| exact H |].
  - exfalso. exact (Li j H Hj).
  - exfalso. exact (Lj i H Hi).
Qed.

Lemma rfind_range (s : str) : rfind s sub = -1 \/ 0 <= rfind s sub < len s.
Proof.
  destruct (rfind_spec s) as [[H _] | [H _]]; [left; exact H | right].
  pose proof (occurs_at_lt H) as L. destruct H as [H0 _].
  pose proof len_sub_pos. lia.
Qed.

Lemma rfind_last (s : str) (i : Z) : last_occurrence sub s i -> rfind s sub = i.
Proof.
  intros H. destruct (rfind_spec s) as [[_ Habs] | Hl].
  - exfalso. destruct H as [H _]. exact (Habs i H).
  - exact (last_occurrence_unique Hl H).
Qed.

Lemma rfind_absent (s : str) : absent sub s -> rfind s sub = -1.
Proof.
  intros H. destruct (rfind_spec s) as [[Hr _] | [Hocc _]]; [exact Hr|].
  exfalso. exact (H _ Hocc).
Qed.

End RfindFacts.

Section LstripFacts.

Lemma lstrip_NL_cons (s : str) : lstrip (NL :: s) [NL] = lstrip s [NL].
Proof. reflexivity. Qed.

Lemma lstrip_head (c : ascii) (s : str) : c <> NL -> lstrip (c :: s) [NL] = c :: s.
Proof.
  intros H. simpl. destruct (Ascii.eqb_spec c NL) as [E | E]; [contradiction | reflexivity].
Qed.

Lemma lstrip_decomp (s : str) :
  exists run, newlines run /\ s = run ++ lstrip s [NL].
Proof.
  induction s as [|c s [run [Hrun Hs]]].
  - exists []. split; [constructor | reflexivity].
  - destruct (Ascii.eqb_spec c NL) as [-> | E].
    + exists (NL :: run). split; [constructor; [reflexivity | exact Hrun]|].
      rewrite lstrip_NL_cons. simpl. f_equal. exact Hs.
    + exists []. split; [constructor|]. rewrite lstrip_head by assumption. reflexivity.
Qed.

Lemma lstrip_length (s : str) : (List.length (lstrip s [NL]) <= List.length s)%nat.
Proof.
  destruct (lstrip_decomp s) as [run [_ H]].
  rewrite H at 2. rewrite length_app. lia.
Qed.

Lemma lstrip_no_NL (s : str) : ~ In NL s -> lstrip s [NL] = s.
Proof.
  destruct s as [|c s]; [reflexivity|]. intros H. apply lstrip_head.
  intros ->. apply H. left. reflexivity.
Qed.

End LstripFacts.

(** ** The split point *)

Section SplitPoint.

Lemma PARAGRAPH_BREAK_nonempty : PARAGRAPH_BREAK <> [].
Proof. discriminate. Qed.

Lemma LINE_BREAK_nonempty : LINE_BREAK <> [].
Proof. discriminate. Qed.

(** The three cases of lines 46-50, in their order of priority. *)
Lemma split_point_cases (remaining : str) (max_len : Z) :
  let window := slice_to remaining max_len in
  let k := Telegram.split_point remaining max_len in
  last_occurrence PARAGRAPH_BREAK window k
  \/ (absent PARAGRAPH_BREAK window /\ last_occurrence LINE_BREAK window k)
  \/ (absent PARAGRAPH_BREAK window /\ absent LINE_BREAK window /\ k = max_len).
Proof.
  intros window k. subst k. unfold Telegram.split_point. fold window.
  fold PARAGRAPH_BREAK. fold LINE_BREAK.
  destruct (rfind_spec PARAGRAPH_BREAK_nonempty window) as [[Hr Habs] | Hl].
  - rewrite Hr. simpl (-1 =? -1).
    destruct (rfind_spec LINE_BREAK_nonempty window) as [[Hr' Habs'] | Hl'].
    + rewrite Hr'. simpl (-1 =? -1). right. right. auto.
    + assert (E : (rfind window LINE_BREAK =? -1) = false).
      { destruct Hl' as [[H0 _] _]. apply Z.eqb_neq. lia. }
      rewrite E. right. left. auto.
  - assert (E : (rfind window PARAGRAPH_BREAK =? -1) = false).
    { destruct Hl as [[H0 _] _]. apply Z.eqb_neq. lia. }
    rewrite E, E. left. exact Hl.
Qed.

Lemma occurs_at_head (sub s : str) :
  occurs_at (NL :: sub) s 0 -> exists t, s = NL :: t.
Proof.
  intros [_ H]. apply startswith_iff in H. destruct H as [t Ht].
  unfold slice_from in Ht. simpl in Ht. exists (sub ++ t). exact Ht.
Qed.

Lemma split_point_range (remaining : str) (max_len : Z) :
  0 <= max_len -> 0 <= Telegram.split_point remaining max_len <= max_len.
Proof.
  intros Hm.
  assert (W : len (slice_to remaining max_len) <= max_len).
  { rewrite len_slice_to by assumption. lia. }
  destruct (split_point_cases remaining max_len) as [[H _] | [[_ [H _]] | [_ [_ H]]]].
  - pose proof (occurs_at_lt PARAGRAPH_BREAK_nonempty H) as L.
    destruct H as [H0 _]. pose proof (len_sub_pos PARAGRAPH_BREAK_nonempty). lia.
  - pose proof (occurs_at_lt LINE_BREAK_nonempty H) as L.
    destruct H as [H0 _]. pose proof (len_sub_pos LINE_BREAK_nonempty). lia.
  - lia.
Qed.

Lemma slice_to_head (s t : str) (k : Z) (c : ascii) :
  slice_to s k = c :: t -> exists t', s = c :: t'.
Proof.
  unfold slice_to. destruct (bound s k); [discriminate|].
  destruct s as [|d s]; [discriminate|]. simpl. intros H. injection H as -> _.
  exists s. reflexivity.
Qed.

Lemma split_point_zero (remaining : str) (max_len : Z) :
  0 < max_len -> Telegram.split_point remaining max_len = 0 ->
  exists t, remaining = NL :: t.
Proof.
  intros Hm Hk.
  destruct (split_point_cases remaining max_len) as [[H _] | [[_ [H _]] | [_ [_ H]]]].
  - rewrite Hk in H. destruct (occurs_at_head H) as [t Ht].
    exact (slice_to_head _ _ Ht).
  - rewrite Hk in H. destruct (occurs_at_head H) as [t Ht].
    exact (slice_to_head _ _ Ht).
  - lia.
Qed.

(** Every pass through the loop body shortens [remaining]. *)
Lemma split_progress (remaining : str) (max_len : Z) :
  0 < max_len -> max_len < len remaining ->
  (List.length (lstrip (slice_from remaining
                         (Telegram.split_point remaining max_len)) [NL])
   < List.length remaining)%nat.
Proof.
  intros Hm Hlen.
  pose proof (@split_point_range remaining max_len ltac:(lia)) as R.
  destruct (Z.eq_dec (Telegram.split_point remaining max_len) 0) as [E | E].
  - destruct (split_point_zero remaining Hm E) as [t ->].
    rewrite E. unfold slice_from. simpl skipn. rewrite lstrip_NL_cons.
    pose proof (lstrip_length t). simpl. lia.
  - pose proof (lstrip_length (slice_from remaining
                                 (Telegram.split_point remaining max_len))) as L.
    pose proof (@len_slice_from remaining
                  (Telegram.split_point remaining max_len) ltac:(lia)) as F.
    unfold len in *. lia.
Qed.

End SplitPoint.

(** ** The segmentation loop *)

Section SplitLoop.

Variable max_len : Z.
Hypothesis max_len_pos : 0 < max_len.

Lemma split_loop_step (fuel : nat) (remaining : str) (parts : list str) :
  max_len < len remaining ->
  Telegram.split_loop (S fuel) max_len remaining parts =
  Telegram.split_loop fuel max_len
    (lstrip (slice_from remaining (Telegram.split_point remaining max_len)) [NL])
    (parts ++ [slice_to remaining (Telegram.split_point remaining max_len)]).
Proof.
  intros H. cbn [Telegram.split_loop].
  destruct remaining as [|c s]; [unfold len in H; simpl in H; lia|].
  cbn [truthy]. destruct (Z.leb_spec (len (c :: s)) max_len); [lia | reflexivity].
Qed.

Lemma split_loop_fits (fuel : nat) (remaining : str) (parts : list str) :
  remaining <> [] -> len remaining <= max_len ->
  Telegram.split_loop (S fuel) max_len remaining parts = Some (parts ++ [remaining]).
Proof.
  intros Hne H. cbn [Telegram.split_loop].
  destruct remaining as [|c s]; [congruence|].
  cbn [truthy]. destruct (Z.leb_spec (len (c :: s)) max_len); [reflexivity | lia].
Qed.

(** The loop ends within [length remaining + 1] evaluations of its
    condition, and what it appends to [parts] is a segmentation of
    [remaining]. *)
Lemma split_loop_spec (fuel : nat) : forall remaining parts,
  (List.length remaining < fuel)%nat ->
  exists chunks stripped,
    Telegram.split_loop fuel max_len remaining parts = Some (parts ++ chunks) /\
    List.length stripped = List.length chunks /\
    Forall newlines stripped /\
    restore chunks stripped = remaining /\
    Forall (fun c => len c <= max_len) chunks /\
    (remaining <> [] -> chunks <> []).
Proof.
  induction fuel as [|fuel IH]; intros remaining parts Hfuel; [lia|].
  destruct remaining as [|c s].
  - exists [], []. simpl. rewrite app_nil_r. repeat apply conj; auto.
  - destruct (Z.le_gt_cases (len (c :: s)) max_len) as [Hfit | Hlong].
    + exists [c :: s], [[]]. rewrite split_loop_fits by (congruence || assumption).
      repeat apply conj.
      * reflexivity.
      * reflexivity.
      * repeat constructor.
      * cbn [restore]. rewrite !app_nil_r. reflexivity.
      * repeat constructor. exact Hfit.
      * discriminate.
    + rewrite split_loop_step by lia.
      set (k := Telegram.split_point (c :: s) max_len).
      pose proof (@split_progress (c :: s) max_len max_len_pos ltac:(lia)) as P.
      fold k in P.
      destruct (IH (lstrip (slice_from (c :: s) k) [NL])
                   (parts ++ [slice_to (c :: s) k]) ltac:(lia))
        as [chunks [stripped [Hrun [Hlen [Hnl [Hres [Hle _]]]]]]].
      destruct (lstrip_decomp (slice_from (c :: s) k)) as [run [Hrun' Hdec]].
      exists (slice_to (c :: s) k :: chunks), (run :: stripped).
      rewrite Hrun, <- app_assoc. repeat apply conj.
      * reflexivity.
      * simpl. congruence.
      * constructor; assumption.
      * cbn [restore]. rewrite Hres, <- Hdec. apply slice_to_from.
      * constructor; [|exact Hle].
        pose proof (@split_point_range (c :: s) max_len ltac:(lia)) as R. fold k in R.
        rewrite len_slice_to by lia. lia.
      * discriminate.
Qed.

Lemma split_loop_total (remaining : str) (parts : list str) :
  exists chunks,
    Telegram.split_loop (S (List.length remaining)) max_len remaining parts
    = Some chunks.
Proof.
  destruct (@split_loop_spec (S (List.length remaining)) remaining parts ltac:(lia))
    as [chunks [_ [H _]]].
  eauto.
Qed.

End SplitLoop.

(** More fuel never changes an answer. *)
Lemma split_loop_fuel_mono (max_len : Z) (fuel : nat) :
  forall remaining parts chunks,
  Telegram.split_loop fuel max_len remaining parts = Some chunks ->
  forall fuel', (fuel <= fuel')%nat ->
  Telegram.split_loop fuel' max_len remaining parts = Some chunks.
Proof.
  induction fuel as [|fuel IH]; intros remaining parts chunks H fuel' Hle;
    [discriminate|].
  destruct fuel' as [|fuel']; [lia|].
  cbn [Telegram.split_loop] in *.
  destruct (truthy remaining); [|exact H].
  destruct (len remaining <=? max_len); [exact H|].
  apply IH with (fuel' := fuel') in H; [exact H | lia].
Qed.

(** With a limit of zero the loop body makes no progress on a remainder
    that does not begin with a newline: no amount of fuel produces a
    result. The contract below is therefore stated for positive limits. *)
Lemma split_loop_zero_limit_spins (fuel : nat) (c : ascii) (s : str) :
  c <> NL -> forall parts, Telegram.split_loop fuel 0 (c :: s) parts = None.
Proof.
  intros Hc. induction fuel as [|fuel IH]; intros parts; [reflexivity|].
  cbn [Telegram.split_loop truthy].
  destruct (Z.leb_spec (len (c :: s)) 0) as [H | H];
    [unfold len in H; simpl in H; lia|].
  assert (E : Telegram.split_point (c :: s) 0 = 0) by reflexivity.
  rewrite E. unfold slice_from. cbn [bound Z.leb Z.compare Z.to_nat skipn].
  rewrite lstrip_head by assumption. apply IH.
Qed.

(** ** Texts without newlines *)

Section NoNewline.

Lemma In_skipn (A : Type) (x : A) (n : nat) (l : list A) : In x (skipn n l) -> In x l.
Proof.
  intros H. rewrite <- (firstn_skipn n l). apply in_or_app. right. exact H.
Qed.

Lemma In_firstn (A : Type) (x : A) (n : nat) (l : list A) : In x (firstn n l) -> In x l.
Proof.
  intros H. rewrite <- (firstn_skipn n l). apply in_or_app. left. exact H.
Qed.

Lemma occurs_at_In (sub s : str) (i : Z) : occurs_at (NL :: sub) s i -> In NL s.
Proof.
  intros [_ H]. apply startswith_iff in H. destruct H as [t Ht].
  unfold slice_from in Ht. apply In_skipn with (n := bound s i).
  rewrite Ht. left. reflexivity.
Qed.

Lemma split_point_no_NL (remaining : str) (max_len : Z) :
  ~ In NL remaining -> Telegram.split_point remaining max_len = max_len.
Proof.
  intros Hno.
  assert (W : ~ In NL (slice_to remaining max_len)).
  { intros H. apply Hno. exact (In_firstn _ _ _ H). }
  destruct (split_point_cases remaining max_len) as [[H _] | [[_ [H _]] | [_ [_ H]]]].
  - exfalso. exact (W (occurs_at_In H)).
  - exfalso. exact (W (occurs_at_In H)).
  - exact H.
Qed.

(** [ceil_div a b] is the least [q] with [a <= q * b]. *)
Lemma ceil_div_spec (a b : Z) :
  0 < b -> (ceil_div a b - 1) * b < a <= ceil_div a b * b.
Proof.
  intros H. unfold ceil_div.
  pose proof (Z.div_mod (a + b - 1) b ltac:(lia)) as D.
  pose proof (Z.mod_pos_bound (a + b - 1) b H) as B.
  nia.
Qed.

Lemma ceil_div_fits (n m : Z) : 0 < n <= m -> ceil_div n m = 1.
Proof.
  intros H. unfold ceil_div. symmetry.
  apply Z.div_unique with (r := n - 1); lia.
Qed.

Lemma ceil_div_step (n m : Z) : 0 < m -> ceil_div n m = 1 + ceil_div (n - m) m.
Proof.
  intros H. unfold ceil_div.
  replace (n + m - 1) with (n - m + m - 1 + 1 * m) by lia.
  rewrite Z.div_add by lia. lia.
Qed.

Variable max_len : Z.
Hypothesis max_len_pos : 0 < max_len.

Lemma split_loop_no_NL (fuel : nat) : forall remaining parts,
  (List.length remaining < fuel)%nat -> ~ In NL remaining -> remaining <> [] ->
  exists chunks,
    Telegram.split_loop fuel max_len remaining parts = Some (parts ++ chunks) /\
    Z.of_nat (List.length chunks) = ceil_div (len remaining) max_len.
Proof.
  induction fuel as [|fuel IH]; intros remaining parts Hfuel Hno Hne; [lia|].
  assert (Hpos : 0 < len remaining).
  { unfold len. destruct remaining; [congruence | simpl; lia]. }
  destruct (Z.le_gt_cases (len remaining) max_len) as [Hfit | Hlong].
  - exists [remaining]. rewrite split_loop_fits by assumption.
    split; [reflexivity|]. rewrite ceil_div_fits by lia. reflexivity.
  - rewrite split_loop_step by lia.
    rewrite split_point_no_NL by assumption.
    assert (Hno' : ~ In NL (slice_from remaining max_len)).
    { intros H. apply Hno. exact (In_skipn _ _ _ H). }
    rewrite lstrip_no_NL by assumption.
    pose proof (@len_slice_from remaining max_len ltac:(lia)) as L.
    destruct (IH (slice_from remaining max_len)
                 (parts ++ [slice_to remaining max_len])) as [chunks [Hrun Hcount]].
    + unfold len in *. lia.
    + exact Hno'.
    + intros E. rewrite E in L. unfold len in *. simpl in L. lia.
    + exists (slice_to remaining max_len :: chunks).
      rewrite Hrun, <- app_assoc. split; [reflexivity|].
      rewrite (ceil_div_step (len remaining) max_len_pos).
      rewrite L, Z.min_l in Hcount by lia.
      rewrite <- Hcount. simpl List.length. lia.
Qed.

End NoNewline.

(** ** The segmenter's contract *)

(** C3. For every reply and every positive limit the segmenter returns: a
    text within the limit comes back as the single chunk [text]; a longer
    one as a non-empty list of chunks, none longer than the limit, from
    which the text is rebuilt by putting back, after each chunk, the run
    of newlines stripped at that split. *)
Theorem split_message_contract (text : str) (max_len : Z) :
  0 < max_len ->
  exists chunks,
    Telegram._split_message text max_len = Some chunks /\
    (len text <= max_len -> chunks = [text]) /\
    (max_len < len text ->
       chunks <> [] /\
       Forall (fun c => len c <= max_len) chunks /\
       exists stripped,
         List.length stripped = List.length chunks /\
         Forall newlines stripped /\
         restore chunks stripped = text).
Proof.
  intros Hm. unfold Telegram._split_message.
  destruct (Z.leb_spec (len text) max_len) as [Hfit | Hlong].
  - exists [text]. split; [reflexivity|]. split; [reflexivity | lia].
  - destruct (@split_loop_spec max_len Hm (S (List.length text)) text [] ltac:(lia))
      as [chunks [stripped [Hrun [Hlen [Hnl [Hres [Hle Hne]]]]]]].
    exists chunks. split; [exact Hrun|]. split; [lia|].
    intros _. split.
    + apply Hne. intros ->. unfold len in Hlong. simpl in Hlong. lia.
    + split; [exact Hle|]. exists stripped. auto.
Qed.

Lemma split_message_contract_witness :
  0 < 5 /\
  exists chunks,
    Telegram._split_message (lit "ab

cdefgh
ij") 5 = Some chunks /\
    (len (lit "ab

cdefgh
ij") <= 5 -> chunks = [lit "ab

cdefgh
ij"]) /\
    (5 < len (lit "ab

cdefgh
ij") ->
       chunks <> [] /\
       Forall (fun c => len c <= 5) chunks /\
       exists stripped,
         List.length stripped = List.length chunks /\
         Forall newlines stripped /\
         restore chunks stripped = lit "ab

cdefgh
ij").
Proof. split; [lia | apply split_message_contract; lia]. Defined.

(** C5. A reply without any newline that is longer than the (positive)
    limit is segmented in finitely many steps into exactly
    [ceil(length / limit)] chunks, none longer than the limit. *)
Theorem split_message_no_newline (text : str) (max_len : Z) :
  0 < max_len -> ~ In NL text -> max_len < len text ->
  exists chunks,
    Telegram._split_message text max_len = Some chunks /\
    Z.of_nat (List.length chunks) = ceil_div (len text) max_len /\
    Forall (fun c => len c <= max_len) chunks.
Proof.
  intros Hm Hno Hlong. unfold Telegram._split_message.
  destruct (Z.leb_spec (len text) max_len) as [Hfit | _]; [lia|].
  assert (Hne : text <> []).
  { intros ->. unfold len in Hlong. simpl in Hlong. lia. }
  destruct (@split_loop_no_NL max_len Hm (S (List.length text)) text []
              ltac:(lia) Hno Hne) as [chunks [Hrun Hcount]].
  destruct (@split_loop_spec max_len Hm (S (List.length text)) text [] ltac:(lia))
    as [chunks' [_ [Hrun' [_ [_ [_ [Hle _]]]]]]].
  exists chunks. split; [exact Hrun|]. split; [exact Hcount|].
  rewrite Hrun in Hrun'. injection Hrun' as ->. exact Hle.
Qed.

Lemma split_message_no_newline_witness :
  (0 < 4 /\ ~ In NL (lit "abcdefghij") /\ 4 < len (lit "abcdefghij")) /\
  exists chunks,
    Telegram._split_message (lit "abcdefghij") 4 = Some chunks /\
    Z.of_nat (List.length chunks) = ceil_div (len (lit "abcdefghij")) 4 /\
    Forall (fun c => len c <= 4) chunks.
Proof.
  assert (H : 0 < 4 /\ ~ In NL (lit "abcdefghij") /\ 4 < len (lit "abcdefghij")).
  { split; [lia|]. split; [vm_compute; intuition discriminate | vm_compute; reflexivity]. }
  split; [exact H|].
  destruct H as [H1 [H2 H3]]. exact (@split_message_no_newline _ _ H1 H2 H3).
Defined.

(** ** A reply that begins with a paragraph break *)

Section LeadingBreak.

Lemma rfind_from_no_NL (sub s : str) (i best : Z) :
  ~ In NL s -> rfind_from s (NL :: sub) i best = best.
Proof.
  intros Hno.
  destruct (@rfind_from_spec (NL :: sub) ltac:(discriminate) s i best)
    as [[H _] | [n [_ [H _]]]]; [exact H|].
  exfalso. apply Hno. apply startswith_iff in H. destruct H as [t Ht].
  apply In_skipn with (n := n). rewrite Ht. left. reflexivity.
Qed.

Lemma startswith_no_NL (sub s : str) : ~ In NL s -> startswith s (NL :: sub) = false.
Proof.
  intros Hno. destruct s as [|c s]; [reflexivity|]. cbn [startswith].
  destruct (Ascii.eqb_spec NL c) as [<- | _]; [|reflexivity].
  exfalso. apply Hno. left. reflexivity.
Qed.

Lemma rfind_leading_break (body : str) :
  ~ In NL body -> rfind (NL :: NL :: body) PARAGRAPH_BREAK = 0.
Proof.
  intros Hno. unfold rfind, PARAGRAPH_BREAK. cbn [rfind_from].
  replace (startswith (NL :: NL :: body) [NL; NL]) with true by reflexivity.
  replace (startswith (NL :: body) [NL; NL]) with false.
  - apply rfind_from_no_NL. exact Hno.
  - change (startswith (NL :: body) [NL; NL])
      with (Ascii.eqb NL NL && startswith body [NL]).
    rewrite (@startswith_no_NL [] body Hno). reflexivity.
Qed.

Lemma split_point_leading_break (body : str) (max_len : Z) :
  0 < max_len -> ~ In NL body ->
  Telegram.split_point (NL :: NL :: body) max_len = 0.
Proof.
  intros Hm Hno. unfold Telegram.split_point.
  destruct (Z.eq_dec max_len 1) as [-> | Hne]; [reflexivity|].
  assert (W : slice_to (NL :: NL :: body) max_len
              = NL :: NL :: firstn (Z.to_nat max_len - 2) body).
  { unfold slice_to. rewrite bound_nonneg by lia.
    replace (Z.to_nat max_len) with (S (S (Z.to_nat max_len - 2))) at 1 by lia.
    reflexivity. }
  rewrite W. fold PARAGRAPH_BREAK.
  rewrite rfind_leading_break; [reflexivity|].
  intros H. apply Hno. exact (In_firstn _ _ _ H).
Qed.

End LeadingBreak.

(** C10. A reply that begins with a paragraph break followed only by
    non-newline characters, and that is longer than the limit, is split at
    index 0: the first chunk the segmenter emits is the empty string. *)
Theorem split_message_empty_first_chunk (body : str) (max_len : Z) :
  0 < max_len -> ~ In NL body -> max_len < len (NL :: NL :: body) ->
  exists rest,
    Telegram._split_message (NL :: NL :: body) max_len = Some ([] :: rest).
Proof.
  intros Hm Hno Hlong. unfold Telegram._split_message.
  destruct (Z.leb_spec (len (NL :: NL :: body)) max_len) as [Hfit | _]; [lia|].
  rewrite split_loop_step by assumption.
  rewrite split_point_leading_break by assumption.
  unfold slice_from, slice_to. cbn [bound Z.leb Z.compare Z.to_nat skipn firstn].
  rewrite !lstrip_NL_cons, lstrip_no_NL by assumption.
  destruct (@split_loop_spec max_len Hm (List.length (NL :: NL :: body)) body
              ([] ++ [[]]) ltac:(simpl; lia)) as [chunks [_ [Hrun _]]].
  exists chunks. exact Hrun.
Qed.

Lemma split_message_empty_first_chunk_witness :
  (0 < 4 /\ ~ In NL (lit "abcde") /\ 4 < len (NL :: NL :: lit "abcde")) /\
  exists rest,
    Telegram._split_message (NL :: NL :: lit "abcde") 4 = Some ([] :: rest).
Proof.
  assert (H : 0 < 4 /\ ~ In NL (lit "abcde") /\ 4 < len (NL :: NL :: lit "abcde")).
  { split; [lia|]. split; [vm_compute; intuition discriminate | vm_compute; reflexivity]. }
  split; [exact H|].
  destruct H as [H1 [H2 H3]]. exact (@split_message_empty_first_chunk _ _ H1 H2 H3).
Defined.

Example split_message_empty_first_chunk_run :
  Telegram._split_message (NL :: NL :: lit "abcde") 4
  = Some [[]; lit "abcd"; lit "e"].
Proof. vm_compute. reflexivity. Qed.

(** ** Occurrences inside windows and remainders *)

Section Occurrences.

Variable sub : str.
Hypothesis sub_nonempty : sub <> [].

Lemma occurs_at_iff (s : str) (i : Z) :
  occurs_at sub s i <-> 0 <= i /\ exists t, skipn (Z.to_nat i) s = sub ++ t.
Proof.
  unfold occurs_at. split; intros [H0 H]; (split; [exact H0|]).
  - apply startswith_iff in H. unfold slice_from in H.
    rewrite bound_nonneg in H by assumption. exact H.
  - apply startswith_iff. unfold slice_from.
    rewrite bound_nonneg by assumption. exact H.
Qed.

Lemma occurs_at_slice_to (s : str) (n i : Z) :
  0 <= n ->
  (occurs_at sub (slice_to s n) i <-> occurs_at sub s i /\ i + len sub <= n).
Proof.
  intros Hn. split.
  - intros H. pose proof (occurs_at_lt sub_nonempty H) as L.
    rewrite len_slice_to in L by assumption.
    apply occurs_at_iff in H. destruct H as [H0 [t Ht]].
    split; [|lia]. apply occurs_at_iff. split; [exact H0|].
    unfold slice_to in Ht. rewrite skipn_firstn_comm in Ht.
    rewrite <- (firstn_skipn (bound s n - Z.to_nat i) (skipn (Z.to_nat i) s)).
    rewrite Ht, <- app_assoc. eauto.
  - intros [H L]. apply occurs_at_iff in H. destruct H as [H0 [t Ht]].
    apply occurs_at_iff. split; [exact H0|].
    unfold slice_to. rewrite skipn_firstn_comm, Ht, firstn_app.
    rewrite firstn_all2; [eauto|].
    rewrite bound_nonneg by assumption. unfold len in L. lia.
Qed.

Lemma occurs_at_slice_from (s : str) (k i : Z) :
  0 <= k -> 0 <= i ->
  (occurs_at sub (slice_from s k) i <-> occurs_at sub s (k + i)).
Proof.
  intros Hk Hi. rewrite !occurs_at_iff. unfold slice_from.
  rewrite bound_nonneg by assumption. rewrite skipn_skipn.
  replace (Z.to_nat (k + i)) with (Z.to_nat i + Z.to_nat k)%nat by lia.
  split; intros [_ H]; (split; [lia | exact H]).
Qed.

Lemma occurrences_from_spec (s : str) : forall i j,
  In j (occurrences_from sub s i) <->
  exists n, j = i + Z.of_nat n /\ startswith (skipn n s) sub = true.
Proof.
  induction s as [|a s IH]; intros i j.
  - simpl. rewrite (startswith_nil sub_nonempty). split; [contradiction|].
    intros [n [_ H]]. rewrite (startswith_skipn_nil sub_nonempty) in H. discriminate.
  - cbn [occurrences_from]. rewrite in_app_iff, IH. split.
    + intros [H | [n [-> H]]].
      * destruct (startswith (a :: s) sub) eqn:E; [|contradiction].
        destruct H as [<- | []]. exists 0%nat. split; [lia | exact E].
      * exists (S n). split; [lia | exact H].
    + intros [[|n] [-> H]].
      * left. simpl in H. rewrite H. left. lia.
      * right. exists n. split; [lia | exact H].
Qed.

Lemma occurrences_spec (s : str) (j : Z) :
  In j (occurrences sub s) <-> occurs_at sub s j.
Proof.
  unfold occurrences. rewrite occurrences_from_spec. unfold occurs_at, slice_from.
  split.
  - intros [n [-> H]]. split; [lia|]. rewrite bound_nonneg by lia.
    replace (Z.to_nat (0 + Z.of_nat n)) with n by lia. exact H.
  - intros [H0 H]. rewrite bound_nonneg in H by assumption.
    exists (Z.to_nat j). split; [lia | exact H].
Qed.

End Occurrences.

(** ** Splitting at paragraph breaks *)

Section ParagraphBreaks.

Lemma split_point_paragraph (remaining : str) (max_len k : Z) :
  last_occurrence PARAGRAPH_BREAK (slice_to remaining max_len) k ->
  Telegram.split_point remaining max_len = k.
Proof.
  intros H. unfold Telegram.split_point. fold PARAGRAPH_BREAK.
  rewrite (rfind_last PARAGRAPH_BREAK_nonempty H).
  destruct H as [[H0 _] _].
  assert (E : (k =? -1) = false) by (apply Z.eqb_neq; lia).
  rewrite E, E. reflexivity.
Qed.

Lemma lstrip_after_break (text : str) (i : Z) :
  occurs_at PARAGRAPH_BREAK text i ->
  ~ occurs_at PARAGRAPH_BREAK text (i + 1) ->
  lstrip (slice_from text i) [NL] = slice_from text (i + 2).
Proof.
  intros H Hnext.
  apply (occurs_at_iff PARAGRAPH_BREAK) in H. destruct H as [H0 [t Ht]].
  assert (E2 : slice_from text (i + 2) = t).
  { unfold slice_from. rewrite bound_nonneg by lia.
    replace (Z.to_nat (i + 2)) with (2 + Z.to_nat i)%nat by lia.
    rewrite <- skipn_skipn, Ht. reflexivity. }
  unfold slice_from at 1. rewrite bound_nonneg by assumption.
  rewrite Ht, E2. unfold PARAGRAPH_BREAK. cbn [app].
  rewrite !lstrip_NL_cons.
  destruct t as [|c t]; [reflexivity|]. apply lstrip_head. intros ->.
  apply Hnext. apply (occurs_at_iff PARAGRAPH_BREAK). split; [lia|].
  exists t. replace (Z.to_nat (i + 1)) with (1 + Z.to_nat i)%nat by lia.
  rewrite <- skipn_skipn, Ht. reflexivity.
Qed.

Lemma slice_as_window (text : str) (a b : Z) :
  0 <= a <= b -> slice_to (slice_from text a) (b - a) = slice text a b.
Proof.
  intros H. unfold slice_to, slice_from, slice.
  rewrite !bound_nonneg by lia. rewrite skipn_firstn_comm.
  f_equal. lia.
Qed.

Lemma slice_to_end (text : str) (a : Z) :
  0 <= a -> slice_from text a = slice text a (len text).
Proof.
  intros H. unfold slice_from, slice.
  rewrite (bound_nonneg text (len_nonneg text)).
  rewrite firstn_all2; [reflexivity | unfold len; lia].
Qed.

(** The scenario of the specification: 9000 characters, paragraph breaks
    at 3990 and 7990 only, limit 4000. *)
Lemma split_scenario (text : str) :
  len text = 9000 ->
  occurrences PARAGRAPH_BREAK text = [3990; 7990] ->
  Telegram._split_message text 4000
  = Some [slice text 0 3990; slice text 3992 7990; slice text 7992 9000].
Proof.
  intros Hlen Hocc.
  assert (B : forall i, occurs_at PARAGRAPH_BREAK text i <-> i = 3990 \/ i = 7990).
  { intros i. rewrite <- (occurrences_spec PARAGRAPH_BREAK_nonempty), Hocc.
    simpl. intuition lia. }
  assert (L2 : len PARAGRAPH_BREAK = 2) by reflexivity.
  unfold Telegram._split_message.
  destruct (Z.leb_spec (len text) 4000) as [Hfit | _]; [lia|].
  apply split_loop_fuel_mono with (fuel := 3%nat); [|unfold len in Hlen; lia].
  (* first pass: the window is text[:4000], the break at 3990 is its last *)
  assert (K1 : Telegram.split_point text 4000 = 3990).
  { apply split_point_paragraph. split.
    - apply (occurs_at_slice_to PARAGRAPH_BREAK_nonempty); [lia|].
      split; [apply B; auto | lia].
    - intros j Hj H.
      apply (occurs_at_slice_to PARAGRAPH_BREAK_nonempty) in H; [|lia].
      destruct H as [H Hw]. apply B in H. lia. }
  rewrite split_loop_step by lia. rewrite K1.
  rewrite lstrip_after_break; [| apply B; auto | rewrite B; lia].
  change (3990 + 2) with 3992.
  assert (Len1 : len (slice_from text 3992) = 5008).
  { rewrite len_slice_from by lia. lia. }
  (* second pass: the window is text[3992:7992], the break at 7990 is in it *)
  assert (K2 : Telegram.split_point (slice_from text 3992) 4000 = 3998).
  { apply split_point_paragraph. split.
    - apply (occurs_at_slice_to PARAGRAPH_BREAK_nonempty); [lia|].
      split; [|lia].
      apply (occurs_at_slice_from PARAGRAPH_BREAK); [lia | lia |].
      apply B. right. reflexivity.
    - intros j Hj H.
      apply (occurs_at_slice_to PARAGRAPH_BREAK_nonempty) in H; [|lia].
      destruct H as [H Hw].
      apply (occurs_at_slice_from PARAGRAPH_BREAK) in H; [|lia|lia].
      apply B in H. lia. }
  rewrite split_loop_step by lia. rewrite K2.
  assert (R2 : slice_from (slice_from text 3992) 3998 = slice_from text 7990).
  { unfold slice_from. rewrite !bound_nonneg by lia. rewrite skipn_skipn.
    f_equal. }
  rewrite R2.
  rewrite lstrip_after_break; [| apply B; auto | rewrite B; lia].
  change (7990 + 2) with 7992.
  assert (Len2 : len (slice_from text 7992) = 1008).
  { rewrite len_slice_from by lia. lia. }
  rewrite split_loop_fits.
  - assert (C1 : slice_to text 3990 = slice text 0 3990) by reflexivity.
    assert (C2 : slice_to (slice_from text 3992) 3998 = slice text 3992 7990).
    { change 3998 with (7990 - 3992). apply slice_as_window. lia. }
    assert (C3 : slice_from text 7992 = slice text 7992 9000).
    { rewrite <- Hlen. apply slice_to_end. lia. }
    rewrite C1, C2, C3. reflexivity.
  - intros E. rewrite E in Len2. discriminate.
  - lia.
Qed.

End ParagraphBreaks.

(** ** The event loop never disturbs the caller *)

Section QuietLoop.

Context {W K : Type} {C : Collaborators W} {P : Coroutines W K}.

Lemma quietly_refl (st : state W K) : quietly st st.
Proof. exists []. split; [unfold continues; rewrite app_nil_r; reflexivity | constructor]. Qed.

Lemma quietly_trans (a b c : state W K) : quietly a b -> quietly b c -> quietly a c.
Proof.
  intros [i1 [H1 F1]] [i2 [H2 F2]]. exists (i1 ++ i2). split.
  - unfold continues in *. rewrite H2, H1, app_assoc. reflexivity.
  - apply Forall_app. split; assumption.
Qed.

Hypothesis quiet : quiet_coroutines (W := W) (K := K).

Lemma set_task_run (id : nat) (f : task K -> task K) (st : state W K) :
  exists st', set_task id f st = (Return tt, st') /\ quietly st st'.
Proof.
  eexists. split; [reflexivity|]. exists []. split; [|constructor].
  unfold continues. simpl. rewrite app_nil_r. reflexivity.
Qed.

Lemma run_task_run (id : nat) (st : state W K) :
  exists st', run_task id st = (Return tt, st') /\ quietly st st'.
Proof.
  unfold run_task. destruct (nth_error (tasks st) id) as [t|].
  2:{ exists st. split; [reflexivity | apply quietly_refl]. }
  destruct (quiet (task_coro t) st) as [[s1 [E1 Q1]] [s2 [E2 Q2]]].
  destruct (task_state t), (task_must_cancel t).
  - apply set_task_run.
  - unfold run_piece. rewrite E1.
    destruct (set_task_run id (fun t => {| task_coro := task_coro t;
                task_state := Parked; task_must_cancel := false |}) s1)
      as [s [E Q]].
    exists s. split; [exact E | exact (quietly_trans Q1 Q)].
  - unfold run_piece, bind. rewrite E2. cbn.
    eexists. split; [reflexivity|]. apply (quietly_trans Q2).
    exists []. split; [|constructor]. unfold continues. simpl.
    rewrite app_nil_r. reflexivity.
  - unfold run_piece. rewrite E1.
    destruct (set_task_run id (fun t => {| task_coro := task_coro t;
                task_state := Parked; task_must_cancel := false |}) s1)
      as [s [E Q]].
    exists s. split; [exact E | exact (quietly_trans Q1 Q)].
  - exists st. split; [reflexivity | apply quietly_refl].
  - exists st. split; [reflexivity | apply quietly_refl].
Qed.

Lemma for_each_run_task (ids : list nat) : forall st : state W K,
  exists st', for_each ids run_task st = (Return tt, st') /\ quietly st st'.
Proof.
  induction ids as [|id ids IH]; intros st.
  - exists st. split; [reflexivity | apply quietly_refl].
  - cbn [for_each]. unfold bind.
    destruct (run_task_run id st) as [s1 [E1 Q1]]. rewrite E1.
    destruct (IH s1) as [s2 [E2 Q2]]. exists s2.
    split; [exact E2 | exact (quietly_trans Q1 Q2)].
Qed.

Lemma loop_turn_run (st : state W K) :
  exists st', loop_turn st = (Return tt, st') /\ quietly st st'.
Proof. apply for_each_run_task. Qed.

Lemma suspend_run (n : nat) : forall st : state W K,
  exists st', suspend n st = (Return tt, st') /\ quietly st st'.
Proof.
  induction n as [|n IH]; intros st.
  - exists st. split; [reflexivity | apply quietly_refl].
  - cbn [suspend]. unfold bind.
    destruct (loop_turn_run st) as [s1 [E1 Q1]]. rewrite E1.
    destruct (IH s1) as [s2 [E2 Q2]]. exists s2.
    split; [exact E2 | exact (quietly_trans Q1 Q2)].
Qed.

Lemma call_run {A} (f : W -> outcome A * W) (ev : outcome A -> event)
    (st : state W K) :
  exists o st', call f ev st = (delivered o, st') /\
                continues st st' [ev o] /\ tasks st' = tasks st.
Proof.
  unfold call. destruct (f (world st)) as [o w].
  exists o. eexists. split; [destruct o; reflexivity|].
  split; reflexivity.
Qed.

Lemma generate_response_run (req : request) (st : state W K) :
  exists o ind st',
    generate_response req st = (delivered o, st') /\
    continues st st' (EvGenerate req o :: ind) /\ Forall is_indicator ind.
Proof.
  unfold generate_response, await.
  destruct (ai_generate_response req (world st)) as [[o n] w].
  unfold bind.
  destruct (suspend_run n {| world := w; trace := trace st ++ [EvGenerate req o];
                             tasks := tasks st |}) as [s1 [E1 [ind [Hc Hi]]]].
  rewrite E1. exists o, ind, s1. split; [destruct o; reflexivity|].
  split; [|exact Hi]. unfold continues in *. rewrite Hc. simpl.
  rewrite <- app_assoc. reflexivity.
Qed.

End QuietLoop.

(** ** The orchestrators *)

Section Orchestrators.

Context {W : Type} {C : Collaborators W}.
Variable config : Config.

Lemma telegram_quiet : quiet_coroutines (W := W) (K := Telegram.coro).
Proof.
  intros [update] st. split.
  - cbn [resume Telegram.telegram_coroutines Telegram._typing_loop co_step].
    unfold bind, try_except.
    destruct (effective_chat update) as [chat|].
    + unfold send_action.
      destruct (call_run (chat_send_action chat TYPING)
                  (EvSendAction chat TYPING) st) as [o [s1 [E [Hc _]]]].
      rewrite E. exists s1.
      split; [destruct o; reflexivity|].
      exists [EvSendAction chat TYPING o]. split; [exact Hc|].
      repeat constructor.
    + exists st. split; [reflexivity | apply quietly_refl].
  - exists st. split; [reflexivity | apply quietly_refl].
Qed.

Lemma slack_quiet : quiet_coroutines (W := W) (K := Slack.coro).
Proof. intros []. Qed.

Ltac answer_tail quiet :=
  match goal with
  | |- context [generate_response ?req ?s] =>
    let o := fresh "o" in let ind := fresh "ind" in let s2 := fresh "s" in
    let E := fresh "E" in let H := fresh "H" in let F := fresh "F" in
    destruct (generate_response_run quiet req s) as [o [ind [s2 [E [H F]]]]];
    rewrite E; destruct o as [reply | e']; cbn [delivered handles]
  end.

Ltac chain :=
  unfold continues in *;
  repeat (cbn [trace];
          match goal with H : trace _ = _ |- _ => rewrite H; clear H end);
  cbn [trace]; repeat rewrite <- app_assoc; cbn [app]; reflexivity.

Ltac finish shape :=
  do 3 eexists; split; [reflexivity|]; split; [|shape]; chain.

(** Every run of the Telegram orchestrator has one of the three shapes
    of [orchestrated]. *)
Lemma telegram_orchestrated (text username : str) (st : state W Telegram.coro) :
  exists evs r st',
    Telegram._generate_answer config text username st = (r, st') /\
    continues st st' evs /\ orchestrated config text username evs r.
Proof.
  unfold Telegram._generate_answer, try_except at 1, bind at 1.
  unfold get_user_by_username.
  destruct (call_run (K := Telegram.coro) (db_get_user_by_username username)
              (EvGetUser username) st) as [o1 [s1 [E1 [H1 _]]]].
  rewrite E1.
  destruct o1 as [[u|]|e]; cbn [delivered].
  - unfold bind, ret. answer_tail (@telegram_quiet).
    + finish ltac:(eapply Answered; [apply Known | eassumption]).
    + unfold log, emit.
      finish ltac:(eapply BackendFailed; [apply Known | eassumption]).
  - unfold try_except, bind at 1 2, create_user.
    destruct (call_run (K := Telegram.coro) (db_create_user username)
                (EvCreateUser username) s1) as [o2 [s2 [E2 [H2 _]]]].
    rewrite E2. destruct o2 as [[]|e]; cbn [delivered handles].
    + unfold log, emit, bind, ret. answer_tail (@telegram_quiet).
      * finish ltac:(eapply Answered; [apply Created | eassumption]).
      * finish ltac:(eapply BackendFailed; [apply Created | eassumption]).
    + unfold log, emit, bind, ret. answer_tail (@telegram_quiet).
      * finish ltac:(eapply Answered; [apply Fallback | eassumption]).
      * finish ltac:(eapply BackendFailed; [apply Fallback | eassumption]).
  - cbn [handles]. unfold log, emit, bind, ret.
    finish ltac:(apply LookupFailed).
Qed.

(** The Slack orchestrator runs the same way under the identity
    [slack_<user_id>]. *)
Lemma slack_orchestrated (text user_id : str) (st : state W Slack.coro) :
  exists evs r st',
    Slack._generate_answer config text user_id st = (r, st') /\
    continues st st' evs /\
    orchestrated config text (lit "slack_" ++ user_id) evs r.
Proof.
  unfold Slack._generate_answer, try_except at 1, bind at 1.
  unfold get_user_by_username.
  set (username := lit "slack_" ++ user_id).
  destruct (call_run (K := Slack.coro) (db_get_user_by_username username)
              (EvGetUser username) st) as [o1 [s1 [E1 [H1 _]]]].
  rewrite E1.
  destruct o1 as [[u|]|e]; cbn [delivered].
  - unfold bind, ret. answer_tail (@slack_quiet).
    + finish ltac:(eapply Answered; [apply Known | eassumption]).
    + unfold log, emit.
      finish ltac:(eapply BackendFailed; [apply Known | eassumption]).
  - unfold try_except, bind at 1 2, create_user.
    destruct (call_run (K := Slack.coro) (db_create_user username)
                (EvCreateUser username) s1) as [o2 [s2 [E2 [H2 _]]]].
    rewrite E2. destruct o2 as [[]|e]; cbn [delivered handles].
    + unfold log, emit, bind, ret. answer_tail (@slack_quiet).
      * finish ltac:(eapply Answered; [apply Created | eassumption]).
      * finish ltac:(eapply BackendFailed; [apply Created | eassumption]).
    + unfold log, emit, bind, ret. answer_tail (@slack_quiet).
      * finish ltac:(eapply Answered; [apply Fallback | eassumption]).
      * finish ltac:(eapply BackendFailed; [apply Fallback | eassumption]).
  - cbn [handles]. unfold log, emit, bind, ret.
    finish ltac:(apply LookupFailed).
Qed.

End Orchestrators.

(** ** What the shapes of a run imply *)

Section Shapes.

Lemma events_since_continues {W K} (st st' : state W K) (evs : list event) :
  continues st st' evs -> events_since st st' = evs.
Proof.
  unfold continues, events_since. intros ->.
  rewrite skipn_app, skipn_all, Nat.sub_diag. reflexivity.
Qed.

Lemma sent_app (a b : list event) : sent (a ++ b) = sent a ++ sent b.
Proof. apply flat_map_app. Qed.

Lemma indicator_only (ind : list event) (ev : event) :
  Forall is_indicator ind -> In ev ind -> is_indicator ev.
Proof. intros F H. rewrite Forall_forall in F. exact (F ev H). Qed.

Variable config : Config.
Variables text username : str.

Lemma resolved_no_generate (pre : list event) (name : str) (req : request)
    (o : outcome str) :
  resolved username pre name -> ~ In (EvGenerate req o) pre.
Proof.
  intros R H. destruct R; simpl in H; intuition discriminate.
Qed.

Lemma resolved_lookup_ok (pre : list event) (name who : str) (e : error) :
  resolved username pre name -> ~ In (EvGetUser who (Fail e)) pre.
Proof.
  intros R H. destruct R; simpl in H; intuition discriminate.
Qed.

Lemma resolved_creation_failed (pre : list event) (name who : str) (e : error) :
  resolved username pre name -> In (EvCreateUser who (Fail e)) pre ->
  name = lit "admin".
Proof.
  intros R H. destruct R; simpl in H; intuition (discriminate || reflexivity).
Qed.

Lemma orchestrated_returns (evs : list event) (r : result str) :
  orchestrated config text username evs r -> exists reply, r = Return reply.
Proof. intros H. destruct H; eauto. Qed.

Lemma orchestrated_backend_failed (evs : list event) (r : result str) :
  orchestrated config text username evs r -> backend_failed evs ->
  r = Return APOLOGY.
Proof.
  intros H [req [e Hin]]. destruct H as [e0 msg | pre name reply ind R F | ];
    [reflexivity | | reflexivity].
  exfalso. apply in_app_or in Hin. destruct Hin as [Hin | [Hin | Hin]].
  - eapply resolved_no_generate; eassumption.
  - discriminate.
  - exact (@indicator_only _ _ F Hin).
Qed.

Lemma orchestrated_creation_failed (evs : list event) (r : result str) :
  orchestrated config text username evs r -> creation_failed evs ->
  exists o, In (EvGenerate (request_for config text (lit "admin")) o) evs /\
            r = Return (match o with Ok reply => reply | Fail _ => APOLOGY end).
Proof.
  intros H [who [e Hin]].
  destruct H as [e0 msg | pre name reply ind R F | pre name e0 ind msg R F].
  - simpl in Hin. intuition discriminate.
  - assert (N : name = lit "admin").
    { apply in_app_or in Hin. destruct Hin as [Hin | [Hin | Hin]].
      - eapply resolved_creation_failed; eassumption.
      - discriminate.
      - destruct (@indicator_only _ _ F Hin). }
    subst name. exists (Ok reply). split; [|reflexivity].
    apply in_or_app. right. left. reflexivity.
  - assert (N : name = lit "admin").
    { apply in_app_or in Hin. destruct Hin as [Hin | [Hin | Hin]].
      - eapply resolved_creation_failed; eassumption.
      - discriminate.
      - apply in_app_or in Hin. destruct Hin as [Hin | [Hin | []]].
        + destruct (@indicator_only _ _ F Hin).
        + discriminate. }
    subst name. exists (Fail e0). split; [|reflexivity].
    apply in_or_app. right. left. reflexivity.
Qed.

Lemma orchestrated_lookup_failed (evs : list event) (r : result str) :
  orchestrated config text username evs r -> lookup_failed evs ->
  ~ backend_called evs /\ r = Return APOLOGY.
Proof.
  intros H [who [e Hin]].
  destruct H as [e0 msg | pre name reply ind R F | pre name e0 ind msg R F].
  - split; [|reflexivity]. intros [req [o H]]. simpl in H. intuition discriminate.
  - exfalso. apply in_app_or in Hin. destruct Hin as [Hin | [Hin | Hin]].
    + eapply resolved_lookup_ok; eassumption.
    + discriminate.
    + exact (@indicator_only _ _ F Hin).
  - exfalso. apply in_app_or in Hin. destruct Hin as [Hin | [Hin | Hin]].
    + eapply resolved_lookup_ok; eassumption.
    + discriminate.
    + apply in_app_or in Hin. destruct Hin as [Hin | [Hin | []]].
      * exact (@indicator_only _ _ F Hin).
      * discriminate.
Qed.

Lemma orchestrated_reply_or_empty (evs : list event) (reply : str) :
  orchestrated config text username evs (Return reply) ->
  reply <> [] \/ exists req, In (EvGenerate req (Ok [])) evs.
Proof.
  intros H. inversion H; subst.
  - left. discriminate.
  - destruct reply as [|c reply]; [right | left; discriminate].
    eexists. apply in_or_app. right. left. reflexivity.
  - left. discriminate.
Qed.

Lemma orchestrated_answer (evs : list event) (reply : str) (req : request)
    (answer : str) :
  orchestrated config text username evs (Return reply) ->
  In (EvGenerate req (Ok answer)) evs -> reply = answer.
Proof.
  intros H Hin. inversion H as [e msg | pre name reply' ind R F | pre name e ind msg R F];
    subst.
  - simpl in Hin. intuition discriminate.
  - apply in_app_or in Hin. destruct Hin as [Hin | [Hin | Hin]].
    + exfalso. eapply resolved_no_generate; eassumption.
    + injection Hin as _ ->. reflexivity.
    + destruct (@indicator_only _ _ F Hin).
  - exfalso. apply in_app_or in Hin. destruct Hin as [Hin | [Hin | Hin]].
    + eapply resolved_no_generate; eassumption.
    + discriminate.
    + apply in_app_or in Hin. destruct Hin as [Hin | [Hin | []]].
      * exact (@indicator_only _ _ F Hin).
      * discriminate.
Qed.

Lemma orchestrated_no_answer (evs : list event) (reply : str) :
  orchestrated config text username evs (Return reply) ->
  (forall req answer, ~ In (EvGenerate req (Ok answer)) evs) ->
  reply = APOLOGY.
Proof.
  intros H Hno. inversion H as [e msg | pre name reply' ind R F | pre name e ind msg R F];
    subst.
  - reflexivity.
  - exfalso. eapply Hno. apply in_or_app. right. left. reflexivity.
  - reflexivity.
Qed.

Lemma orchestrated_backend_called (evs : list event) (r : result str) :
  orchestrated config text username evs r ->
  ~ lookup_failed evs -> backend_called evs.
Proof.
  intros H Hno.
  destruct H as [e msg | pre name reply ind R F | pre name e ind msg R F].
  - exfalso. apply Hno. exists username, e. left. reflexivity.
  - eexists _, _. apply in_or_app. right. left. reflexivity.
  - eexists _, _. apply in_or_app. right. left. reflexivity.
Qed.

Lemma orchestrated_quiet (evs : list event) (r : result str) :
  orchestrated config text username evs r ->
  ~ liveness_started evs /\ sent evs = [].
Proof.
  assert (S : forall ind, Forall is_indicator ind -> sent ind = []).
  { induction 1 as [|ev ind Hev _ IH]; [reflexivity|].
    destruct ev; try contradiction. exact IH. }
  assert (R : forall pre name, resolved username pre name ->
                (forall id, ~ In (EvCreateTask id) pre) /\ sent pre = []).
  { intros pre name H. destruct H; (split; [|reflexivity]);
      intros id Hin; simpl in Hin; intuition discriminate. }
  intros H. destruct H as [e0 msg | pre name reply ind Hr F | pre name e0 ind msg Hr F].
  - split; [|reflexivity]. intros [id Hin]. simpl in Hin. intuition discriminate.
  - destruct (R _ _ Hr) as [R1 R2]. split.
    + intros [id Hin]. apply in_app_or in Hin. destruct Hin as [Hin | [Hin | Hin]].
      * exact (R1 id Hin).
      * discriminate.
      * exact (@indicator_only _ _ F Hin).
    + rewrite sent_app, R2. cbn [app]. exact (S ind F).
  - destruct (R _ _ Hr) as [R1 R2]. split.
    + intros [id Hin]. apply in_app_or in Hin. destruct Hin as [Hin | [Hin | Hin]].
      * exact (R1 id Hin).
      * discriminate.
      * apply in_app_or in Hin. destruct Hin as [Hin | [Hin | []]].
        -- exact (@indicator_only _ _ F Hin).
        -- discriminate.
    + rewrite sent_app, R2. cbn [app].
      change (sent (EvGenerate (request_for config text name) (Fail e0)
                    :: ind ++ [EvLog ERROR msg]))
        with (sent (ind ++ [EvLog ERROR msg])).
      rewrite sent_app, (S ind F). reflexivity.
Qed.

End Shapes.

(** ** The orchestrator's contract *)

(** C1. Whatever the text and the username, when the call of the AI
    backend fails the orchestrator of either adapter returns the apology
    string: it returns, and what it returns is exactly that string. *)
Theorem orchestrator_contains_backend_failure
    {W : Type} {C : Collaborators W} (config : Config) (text username : str) :
  (forall st : state W Telegram.coro,
     let run := Telegram._generate_answer config text username st in
     backend_failed (events_since st (snd run)) ->
     fst run = Return APOLOGY)
  /\
  (forall st : state W Slack.coro,
     let run := Slack._generate_answer config text username st in
     backend_failed (events_since st (snd run)) ->
     fst run = Return APOLOGY).
Proof.
  split; intros st.
  - destruct (telegram_orchestrated config text username st)
      as [evs [r [st' [E [Hc Hs]]]]].
    cbv zeta. rewrite E. cbn [fst snd].
    rewrite (events_since_continues Hc).
    exact (orchestrated_backend_failed Hs).
  - destruct (slack_orchestrated config text username st)
      as [evs [r [st' [E [Hc Hs]]]]].
    cbv zeta. rewrite E. cbn [fst snd].
    rewrite (events_since_continues Hc).
    exact (orchestrated_backend_failed Hs).
Qed.

Lemma orchestrator_contains_backend_failure_witness :
  let failing := Scenario.with_generate (Fail Scenario.backend_down) 2
                   Scenario.all_well in
  let tg := Telegram._generate_answer Scenario.a_config (lit "ping")
              (lit "tg_42") (initial failing) in
  let sl := Slack._generate_answer Scenario.a_config (lit "ping")
              (lit "tg_42") (initial failing) in
  (backend_failed (events_since (initial failing) (snd tg)) /\
   backend_failed (events_since (initial failing) (snd sl))) /\
  fst tg = Return APOLOGY /\ fst sl = Return APOLOGY.
Proof.
  cbv zeta.
  assert (Htg : backend_failed
                  (events_since
                     (initial (Scenario.with_generate (Fail Scenario.backend_down) 2
                                 Scenario.all_well))
                     (snd (Telegram._generate_answer Scenario.a_config (lit "ping")
                             (lit "tg_42")
                             (initial (Scenario.with_generate
                                         (Fail Scenario.backend_down) 2
                                         Scenario.all_well)))))).
  { eexists. eexists. vm_compute. right. left. reflexivity. }
  assert (Hsl : backend_failed
                  (events_since
                     (initial (Scenario.with_generate (Fail Scenario.backend_down) 2
                                 Scenario.all_well))
                     (snd (Slack._generate_answer Scenario.a_config (lit "ping")
                             (lit "tg_42")
                             (initial (Scenario.with_generate
                                         (Fail Scenario.backend_down) 2
                                         Scenario.all_well)))))).
  { eexists. eexists. vm_compute. right. left. reflexivity. }
  split; [split; assumption|]. split.
  - exact (proj1 (orchestrator_contains_backend_failure Scenario.a_config
                    (lit "ping") (lit "tg_42")) _ Htg).
  - exact (proj2 (orchestrator_contains_backend_failure Scenario.a_config
                    (lit "ping") (lit "tg_42")) _ Hsl).
Defined.

(** ** The virtual user resolver *)

(** C2, as stated, fails when it is the lookup that fails: the exception
    of [get_user_by_username] is raised outside the inner [try], reaches
    the outer clause, and the backend is never called, under "admin" or
    under any other identity. *)
Lemma resolver_lookup_failure_no_fallback :
  let down := Scenario.with_get_user (Fail Scenario.store_down)
                Scenario.all_well in
  let run := Telegram._generate_answer Scenario.a_config (lit "ping")
               (lit "tg_42") (initial down) in
  store_failed (events_since (initial down) (snd run)) /\
  ~ backend_called_as (lit "admin") (events_since (initial down) (snd run)).
Proof.
  cbv zeta. split.
  - left. exists (lit "tg_42"), Scenario.store_down. vm_compute. left. reflexivity.
  - intros [req [o [Hin _]]]. vm_compute in Hin.
    destruct Hin as [H | [H | []]]; discriminate.
Qed.

(** C2, amended. In either adapter: when the creation of the user fails,
    the backend is called under "admin" and the reply is the backend's
    answer, or the apology if the backend fails too; when the lookup
    itself fails, the backend is not called and the reply is the apology;
    in every case the orchestrator returns. *)
Theorem resolver_fallback
    {W : Type} {C : Collaborators W} (config : Config) (text username : str) :
  (forall st : state W Telegram.coro,
     let run := Telegram._generate_answer config text username st in
     let evs := events_since st (snd run) in
     (creation_failed evs ->
        exists o, In (EvGenerate (request_for config text (lit "admin")) o) evs /\
                  fst run = Return (match o with
                                    | Ok reply => reply
                                    | Fail _ => APOLOGY
                                    end))
     /\ (lookup_failed evs -> ~ backend_called evs /\ fst run = Return APOLOGY)
     /\ exists reply, fst run = Return reply)
  /\
  (forall st : state W Slack.coro,
     let run := Slack._generate_answer config text username st in
     let evs := events_since st (snd run) in
     (creation_failed evs ->
        exists o, In (EvGenerate (request_for config text (lit "admin")) o) evs /\
                  fst run = Return (match o with
                                    | Ok reply => reply
                                    | Fail _ => APOLOGY
                                    end))
     /\ (lookup_failed evs -> ~ backend_called evs /\ fst run = Return APOLOGY)
     /\ exists reply, fst run = Return reply).
Proof.
  split; intros st.
  - destruct (telegram_orchestrated config text username st)
      as [evs [r [st' [E [Hc Hs]]]]].
    cbv zeta. rewrite E. cbn [fst snd]. rewrite (events_since_continues Hc).
    split; [exact (orchestrated_creation_failed Hs)|].
    split; [exact (orchestrated_lookup_failed Hs)|].
    exact (orchestrated_returns Hs).
  - destruct (slack_orchestrated config text username st)
      as [evs [r [st' [E [Hc Hs]]]]].
    cbv zeta. rewrite E. cbn [fst snd]. rewrite (events_since_continues Hc).
    split; [exact (orchestrated_creation_failed Hs)|].
    split; [exact (orchestrated_lookup_failed Hs)|].
    exact (orchestrated_returns Hs).
Qed.

Lemma resolver_fallback_witness :
  let unseen := Scenario.with_get_user (Ok None)
                  (Scenario.with_create_user (Fail Scenario.store_down)
                     Scenario.all_well) in
  let run := Telegram._generate_answer Scenario.a_config (lit "ping")
               (lit "tg_42") (initial unseen) in
  let evs := events_since (initial unseen) (snd run) in
  creation_failed evs /\
  exists o, In (EvGenerate (request_for Scenario.a_config (lit "ping") (lit "admin")) o)
               evs /\
            fst run = Return (match o with Ok reply => reply | Fail _ => APOLOGY end).
Proof.
  cbv zeta.
  assert (H : creation_failed
                (events_since
                   (initial (Scenario.with_get_user (Ok None)
                               (Scenario.with_create_user (Fail Scenario.store_down)
                                  Scenario.all_well)))
                   (snd (Telegram._generate_answer Scenario.a_config (lit "ping")
                           (lit "tg_42")
                           (initial (Scenario.with_get_user (Ok None)
                                       (Scenario.with_create_user
                                          (Fail Scenario.store_down)
                                          Scenario.all_well))))))).
  { exists (lit "tg_42"), Scenario.store_down. vm_compute. right. left. reflexivity. }
  split; [exact H|].
  exact (proj1 (proj1 (resolver_fallback Scenario.a_config (lit "ping")
                         (lit "tg_42")) _) H).
Defined.

Example resolver_fallback_run :
  let unseen := Scenario.with_get_user (Ok None)
                  (Scenario.with_create_user (Fail Scenario.store_down)
                     Scenario.all_well) in
  fst (Slack._generate_answer Scenario.a_config (lit "ping") (lit "U1")
         (initial unseen)) = Return (lit "pong").
Proof. vm_compute. reflexivity. Qed.

(** ** The reply is not always non-empty *)

(** C9, as stated, fails: a backend that answers with the empty string
    has that string returned as the reply. *)
Lemma orchestrator_empty_reply :
  let mute := Scenario.with_generate (Ok []) 1 Scenario.all_well in
  fst (Telegram._generate_answer Scenario.a_config (lit "ping") (lit "tg_42")
         (initial mute)) = Return []
  /\ fst (Slack._generate_answer Scenario.a_config (lit "ping") (lit "U1")
            (initial mute)) = Return [].
Proof. vm_compute. split; reflexivity. Qed.

(** C9, amended. The orchestrator of either adapter always returns a
    reply. The reply is the string the backend answered when the backend
    call of the run succeeded, and the apology when there was no such
    answer: the backend failed, or it was not called, which only happens
    when the lookup of the user raised. So the reply is non-empty unless
    the backend itself answered with the empty string. *)
Theorem orchestrator_reply
    {W : Type} {C : Collaborators W} (config : Config) (text username : str) :
  (forall st : state W Telegram.coro,
     let run := Telegram._generate_answer config text username st in
     let evs := events_since st (snd run) in
     exists reply,
       fst run = Return reply /\
       (forall req answer, In (EvGenerate req (Ok answer)) evs -> reply = answer) /\
       ((forall req answer, ~ In (EvGenerate req (Ok answer)) evs) ->
        reply = APOLOGY) /\
       (~ lookup_failed evs -> backend_called evs) /\
       (reply <> [] \/ exists req, In (EvGenerate req (Ok [])) evs))
  /\
  (forall st : state W Slack.coro,
     let run := Slack._generate_answer config text username st in
     let evs := events_since st (snd run) in
     exists reply,
       fst run = Return reply /\
       (forall req answer, In (EvGenerate req (Ok answer)) evs -> reply = answer) /\
       ((forall req answer, ~ In (EvGenerate req (Ok answer)) evs) ->
        reply = APOLOGY) /\
       (~ lookup_failed evs -> backend_called evs) /\
       (reply <> [] \/ exists req, In (EvGenerate req (Ok [])) evs)).
Proof.
  split; intros st.
  - destruct (telegram_orchestrated config text username st)
      as [evs [r [st' [E [Hc Hs]]]]].
    cbv zeta. rewrite E. cbn [fst snd]. rewrite (events_since_continues Hc).
    destruct (orchestrated_returns Hs) as [reply ->].
    exists reply. repeat apply conj.
    + reflexivity.
    + intros req answer. eapply orchestrated_answer; eassumption.
    + exact (orchestrated_no_answer Hs).
    + exact (orchestrated_backend_called Hs).
    + exact (orchestrated_reply_or_empty Hs).
  - destruct (slack_orchestrated config text username st)
      as [evs [r [st' [E [Hc Hs]]]]].
    cbv zeta. rewrite E. cbn [fst snd]. rewrite (events_since_continues Hc).
    destruct (orchestrated_returns Hs) as [reply ->].
    exists reply. repeat apply conj.
    + reflexivity.
    + intros req answer. eapply orchestrated_answer; eassumption.
    + exact (orchestrated_no_answer Hs).
    + exact (orchestrated_backend_called Hs).
    + exact (orchestrated_reply_or_empty Hs).
Qed.

Lemma orchestrator_reply_witness :
  let run := Telegram._generate_answer Scenario.a_config (lit "ping")
               (lit "tg_42") (initial Scenario.all_well) in
  In (EvGenerate (request_for Scenario.a_config (lit "ping") (lit "tg_42"))
        (Ok (lit "pong")))
     (events_since (initial Scenario.all_well) (snd run)) /\
  fst run = Return (lit "pong").
Proof.
  cbv zeta.
  assert (Hin : In (EvGenerate
                      (request_for Scenario.a_config (lit "ping") (lit "tg_42"))
                      (Ok (lit "pong")))
                   (events_since (initial Scenario.all_well)
                      (snd (Telegram._generate_answer Scenario.a_config
                              (lit "ping") (lit "tg_42")
                              (initial Scenario.all_well))))).
  { vm_compute. right. left. reflexivity. }
  split; [exact Hin|].
  destruct (proj1 (orchestrator_reply Scenario.a_config (lit "ping")
                     (lit "tg_42")) (initial Scenario.all_well))
    as [reply [E [Hanswer _]]].
  rewrite E. f_equal. exact (Hanswer _ _ Hin).
Defined.

(** ** The priority of split points *)

(** C4. While the remainder is longer than the (positive) limit, one pass
    of the loop cuts it at an index [k] and goes on with what follows,
    stripped of its leading newlines; [k] is the last paragraph break
    inside the first [max_len] characters, or else the last newline
    there, or else [max_len] itself. On a text of 9000 characters whose
    paragraph breaks are at 3990 and 7990, with limit 4000, this yields
    the three chunks [text[0:3990]], [text[3992:7990]], [text[7992:9000]]. *)
Theorem split_message_priority :
  (forall (remaining : str) (max_len : Z),
     0 < max_len -> max_len < len remaining ->
     exists k,
       (forall fuel parts,
          Telegram.split_loop (S fuel) max_len remaining parts =
          Telegram.split_loop fuel max_len
            (lstrip (slice_from remaining k) [NL])
            (parts ++ [slice_to remaining k]))
       /\ (last_occurrence PARAGRAPH_BREAK (slice_to remaining max_len) k
           \/ (absent PARAGRAPH_BREAK (slice_to remaining max_len) /\
               last_occurrence LINE_BREAK (slice_to remaining max_len) k)
           \/ (absent PARAGRAPH_BREAK (slice_to remaining max_len) /\
               absent LINE_BREAK (slice_to remaining max_len) /\
               k = max_len)))
  /\
  (forall text : str,
     len text = 9000 ->
     occurrences PARAGRAPH_BREAK text = [3990; 7990] ->
     Telegram._split_message text 4000
     = Some [slice text 0 3990; slice text 3992 7990; slice text 7992 9000]).
Proof.
  split.
  - intros remaining max_len Hm Hlong.
    exists (Telegram.split_point remaining max_len). split.
    + intros fuel parts. apply split_loop_step; assumption.
    + apply split_point_cases.
  - exact split_scenario.
Qed.

Lemma split_message_priority_witness :
  ((0 < 5 /\ 5 < len Scenario.short_text) /\
   (len Scenario.two_breaks = 9000 /\
    occurrences PARAGRAPH_BREAK Scenario.two_breaks = [3990; 7990])) /\
  (exists k,
     (forall fuel parts,
        Telegram.split_loop (S fuel) 5 Scenario.short_text parts =
        Telegram.split_loop fuel 5
          (lstrip (slice_from Scenario.short_text k) [NL])
          (parts ++ [slice_to Scenario.short_text k]))
     /\ (last_occurrence PARAGRAPH_BREAK (slice_to Scenario.short_text 5) k
         \/ (absent PARAGRAPH_BREAK (slice_to Scenario.short_text 5) /\
             last_occurrence LINE_BREAK (slice_to Scenario.short_text 5) k)
         \/ (absent PARAGRAPH_BREAK (slice_to Scenario.short_text 5) /\
             absent LINE_BREAK (slice_to Scenario.short_text 5) /\
             k = 5))) /\
  Telegram._split_message Scenario.two_breaks 4000
  = Some [slice Scenario.two_breaks 0 3990;
          slice Scenario.two_breaks 3992 7990;
          slice Scenario.two_breaks 7992 9000].
Proof.
  assert (H1 : 0 < 5 /\ 5 < len Scenario.short_text).
  { split; [lia | vm_compute; reflexivity]. }
  assert (H2 : len Scenario.two_breaks = 9000 /\
               occurrences PARAGRAPH_BREAK Scenario.two_breaks = [3990; 7990]).
  { split; vm_compute; reflexivity. }
  split; [split; assumption|]. split.
  - exact (proj1 split_message_priority Scenario.short_text 5 (proj1 H1) (proj2 H1)).
  - exact (proj2 split_message_priority Scenario.two_breaks (proj1 H2) (proj2 H2)).
Defined.

Example split_message_scenario_run :
  option_map (map len) (Telegram._split_message Scenario.two_breaks 4000)
  = Some [3990; 3998; 1008].
Proof. vm_compute. reflexivity. Qed.

(** ** The launchers *)

Section Launchers.

Lemma or_else_absent (a b : option str) :
  opt_truthy a = false -> or_else a b = b.
Proof. unfold or_else. intros ->. reflexivity. Qed.

End Launchers.

(** C8. When the token a launcher needs is absent from the configuration
    and no override supplies it (for Slack: the bot token or the app
    token), the launcher logs that the bot is disabled and returns [None];
    that log line is its only event: the running loop is not asked for,
    no task is scheduled, no thread is started. *)
Theorem launcher_disabled_without_token
    {W : Type} {C : Collaborators W} (config : Config) (blocking : bool) :
  (forall (st : state W Telegram.coro) (token_override : option str),
     opt_truthy token_override = false ->
     opt_truthy (bot_token (telegram config)) = false ->
     Telegram.start_telegram_bot config blocking token_override st
     = (Return None,
        {| world := world st;
           trace := trace st ++
             [EvLog INFO (lit "TELEGRAM_BOT_TOKEN not set; Telegram bot disabled")];
           tasks := tasks st |}))
  /\
  (forall (st : state W Slack.coro)
          (bot_token_override app_token_override : option str),
     (opt_truthy bot_token_override = false /\
      opt_truthy (slack_bot_token (slack config)) = false)
     \/ (opt_truthy app_token_override = false /\
         opt_truthy (slack_app_token (slack config)) = false) ->
     Slack.start_slack_bot config blocking bot_token_override app_token_override st
     = (Return None,
        {| world := world st;
           trace := trace st ++
             [EvLog INFO
                (lit "SLACK_BOT_TOKEN or SLACK_APP_TOKEN not set; Slack bot disabled")];
           tasks := tasks st |})).
Proof.
  split.
  - intros st token_override Ho Hc. unfold Telegram.start_telegram_bot.
    rewrite (@or_else_absent _ _ Ho).
    destruct (bot_token (telegram config)) as [token|]; [|reflexivity].
    cbn [opt_truthy] in Hc. rewrite Hc. reflexivity.
  - intros st bo ao H. unfold Slack.start_slack_bot.
    destruct H as [[Ho Hc] | [Ho Hc]]; rewrite (@or_else_absent _ _ Ho).
    + destruct (slack_bot_token (slack config)) as [bot|]; [|reflexivity].
      cbn [opt_truthy] in Hc. rewrite Hc.
      destruct (or_else ao (slack_app_token (slack config))); reflexivity.
    + destruct (or_else bo (slack_bot_token (slack config))) as [bot|];
        [|reflexivity].
      destruct (slack_app_token (slack config)) as [app|]; [|reflexivity].
      cbn [opt_truthy] in Hc. rewrite Hc, orb_true_r. reflexivity.
Qed.

Lemma launcher_disabled_without_token_witness :
  (opt_truthy None = false /\
   opt_truthy (bot_token (telegram Scenario.a_config)) = false /\
   opt_truthy (slack_app_token (slack Scenario.a_config)) = false) /\
  Telegram.start_telegram_bot Scenario.a_config false None
    (initial Scenario.all_well)
  = (Return None,
     {| world := Scenario.all_well;
        trace := [EvLog INFO (lit "TELEGRAM_BOT_TOKEN not set; Telegram bot disabled")];
        tasks := [] |})
  /\
  Slack.start_slack_bot Scenario.a_config false (Some (lit "xoxb-1")) None
    (initial Scenario.all_well)
  = (Return None,
     {| world := Scenario.all_well;
        trace := [EvLog INFO
                    (lit "SLACK_BOT_TOKEN or SLACK_APP_TOKEN not set; Slack bot disabled")];
        tasks := [] |}).
Proof.
  assert (H : opt_truthy None = false /\
              opt_truthy (bot_token (telegram Scenario.a_config)) = false /\
              opt_truthy (slack_app_token (slack Scenario.a_config)) = false).
  { repeat split. }
  split; [exact H|]. destruct H as [H1 [H2 H3]]. split.
  - exact (proj1 (launcher_disabled_without_token (W := Scenario.script)
                    Scenario.a_config false)
             (initial Scenario.all_well) None H1 H2).
  - exact (proj2 (launcher_disabled_without_token (W := Scenario.script)
                    Scenario.a_config false)
             (initial Scenario.all_well) (Some (lit "xoxb-1")) None
             (or_intror (conj H1 H3))).
Defined.

(** With a token and a running loop the Telegram launcher does ask for the
    loop and schedules the polling coroutine. *)
Example launcher_attached_run :
  let cfg := {| files := files Scenario.a_config;
                telegram := {| bot_token := Some (lit "123:abc");
                               webhook_url := None; use_webhook := false |};
                slack := slack Scenario.a_config |} in
  let run := Telegram.start_telegram_bot cfg false None
               (initial Scenario.all_well) in
  fst run = Return (Some (Task _run_polling)) /\
  trace (snd run)
  = [EvGetRunningLoop true;
     EvBuildApplication (lit "123:abc") (Ok tt);
     EvAddHandler (CommandHandler (lit "start"));
     EvAddHandler (CommandHandler (lit "help"));
     EvAddHandler MessageHandler;
     EvLoopCreateTask _run_polling].
Proof. vm_compute. split; reflexivity. Qed.

(** ** The Slack adapter *)

(** C7, as stated, fails: on a message "ping" answered by a reply of 4001
    characters the Slack handler starts no liveness task and sends the
    reply as one message, where the Telegram handler starts one and sends
    the two chunks of the segmenter. *)
Lemma slack_adapter_no_liveness_no_segmentation :
  let verbose := Scenario.with_generate (Ok Scenario.long_reply) 1
                   Scenario.all_well in
  let slack_evs := trace (snd (Slack.handle_message Scenario.a_config
                                 Scenario.slack_ping (initial verbose))) in
  let telegram_evs := trace (snd (Telegram.handle_message Scenario.a_config
                                    Scenario.ping (initial verbose))) in
  (~ liveness_started slack_evs /\ sent slack_evs = [Scenario.long_reply])
  /\ (liveness_started telegram_evs /\
      sent telegram_evs = [slice_to Scenario.long_reply 4000; lit "a"]).
Proof.
  cbv zeta. split; split.
  - intros [id Hin]. vm_compute in Hin.
    destruct Hin as [H | [H | [H | []]]]; discriminate.
  - vm_compute. reflexivity.
  - exists 0%nat. vm_compute. left. reflexivity.
  - vm_compute. reflexivity.
Qed.

(** C7, amended. For every inbound Slack message whose text is not
    blank, the handler runs the orchestrator on the text under the
    identity [slack_<user>] and then sends the whole reply in a single
    [say]; it starts no liveness task and does not segment the reply. *)
Theorem slack_call_sequence
    {W : Type} {C : Collaborators W} (config : Config) (message : dict)
    (st : state W Slack.coro) :
  truthy (strip (dict_get message (lit "text") [])) = true ->
  exists evs reply o st',
    Slack.handle_message config message st = (delivered o, st') /\
    orchestrated config (dict_get message (lit "text") [])
      (lit "slack_" ++ dict_get message (lit "user") (lit "unknown"))
      evs (Return reply) /\
    events_since st st' = evs ++ [EvSay reply o] /\
    ~ liveness_started (events_since st st') /\
    sent (events_since st st') = [reply].
Proof.
  intros Htext. unfold Slack.handle_message. rewrite Htext. cbn [negb].
  unfold bind.
  destruct (slack_orchestrated config (dict_get message (lit "text") [])
              (dict_get message (lit "user") (lit "unknown")) st)
    as [evs [r [s1 [E [Hc Hs]]]]].
  rewrite E. destruct (orchestrated_returns Hs) as [reply ->].
  unfold say.
  destruct (call_run (K := Slack.coro) (slack_say reply) (EvSay reply) s1)
    as [o [s2 [E2 [Hc2 _]]]].
  exists evs, reply, o, s2.
  assert (Hev : events_since st s2 = evs ++ [EvSay reply o]).
  { apply events_since_continues. unfold continues in *.
    rewrite Hc2, Hc, app_assoc. reflexivity. }
  destruct (orchestrated_quiet Hs) as [Q1 Q2].
  split; [destruct o; rewrite E2; reflexivity|].
  split; [exact Hs|]. split; [exact Hev|]. rewrite Hev. split.
  - intros [id Hin]. apply in_app_or in Hin. destruct Hin as [Hin | [Hin | []]].
    + apply Q1. exists id. exact Hin.
    + discriminate.
  - rewrite sent_app, Q2. reflexivity.
Qed.

Lemma slack_call_sequence_witness :
  truthy (strip (dict_get Scenario.slack_ping (lit "text") [])) = true /\
  exists evs reply o st',
    Slack.handle_message Scenario.a_config Scenario.slack_ping
      (initial Scenario.all_well) = (delivered o, st') /\
    orchestrated Scenario.a_config (dict_get Scenario.slack_ping (lit "text") [])
      (lit "slack_" ++ dict_get Scenario.slack_ping (lit "user") (lit "unknown"))
      evs (Return reply) /\
    events_since (initial Scenario.all_well) st' = evs ++ [EvSay reply o] /\
    ~ liveness_started (events_since (initial Scenario.all_well) st') /\
    sent (events_since (initial Scenario.all_well) st') = [reply].
Proof.
  assert (H : truthy (strip (dict_get Scenario.slack_ping (lit "text") [])) = true)
    by reflexivity.
  split; [exact H|].
  exact (slack_call_sequence Scenario.a_config Scenario.slack_ping
           (initial Scenario.all_well) H).
Defined.

(** A blank Slack message reaches neither the orchestrator nor [say]. *)
Example slack_blank_run :
  Slack.handle_message Scenario.a_config Scenario.slack_blank
    (initial Scenario.all_well)
  = (Return tt, initial Scenario.all_well).
Proof. reflexivity. Qed.

(** ** The Telegram handler *)

Section TelegramHandler.

Context {W : Type} {C : Collaborators W}.
Variable config : Config.

Lemma await_task_run (id : nat) (st : state W Telegram.coro) :
  exists r st', await_task id st = (r, st') /\ quietly st st'.
Proof.
  unfold await_task. destruct (status_of id st) as [[| |r]|].
  3:{ exists r, st. split; [reflexivity | apply quietly_refl]. }
  all: unfold bind; destruct (loop_turn_run telegram_quiet st) as [s1 [E Q]];
    rewrite E; unfold task_result; destruct (status_of id s1) as [[| |r]|]; eauto.
Qed.

Lemma send_chunk_run (message : Message) (chunk : str)
    (st : state W Telegram.coro) :
  exists r st' sends,
    Telegram.send_chunk message chunk st = (r, st') /\
    continues st st' sends /\ Forall is_reply sends.
Proof.
  unfold Telegram.send_chunk, try_except, reply_text.
  destruct (call_run (K := Telegram.coro)
              (message_reply_text message chunk (Some MARKDOWN))
              (EvReplyText chunk (Some MARKDOWN)) st) as [o [s1 [E [Hc _]]]].
  rewrite E. destruct o as [[]|e]; cbn [delivered].
  - exists (Return tt), s1, [EvReplyText chunk (Some MARKDOWN) (Ok tt)].
    split; [reflexivity|]. split; [exact Hc | repeat constructor].
  - destruct (handles (Except BadRequest) (Exc e)).
    + destruct (call_run (K := Telegram.coro)
                  (message_reply_text message chunk None)
                  (EvReplyText chunk None) s1) as [o' [s2 [E' [Hc' _]]]].
      rewrite E'.
      exists (delivered o'), s2,
        [EvReplyText chunk (Some MARKDOWN) (Fail e); EvReplyText chunk None o'].
      split; [reflexivity|]. split; [|repeat constructor].
      unfold continues in *. rewrite Hc', Hc, <- app_assoc. reflexivity.
    + exists (Raise (Exc e)), s1, [EvReplyText chunk (Some MARKDOWN) (Fail e)].
      split; [reflexivity|]. split; [exact Hc | repeat constructor].
Qed.

Lemma send_chunks_run (message : Message) (chunks : list str) :
  forall st : state W Telegram.coro,
  exists r st' sends,
    for_each chunks (Telegram.send_chunk message) st = (r, st') /\
    continues st st' sends /\ Forall is_reply sends.
Proof.
  induction chunks as [|chunk chunks IH]; intros st.
  - exists (Return tt), st, []. split; [reflexivity|]. split; [|constructor].
    unfold continues. rewrite app_nil_r. reflexivity.
  - cbn [for_each]. unfold bind.
    destruct (send_chunk_run message chunk st) as [r [s1 [sends [E [Hc F]]]]].
    rewrite E.
    destruct r as [[]|x|].
    + destruct (IH s1) as [r' [s2 [sends' [E' [Hc' F']]]]].
      exists r', s2, (sends ++ sends'). split; [exact E'|].
      split; [|apply Forall_app; split; assumption].
      unfold continues in *. rewrite Hc', Hc, <- app_assoc. reflexivity.
    + exists (Raise x), s1, sends. auto.
    + exists Hang, s1, sends. auto.
Qed.

Lemma split_reply_run (reply : str) (st : state W Telegram.coro) :
  exists chunks,
    Telegram._split_message reply Telegram.DEFAULT_MAX_LEN = Some chunks /\
    Telegram.split_reply reply st = (Return chunks, st).
Proof.
  unfold Telegram.split_reply.
  assert (T : exists chunks,
            Telegram._split_message reply Telegram.DEFAULT_MAX_LEN = Some chunks).
  { unfold Telegram._split_message.
    destruct (len reply <=? Telegram.DEFAULT_MAX_LEN); [eauto|].
    apply split_loop_total. reflexivity. }
  destruct T as [chunks E]. rewrite E. eauto.
Qed.

(** The order of the handler's events, on every message that reaches the
    orchestrator: the liveness task is created, the orchestrator runs and
    returns, the task is cancelled once, and only then are chunks sent. *)
Lemma telegram_call_sequence (update : Update) (message : Message) (user : User)
    (st : state W Telegram.coro) :
  upd_message update = Some message ->
  effective_user update = Some user ->
  truthy (strip (Telegram.text_or_empty message)) = true ->
  exists id evs reply ind sends r st',
    Telegram.handle_message config update st = (r, st') /\
    events_since st st'
    = EvCreateTask id :: evs ++ EvCancelTask id :: ind ++ sends /\
    orchestrated config (Telegram.text_or_empty message)
      (Telegram.username_of user) evs (Return reply) /\
    Forall is_indicator ind /\ Forall is_reply sends.
Proof.
  intros Hm Hu Htext. unfold Telegram.handle_message. rewrite Hm, Hu, Htext.
  cbn [negb]. unfold bind at 1, create_task.
  set (id := List.length (tasks st)).
  set (s1 := {| world := world st; trace := trace st ++ [EvCreateTask id];
                tasks := tasks st ++ [{| task_coro := Telegram.TypingLoop update;
                                         task_state := Pending;
                                         task_must_cancel := false |}] |}).
  unfold bind at 1.
  destruct (telegram_orchestrated config (Telegram.text_or_empty message)
              (Telegram.username_of user) s1) as [evs [r0 [s2 [E2 [Hc2 Hs]]]]].
  rewrite E2. destruct (orchestrated_returns Hs) as [reply ->].
  unfold bind at 1, cancel at 1, bind at 1, emit, set_task.
  match goal with
  | |- context [bind (try_except _ _ _) _ ?s] => set (s3 := s)
  end.
  unfold bind at 1, try_except at 1.
  destruct (await_task_run id s3) as [r4 [s4 [E4 [ind [Hc4 Fi]]]]].
  rewrite E4.
  assert (Hpre : trace s4 = trace st ++ EvCreateTask id :: evs
                                     ++ EvCancelTask id :: ind).
  { unfold continues in *. rewrite Hc4. subst s3. cbn [trace]. rewrite Hc2.
    subst s1. cbn [trace]. rewrite <- !app_assoc. reflexivity. }
  assert (Stop : forall r : result unit,
            exists (id0 : nat) (evs0 : list event) (reply0 : str)
                   (ind0 sends : list event) (r1 : result unit)
                   (st' : state W Telegram.coro),
              (r, s4) = (r1, st') /\
              events_since st st'
              = EvCreateTask id0 :: evs0 ++ EvCancelTask id0 :: ind0 ++ sends /\
              orchestrated config (Telegram.text_or_empty message)
                (Telegram.username_of user) evs0 (Return reply0) /\
              Forall is_indicator ind0 /\ Forall is_reply sends).
  { intros r. exists id, evs, reply, ind, [], r, s4.
    split; [reflexivity|]. split; [|auto].
    apply events_since_continues. unfold continues. rewrite Hpre, app_nil_r.
    reflexivity. }
  assert (Go : exists (id0 : nat) (evs0 : list event) (reply0 : str)
                   (ind0 sends : list event) (r1 : result unit)
                   (st' : state W Telegram.coro),
              (chunks <- Telegram.split_reply reply ;;
               for_each chunks (Telegram.send_chunk message)) s4 = (r1, st') /\
              events_since st st'
              = EvCreateTask id0 :: evs0 ++ EvCancelTask id0 :: ind0 ++ sends /\
              orchestrated config (Telegram.text_or_empty message)
                (Telegram.username_of user) evs0 (Return reply0) /\
              Forall is_indicator ind0 /\ Forall is_reply sends).
  { unfold bind. destruct (split_reply_run reply s4) as [chunks [_ E5]].
    rewrite E5.
    destruct (send_chunks_run message chunks s4) as [r6 [s6 [sends [E6 [Hc6 Fs]]]]].
    exists id, evs, reply, ind, sends, r6, s6.
    split; [exact E6|]. split; [|auto].
    apply events_since_continues. unfold continues in *. rewrite Hc6, Hpre.
    rewrite <- !app_assoc. cbn [app]. rewrite <- !app_assoc. reflexivity. }
  destruct r4 as [[]|x|].
  - exact Go.
  - destruct x as [e|]; cbn [handles].
    + exact Go.
    + apply Stop.
  - apply Stop.
Qed.

End TelegramHandler.

(** ** Cancelling a liveness task that has not started *)

Section EarlyCancel.

Context {W : Type} {C : Collaborators W}.
Variable config : Config.

(** When the lookup of the user raises, the orchestrator returns without
    ever yielding to the event loop: the liveness task is cancelled
    before its first step, [await typing_task] raises [CancelledError],
    which [except Exception] does not catch, and nothing is sent. *)
Lemma telegram_cancel_before_start (update : Update) (message : Message)
    (user : User) (st : state W Telegram.coro) (e : error) (w : W) :
  upd_message update = Some message ->
  effective_user update = Some user ->
  truthy (strip (Telegram.text_or_empty message)) = true ->
  tasks st = [] ->
  db_get_user_by_username (Telegram.username_of user) (world st) = (Fail e, w) ->
  exists st',
    Telegram.handle_message config update st = (Raise CancelledError, st') /\
    sent (events_since st st') = [].
Proof.
  intros Hm Hu Htext Ht Hdb. unfold Telegram.handle_message.
  rewrite Hm, Hu, Htext. cbn [negb].
  destruct st as [w0 tr ts]. cbn [tasks world] in Ht, Hdb. subst ts.
  cbv [bind create_task Telegram._generate_answer try_except
       get_user_by_username call world trace tasks List.length].
  rewrite Hdb.
  cbn [deliver raise handles log emit ret bind world trace tasks cancel set_task
       update_nth app await_task status_of nth_error option_map task_state
       loop_turn seq List.length for_each run_task task_must_cancel set_status
       task_result task_coro].
  eexists. split; [reflexivity|].
  erewrite events_since_continues;
    [|unfold continues; cbn [trace]; rewrite <- !app_assoc; reflexivity].
  reflexivity.
Qed.

End EarlyCancel.

(** ** Cancelling a liveness task that has started *)

Section LateCancel.

Context {W : Type} {C : Collaborators W}.
Variable config : Config.

Lemma typing_step_run (update : Update) (st : state W Telegram.coro) :
  exists st',
    co_step (Telegram._typing_loop update) st = (Return Suspended, st') /\
    quietly st st' /\ tasks st' = tasks st.
Proof.
  cbn [Telegram._typing_loop co_step]. unfold bind, try_except.
  destruct (effective_chat update) as [chat|].
  - unfold send_action.
    destruct (call_run (K := Telegram.coro) (chat_send_action chat TYPING)
                (EvSendAction chat TYPING) st) as [o [s1 [E [Hc Ht]]]].
    rewrite E. exists s1.
    split; [destruct o; reflexivity|]. split; [|exact Ht].
    exists [EvSendAction chat TYPING o]. split; [exact Hc | repeat constructor].
  - exists st. split; [reflexivity|]. split; [apply quietly_refl | reflexivity].
Qed.

Lemma loop_turn_single (update : Update) (s : task_status) (st : state W Telegram.coro) :
  s = Pending \/ s = Parked ->
  tasks st = [{| task_coro := Telegram.TypingLoop update; task_state := s;
                 task_must_cancel := false |}] ->
  exists st',
    loop_turn st = (Return tt, st') /\ quietly st st' /\
    tasks st' = [parked update].
Proof.
  intros Hs Ht. unfold loop_turn. rewrite Ht. cbn [List.length seq for_each].
  unfold bind, run_task. rewrite Ht. cbn [nth_error task_state task_must_cancel task_coro].
  destruct (typing_step_run update st) as [s1 [E [Q T]]].
  assert (R : run_piece 0 (co_step (resume (Telegram.TypingLoop update))) st
              = (Return tt, {| world := world s1; trace := trace s1;
                               tasks := [parked update] |})).
  { unfold run_piece. cbn [resume Telegram.telegram_coroutines].
    rewrite E. unfold set_status, set_task. rewrite T, Ht. reflexivity. }
  destruct Hs as [-> | ->]; rewrite R; cbn [ret];
    (eexists; split; [reflexivity|]; split; [|reflexivity];
     destruct Q as [ind [Hc F]]; exists ind; split; [exact Hc | exact F]).
Qed.

Lemma suspend_parked (update : Update) (n : nat) :
  forall st : state W Telegram.coro,
  tasks st = [parked update] ->
  exists st',
    suspend n st = (Return tt, st') /\ quietly st st' /\
    tasks st' = [parked update].
Proof.
  induction n as [|n IH]; intros st Ht.
  - exists st. split; [reflexivity|]. split; [apply quietly_refl | exact Ht].
  - cbn [suspend]. unfold bind.
    destruct (@loop_turn_single update Parked st (or_intror eq_refl) Ht)
      as [s1 [E [Q T]]].
    rewrite E. destruct (IH s1 T) as [s2 [E2 [Q2 T2]]].
    exists s2. split; [exact E2|]. split; [exact (quietly_trans Q Q2) | exact T2].
Qed.

Lemma suspend_single (update : Update) (n : nat) (st : state W Telegram.coro) :
  tasks st = [{| task_coro := Telegram.TypingLoop update; task_state := Pending;
                 task_must_cancel := false |}] ->
  exists st',
    suspend (S n) st = (Return tt, st') /\ quietly st st' /\
    tasks st' = [parked update].
Proof.
  intros Ht. cbn [suspend]. unfold bind.
  destruct (@loop_turn_single update Pending st (or_introl eq_refl) Ht)
    as [s1 [E [Q T]]].
  rewrite E. destruct (@suspend_parked update n s1 T) as [s2 [E2 [Q2 T2]]].
  exists s2. split; [exact E2|]. split; [exact (quietly_trans Q Q2) | exact T2].
Qed.

Lemma orchestrator_started (update : Update) (text username : str)
    (st : state W Telegram.coro) (u : UserRecord) (o : outcome str) (n : nat)
    (w1 w2 : W) :
  tasks st = [{| task_coro := Telegram.TypingLoop update; task_state := Pending;
                 task_must_cancel := false |}] ->
  db_get_user_by_username username (world st) = (Ok (Some u), w1) ->
  ai_generate_response (request_for config text username) w1 = (o, S n, w2) ->
  exists reply st',
    Telegram._generate_answer config text username st = (Return reply, st') /\
    tasks st' = [parked update].
Proof.
  intros Ht Hdb Hai.
  unfold Telegram._generate_answer, try_except, bind at 1,
    get_user_by_username, call.
  rewrite Hdb. cbn [deliver ret bind world trace tasks].
  unfold generate_response, await. unfold bind at 1. cbn [world trace tasks].
  unfold request_for in Hai. rewrite Hai. unfold bind at 1.
  match goal with
  | |- context [suspend (S n) ?s] =>
    destruct (@suspend_single update n s Ht) as [s1 [E [_ T]]]
  end.
  rewrite E. destruct o as [reply | e]; cbn [deliver ret raise handles].
  - exists reply, s1. split; [reflexivity | exact T].
  - unfold log, emit, bind, ret. eexists. eexists. split; [reflexivity | exact T].
Qed.

Lemma send_chunk_tasks (message : Message) (chunk : str)
    (st : state W Telegram.coro) :
  exists r st',
    Telegram.send_chunk message chunk st = (r, st') /\
    r <> Raise CancelledError /\ tasks st' = tasks st.
Proof.
  unfold Telegram.send_chunk, try_except, reply_text.
  destruct (call_run (K := Telegram.coro)
              (message_reply_text message chunk (Some MARKDOWN))
              (EvReplyText chunk (Some MARKDOWN)) st) as [o [s1 [E [_ T]]]].
  rewrite E. destruct o as [[]|e]; cbn [delivered].
  - exists (Return tt), s1. split; [reflexivity|]. split; [discriminate | exact T].
  - destruct (handles (Except BadRequest) (Exc e)).
    + destruct (call_run (K := Telegram.coro)
                  (message_reply_text message chunk None)
                  (EvReplyText chunk None) s1) as [o' [s2 [E' [_ T']]]].
      rewrite E'. exists (delivered o'), s2. split; [reflexivity|].
      split; [destruct o'; discriminate | congruence].
    + exists (Raise (Exc e)), s1. split; [reflexivity|].
      split; [discriminate | exact T].
Qed.

Lemma send_chunks_tasks (message : Message) (chunks : list str) :
  forall st : state W Telegram.coro,
  exists r st',
    for_each chunks (Telegram.send_chunk message) st = (r, st') /\
    r <> Raise CancelledError /\ tasks st' = tasks st.
Proof.
  induction chunks as [|chunk chunks IH]; intros st.
  - exists (Return tt), st. split; [reflexivity|]. split; [discriminate | reflexivity].
  - cbn [for_each]. unfold bind.
    destruct (send_chunk_tasks message chunk st) as [r [s1 [E [N T]]]].
    rewrite E. destruct r as [[]|x|].
    + destruct (IH s1) as [r' [s2 [E' [N' T']]]].
      exists r', s2. split; [exact E'|]. split; [exact N' | congruence].
    + exists (Raise x), s1. auto.
    + exists Hang, s1. split; [reflexivity|]. split; [discriminate | exact T].
Qed.

Lemma finish_from_parked (update : Update) (message : Message) (reply : str)
    (st : state W Telegram.coro) :
  tasks st = [parked update] ->
  exists r st',
    (cancel 0 ;;
     try_except (await_task 0) ExceptException (fun _ => ret tt) ;;
     chunks <- Telegram.split_reply reply ;;
     for_each chunks (Telegram.send_chunk message)) st = (r, st') /\
    r <> Raise CancelledError /\
    map (@task_state _) (tasks st') = [Finished (Return tt)].
Proof.
  intros Ht. destruct st as [w tr ts]. cbn [tasks] in Ht. subst ts.
  unfold bind at 1, cancel, bind at 1, emit, set_task.
  cbn [world trace tasks update_nth parked task_state task_coro].
  unfold bind at 1, try_except, await_task, status_of.
  cbn [tasks nth_error option_map task_state].
  unfold bind at 1, loop_turn. cbn [tasks List.length seq for_each].
  unfold bind at 1, run_task.
  cbn [tasks nth_error task_state task_must_cancel task_coro resume
       Telegram.telegram_coroutines Telegram._typing_loop co_cancel].
  unfold run_piece, bind at 1, try_except, raise.
  cbn [handles ret set_status set_task world trace tasks update_nth task_coro].
  unfold task_result, status_of.
  cbn [tasks nth_error option_map task_state ret].
  unfold bind at 1.
  match goal with
  | |- context [Telegram.split_reply reply ?s] =>
    destruct (split_reply_run reply s) as [chunks [_ E]]; rewrite E;
    destruct (send_chunks_tasks message chunks s) as [r [s' [E' [N T]]]]
  end.
  exists r, s'. split; [exact E'|]. split; [exact N|]. rewrite T. reflexivity.
Qed.

(** When the user is known and the backend keeps the orchestrator
    suspended for at least one turn of the loop, the liveness task has
    started by the time it is cancelled: it returns quietly, and the
    handler goes on to send the reply. *)
Lemma telegram_cancel_after_start (update : Update) (message : Message)
    (user : User) (st : state W Telegram.coro) (u : UserRecord)
    (o : outcome str) (n : nat) (w1 w2 : W) :
  upd_message update = Some message ->
  effective_user update = Some user ->
  truthy (strip (Telegram.text_or_empty message)) = true ->
  tasks st = [] ->
  db_get_user_by_username (Telegram.username_of user) (world st)
  = (Ok (Some u), w1) ->
  ai_generate_response
    (request_for config (Telegram.text_or_empty message)
       (Telegram.username_of user)) w1 = (o, S n, w2) ->
  exists r st',
    Telegram.handle_message config update st = (r, st') /\
    r <> Raise CancelledError /\
    map (@task_state _) (tasks st') = [Finished (Return tt)].
Proof.
  intros Hm Hu Htext Ht Hdb Hai. unfold Telegram.handle_message.
  rewrite Hm, Hu, Htext. cbn [negb].
  unfold bind at 1, create_task. rewrite Ht. cbn [List.length app].
  unfold bind at 1.
  match goal with
  | |- context [Telegram._generate_answer _ _ _ ?s] =>
    destruct (@orchestrator_started update (Telegram.text_or_empty message)
                (Telegram.username_of user) s u o n w1 w2 eq_refl Hdb Hai)
      as [reply [s2 [E T]]]
  end.
  rewrite E. exact (@finish_from_parked update message reply s2 T).
Qed.
End LateCancel.

(** C6, at the failing input. The message "ping" arrives while the user
    store is down: the liveness task is created and cancelled once, in
    that order and around the orchestrator, but the cancellation comes
    out of [handle_message] as [CancelledError], and the apology the
    orchestrator returned is never sent. The same happens when the
    backend answers without yielding to the event loop. *)
Theorem typing_cancellation_escapes :
  let down := Scenario.with_get_user (Fail Scenario.store_down)
                Scenario.all_well in
  let cached := Scenario.with_generate (Ok (lit "pong")) 0 Scenario.all_well in
  let run := Telegram.handle_message Scenario.a_config Scenario.ping
               (initial down) in
  let run' := Telegram.handle_message Scenario.a_config Scenario.ping
                (initial cached) in
  (fst run = Raise CancelledError /\
   trace (snd run)
   = [EvCreateTask 0;
      EvGetUser (lit "tg_42") (Fail Scenario.store_down);
      EvLog ERROR (lit "Telegram bot failed to get AI response: database is locked");
      EvCancelTask 0] /\
   sent (trace (snd run)) = [])
  /\
  (fst run' = Raise CancelledError /\ sent (trace (snd run')) = []).
Proof. vm_compute. repeat split; reflexivity. Qed.

(** When the orchestrator did yield to the loop, the task has started, its
    [except asyncio.CancelledError] clause runs, and the reply is sent. *)
Example typing_cancellation_quiet_run :
  let run := Telegram.handle_message Scenario.a_config Scenario.ping
               (initial Scenario.all_well) in
  fst run = Return tt /\
  trace (snd run)
  = [EvCreateTask 0;
     EvGetUser (lit "tg_42") (Ok (Some {| record_username := lit "tg_42" |}));
     EvGenerate (request_for Scenario.a_config (lit "ping") (lit "tg_42"))
       (Ok (lit "pong"));
     EvSendAction {| chat_id := 7 |} TYPING (Ok tt);
     EvCancelTask 0;
     EvReplyText (lit "pong") (Some MARKDOWN) (Ok tt)] /\
  map (@task_state _) (tasks (snd run)) = [Finished (Return tt)].
Proof. vm_compute. repeat split; reflexivity. Qed.

(** * Further properties *)

(** ** The segmenter: what the chunks keep of the text *)

Section SegmenterContent.

Lemma content_app (a b : str) : content (a ++ b) = content a ++ content b.
Proof. apply filter_app. Qed.

Lemma content_newlines (run : str) : newlines run -> content run = [].
Proof.
  induction 1 as [|c run Hc _ IH]; [reflexivity|]. subst c. exact IH.
Qed.

Lemma content_no_NL (s : str) : ~ In NL s -> content s = s.
Proof.
  induction s as [|c s IH]; intros H; [reflexivity|].
  unfold content. cbn [filter].
  destruct (Ascii.eqb_spec c NL) as [-> | _].
  - exfalso. apply H. left. reflexivity.
  - cbn [negb]. f_equal. apply IH. intros Hin. apply H. right. exact Hin.
Qed.

Lemma content_restore (chunks : list str) : forall stripped,
  List.length stripped = List.length chunks -> Forall newlines stripped ->
  content (restore chunks stripped) = content (List.concat chunks).
Proof.
  induction chunks as [|c chunks IH]; intros [|n stripped] Hlen Hnl;
    try discriminate; [reflexivity|].
  inversion Hnl as [|? ? Hn Hrest]; subst.
  cbn [restore List.concat]. rewrite !content_app, (@content_newlines _ Hn).
  cbn [app]. f_equal. apply IH; [simpl in Hlen; lia | exact Hrest].
Qed.

Lemma In_concat_restore (x : ascii) (chunks : list str) : forall stripped,
  List.length stripped = List.length chunks ->
  In x (List.concat chunks) -> In x (restore chunks stripped).
Proof.
  induction chunks as [|c chunks IH]; intros [|n stripped] Hlen Hin;
    try discriminate; [exact Hin|].
  cbn [restore List.concat] in *. apply in_app_or in Hin. apply in_or_app.
  destruct Hin as [Hin | Hin]; [left; exact Hin|].
  right. apply in_or_app. right. apply IH; [simpl in Hlen; lia | exact Hin].
Qed.

End SegmenterContent.

(** X1. The segmenter only ever removes newlines: for every text and
    every positive limit, the chunks joined together have the same
    characters, in the same order, as the text once its newlines are left
    out of both. *)
Theorem split_message_keeps_content (text : str) (max_len : Z) :
  0 < max_len ->
  exists chunks,
    Telegram._split_message text max_len = Some chunks /\
    content (List.concat chunks) = content text.
Proof.
  intros Hm. unfold Telegram._split_message.
  destruct (len text <=? max_len).
  - exists [text]. split; [reflexivity|]. cbn [List.concat]. rewrite app_nil_r.
    reflexivity.
  - destruct (@split_loop_spec max_len Hm (S (List.length text)) text []
                ltac:(lia)) as [chunks [stripped [Hrun [Hlen [Hnl [Hres _]]]]]].
    exists chunks. split; [exact Hrun|].
    rewrite <- Hres. symmetry. apply content_restore; assumption.
Qed.

Lemma split_message_keeps_content_witness :
  0 < 5 /\
  exists chunks,
    Telegram._split_message Scenario.short_text 5 = Some chunks /\
    content (List.concat chunks) = content Scenario.short_text.
Proof. split; [lia | apply split_message_keeps_content; lia]. Defined.

(** X2. A text without any newline is cut and nothing else: for every
    positive limit the chunks joined together are the text itself. *)
Theorem split_message_no_newline_lossless (text : str) (max_len : Z) :
  0 < max_len -> ~ In NL text ->
  exists chunks,
    Telegram._split_message text max_len = Some chunks /\
    List.concat chunks = text.
Proof.
  intros Hm Hno. unfold Telegram._split_message.
  destruct (len text <=? max_len).
  - exists [text]. split; [reflexivity|]. cbn [List.concat]. apply app_nil_r.
  - destruct (@split_loop_spec max_len Hm (S (List.length text)) text []
                ltac:(lia)) as [chunks [stripped [Hrun [Hlen [Hnl [Hres _]]]]]].
    exists chunks. split; [exact Hrun|].
    assert (Hno' : ~ In NL (List.concat chunks)).
    { intros H. apply Hno. rewrite <- Hres.
      apply In_concat_restore; assumption. }
    rewrite <- (@content_no_NL _ Hno'), <- (@content_no_NL _ Hno).
    rewrite <- Hres. symmetry. apply content_restore; assumption.
Qed.

Lemma split_message_no_newline_lossless_witness :
  (0 < 4 /\ ~ In NL (lit "abcdefghij")) /\
  exists chunks,
    Telegram._split_message (lit "abcdefghij") 4 = Some chunks /\
    List.concat chunks = lit "abcdefghij".
Proof.
  assert (H : 0 < 4 /\ ~ In NL (lit "abcdefghij")).
  { split; [lia | vm_compute; intuition discriminate]. }
  split; [exact H|].
  exact (@split_message_no_newline_lossless _ _ (proj1 H) (proj2 H)).
Defined.

(** ** The segmenter: where the chunks begin and end *)

Section SegmenterBoundaries.

Variable max_len : Z.
Hypothesis max_len_pos : 0 < max_len.

Lemma lstrip_head_not_NL (s : str) (a : ascii) (t : str) :
  lstrip s [NL] = a :: t -> a <> NL.
Proof.
  induction s as [|c s IH]; [discriminate|].
  destruct (Ascii.eqb_spec c NL) as [-> | Hc].
  - rewrite lstrip_NL_cons. exact IH.
  - rewrite lstrip_head by assumption. intros E. injection E as <- _. exact Hc.
Qed.

Lemma lstrip_run_nonempty (t run : str) :
  NL :: t = run ++ lstrip (NL :: t) [NL] -> run <> [].
Proof.
  intros H ->. cbn [app] in H. rewrite lstrip_NL_cons in H.
  pose proof (lstrip_length t) as L. rewrite <- H in L. simpl in L. lia.
Qed.

(** After the first pass no chunk is empty and none begins with a
    newline. *)
Lemma split_loop_begins (fuel : nat) : forall remaining parts,
  (List.length remaining < fuel)%nat ->
  (forall t, remaining <> NL :: t) ->
  exists chunks,
    Telegram.split_loop fuel max_len remaining parts = Some (parts ++ chunks) /\
    Forall begins_with_text chunks.
Proof.
  induction fuel as [|fuel IH]; intros remaining parts Hfuel Hhead; [lia|].
  destruct remaining as [|c s].
  - exists []. simpl. rewrite app_nil_r. split; [reflexivity | constructor].
  - assert (Hc : c <> NL) by (intros ->; exact (Hhead s eq_refl)).
    destruct (Z.le_gt_cases (len (c :: s)) max_len) as [Hfit | Hlong].
    + exists [c :: s]. rewrite split_loop_fits by (congruence || assumption).
      split; [reflexivity|]. constructor; [|constructor]. exists c, s. auto.
    + rewrite split_loop_step by lia.
      set (k := Telegram.split_point (c :: s) max_len).
      pose proof (@split_progress (c :: s) max_len max_len_pos ltac:(lia)) as P.
      pose proof (@split_point_range (c :: s) max_len ltac:(lia)) as R.
      fold k in P, R.
      assert (Hk : 0 < k).
      { destruct (Z.eq_dec k 0) as [E | E]; [|lia].
        destruct (@split_point_zero (c :: s) max_len max_len_pos E) as [t Ht].
        exfalso. exact (Hhead t Ht). }
      destruct (IH (lstrip (slice_from (c :: s) k) [NL])
                   (parts ++ [slice_to (c :: s) k]) ltac:(lia))
        as [chunks [Hrun Hall]].
      { intros t Ht. exact (@lstrip_head_not_NL _ _ _ Ht eq_refl). }
      exists (slice_to (c :: s) k :: chunks).
      rewrite Hrun, <- app_assoc. split; [reflexivity|].
      constructor; [|exact Hall].
      exists c, (firstn (Z.to_nat k - 1) s). split; [|exact Hc].
      unfold slice_to. rewrite bound_nonneg by lia.
      replace (Z.to_nat k) with (S (Z.to_nat k - 1)) at 1 by lia. reflexivity.
Qed.

(** The segmentation of [split_loop_spec], with the reason for each cut:
    a chunk that is not the last is as long as the limit or was cut in
    front of a newline. *)
Lemma split_loop_boundaries (fuel : nat) : forall remaining parts,
  (List.length remaining < fuel)%nat ->
  exists chunks stripped,
    Telegram.split_loop fuel max_len remaining parts = Some (parts ++ chunks) /\
    List.length stripped = List.length chunks /\
    Forall newlines stripped /\
    restore chunks stripped = remaining /\
    boundaries max_len chunks stripped.
Proof.
  induction fuel as [|fuel IH]; intros remaining parts Hfuel; [lia|].
  destruct remaining as [|c s].
  - exists [], []. simpl. rewrite app_nil_r. repeat apply conj; auto.
  - destruct (Z.le_gt_cases (len (c :: s)) max_len) as [Hfit | Hlong].
    + exists [c :: s], [[]]. rewrite split_loop_fits by (congruence || assumption).
      repeat apply conj.
      * reflexivity.
      * reflexivity.
      * repeat constructor.
      * cbn [restore]. rewrite !app_nil_r. reflexivity.
      * exact I.
    + rewrite split_loop_step by lia.
      set (k := Telegram.split_point (c :: s) max_len).
      pose proof (@split_progress (c :: s) max_len max_len_pos ltac:(lia)) as P.
      pose proof (@split_point_range (c :: s) max_len ltac:(lia)) as R.
      fold k in P, R.
      destruct (IH (lstrip (slice_from (c :: s) k) [NL])
                   (parts ++ [slice_to (c :: s) k]) ltac:(lia))
        as [chunks [stripped [Hrun [Hlen [Hnl [Hres Hb]]]]]].
      destruct (lstrip_decomp (slice_from (c :: s) k)) as [run [Hrun' Hdec]].
      exists (slice_to (c :: s) k :: chunks), (run :: stripped).
      rewrite Hrun, <- app_assoc. repeat apply conj.
      * reflexivity.
      * simpl. congruence.
      * constructor; assumption.
      * cbn [restore]. rewrite Hres, <- Hdec. apply slice_to_from.
      * destruct chunks as [|c2 chunks]; [exact I|].
        cbn [boundaries]. split; [|exact Hb].
        assert (Break : forall sub,
                  occurs_at (NL :: sub) (slice_to (c :: s) max_len) k ->
                  run <> []).
        { intros sub H.
          apply (@occurs_at_slice_to (NL :: sub) ltac:(discriminate)) in H;
            [|lia].
          destruct H as [[_ H] _]. apply startswith_iff in H.
          destruct H as [t Ht]. rewrite Ht in Hdec. cbn [app] in Hdec.
          exact (@lstrip_run_nonempty _ _ Hdec). }
        destruct (split_point_cases (c :: s) max_len)
          as [[H _] | [[_ [H _]] | [_ [_ H]]]]; fold k in H.
        -- right. exact (Break _ H).
        -- right. exact (Break _ H).
        -- left. rewrite len_slice_to by lia. lia.
Qed.

End SegmenterBoundaries.

(** X3. When a text is longer than the (positive) limit, every chunk
    after the first is non-empty and does not begin with a newline. *)
Theorem split_message_later_chunks (text : str) (max_len : Z) :
  0 < max_len -> max_len < len text ->
  exists first rest,
    Telegram._split_message text max_len = Some (first :: rest) /\
    Forall begins_with_text rest.
Proof.
  intros Hm Hlong. unfold Telegram._split_message.
  destruct (Z.leb_spec (len text) max_len) as [Hfit | _]; [lia|].
  rewrite split_loop_step by assumption.
  pose proof (@split_progress text max_len Hm Hlong) as P.
  destruct (@split_loop_begins max_len Hm (List.length text)
              (lstrip (slice_from text (Telegram.split_point text max_len)) [NL])
              ([] ++ [slice_to text (Telegram.split_point text max_len)]) P)
    as [chunks [Hrun Hall]].
  { intros t Ht. exact (@lstrip_head_not_NL _ _ _ Ht eq_refl). }
  exists (slice_to text (Telegram.split_point text max_len)), chunks.
  split; [exact Hrun | exact Hall].
Qed.

Lemma split_message_later_chunks_witness :
  (0 < 4 /\ 4 < len (NL :: NL :: lit "abcde")) /\
  exists first rest,
    Telegram._split_message (NL :: NL :: lit "abcde") 4 = Some (first :: rest) /\
    Forall begins_with_text rest.
Proof.
  assert (H : 0 < 4 /\ 4 < len (NL :: NL :: lit "abcde")).
  { split; [lia | vm_compute; reflexivity]. }
  split; [exact H|].
  exact (@split_message_later_chunks _ _ (proj1 H) (proj2 H)).
Defined.

(** X4. For every text and every positive limit, a chunk that is not the
    last one either has exactly the length of the limit (a hard cut) or
    was cut in front of a newline of the text: no chunk ends early in the
    middle of a line. *)
Theorem split_message_boundaries (text : str) (max_len : Z) :
  0 < max_len ->
  exists chunks stripped,
    Telegram._split_message text max_len = Some chunks /\
    List.length stripped = List.length chunks /\
    Forall newlines stripped /\
    restore chunks stripped = text /\
    boundaries max_len chunks stripped.
Proof.
  intros Hm. unfold Telegram._split_message.
  destruct (len text <=? max_len).
  - exists [text], [[]]. repeat apply conj.
    + reflexivity.
    + reflexivity.
    + repeat constructor.
    + cbn [restore]. rewrite !app_nil_r. reflexivity.
    + exact I.
  - exact (@split_loop_boundaries max_len Hm (S (List.length text)) text []
             ltac:(lia)).
Qed.

Lemma split_message_boundaries_witness :
  0 < 5 /\
  exists chunks stripped,
    Telegram._split_message Scenario.short_text 5 = Some chunks /\
    List.length stripped = List.length chunks /\
    Forall newlines stripped /\
    restore chunks stripped = Scenario.short_text /\
    boundaries 5 chunks stripped.
Proof. split; [lia | apply split_message_boundaries; lia]. Defined.

(** X5. With a limit of zero the loop never ends on a text that does not
    begin with a newline: every pass appends an empty chunk and leaves the
    remainder as it was, so no number of passes yields a result. *)
Theorem split_message_zero_limit_diverges (c : ascii) (s : str) :
  c <> NL ->
  forall fuel parts, Telegram.split_loop fuel 0 (c :: s) parts = None.
Proof.
  intros Hc fuel. induction fuel as [|fuel IH]; intros parts; [reflexivity|].
  cbn [Telegram.split_loop truthy].
  destruct (Z.leb_spec (len (c :: s)) 0) as [H | H];
    [unfold len in H; simpl in H; lia|].
  assert (E : Telegram.split_point (c :: s) 0 = 0) by reflexivity.
  rewrite E. unfold slice_from. cbn [bound Z.leb Z.compare Z.to_nat skipn].
  rewrite lstrip_head by assumption. apply IH.
Qed.

Lemma split_message_zero_limit_diverges_witness :
  "a"%char <> NL /\
  forall fuel parts, Telegram.split_loop fuel 0 (lit "abc") parts = None.
Proof.
  assert (H : "a"%char <> NL) by discriminate.
  split; [exact H|]. exact (@split_message_zero_limit_diverges _ (lit "bc") H).
Defined.

(** ** The orchestrators: which collaborators are called, and how often *)

Section OrchestratorCalls.

Lemma generate_calls_app (a b : list event) :
  generate_calls (a ++ b) = generate_calls a ++ generate_calls b.
Proof. apply flat_map_app. Qed.

Lemma lookups_app (a b : list event) : lookups (a ++ b) = lookups a ++ lookups b.
Proof. apply flat_map_app. Qed.

Lemma creations_app (a b : list event) :
  creations (a ++ b) = creations a ++ creations b.
Proof. apply flat_map_app. Qed.

Lemma indicators_call_nothing (ind : list event) :
  Forall is_indicator ind ->
  generate_calls ind = [] /\ lookups ind = [] /\ creations ind = [].
Proof.
  induction 1 as [|ev ind Hev _ IH]; [auto|].
  destruct ev; try contradiction. exact IH.
Qed.

Variable config : Config.
Variables text username : str.

Lemma resolved_calls (pre : list event) (name : str) :
  resolved username pre name ->
  generate_calls pre = [] /\
  exists o,
    lookups pre = [(username, o)] /\
    creations pre = match o with Ok None => [username] | _ => [] end /\
    ((name = username /\ ~ creation_failed pre)
     \/ (name = lit "admin" /\ creation_failed pre)) /\
    ~ lookup_failed pre.
Proof.
  intros R. destruct R as [u | msg | e msg]; (split; [reflexivity|]).
  - exists (Ok (Some u)). repeat apply conj; try reflexivity.
    + left. split; [reflexivity|]. intros [who [e H]]. simpl in H.
      intuition discriminate.
    + intros [who [e H]]. simpl in H. intuition discriminate.
  - exists (Ok None). repeat apply conj; try reflexivity.
    + left. split; [reflexivity|]. intros [who [e H]]. simpl in H.
      intuition discriminate.
    + intros [who [e H]]. simpl in H. intuition discriminate.
  - exists (Ok None). repeat apply conj; try reflexivity.
    + right. split; [reflexivity|]. exists username, e. right. left. reflexivity.
    + intros [who [e' H]]. simpl in H. intuition discriminate.
Qed.

Lemma creation_failed_app_l (a b : list event) :
  creation_failed a -> creation_failed (a ++ b).
Proof.
  intros [who [e H]]. exists who, e. apply in_or_app. left. exact H.
Qed.

Lemma creation_failed_tail (pre : list event) (req : request) (o : outcome str)
    (tail : list event) :
  Forall (fun ev => is_indicator ev \/ exists l m, ev = EvLog l m) tail ->
  creation_failed (pre ++ EvGenerate req o :: tail) -> creation_failed pre.
Proof.
  intros F [who [e H]]. exists who, e.
  apply in_app_or in H. destruct H as [H | [H | H]]; [exact H | discriminate|].
  exfalso. rewrite Forall_forall in F. destruct (F _ H) as [Hi | [l [m Hl]]].
  - exact Hi.
  - discriminate.
Qed.

Lemma tail_events (ind : list event) (msg : str) :
  Forall is_indicator ind ->
  Forall (fun ev => is_indicator ev \/ exists l m, ev = EvLog l m)
    (ind ++ [EvLog ERROR msg]).
Proof.
  intros F. apply Forall_app. split.
  - eapply Forall_impl; [|exact F]. intros ev H. left. exact H.
  - constructor; [|constructor]. right. eauto.
Qed.

(** The calls of one run of an orchestrator. *)
Lemma orchestrated_calls (evs : list event) (r : result str) :
  orchestrated config text username evs r ->
  (exists o,
     lookups evs = [(username, o)] /\
     creations evs = match o with Ok None => [username] | _ => [] end)
  /\ ((generate_calls evs = [] /\ lookup_failed evs)
      \/ (generate_calls evs = [request_for config text username] /\
          ~ creation_failed evs)
      \/ (generate_calls evs = [request_for config text (lit "admin")] /\
          creation_failed evs)).
Proof.
  intros H. destruct H as [e msg | pre name reply ind R F | pre name e ind msg R F].
  - split.
    + exists (Fail e). split; reflexivity.
    + left. split; [reflexivity|]. exists username, e. left. reflexivity.
  - destruct (resolved_calls R) as [G [o [L [Cr [N _]]]]].
    destruct (indicators_call_nothing F) as [Gi [Li Ci]].
    split.
    + exists o. rewrite lookups_app, creations_app, L, Cr. cbn [lookups creations flat_map app].
      fold (lookups ind). fold (creations ind). rewrite Li, Ci, !app_nil_r.
      split; reflexivity.
    + right.
      assert (Gc : generate_calls (pre ++ EvGenerate (request_for config text name)
                                           (Ok reply) :: ind)
                   = [request_for config text name]).
      { rewrite generate_calls_app, G. cbn [generate_calls flat_map app].
        fold (generate_calls ind). rewrite Gi. reflexivity. }
      destruct N as [[-> Hn] | [-> Hc]].
      * left. split; [exact Gc|]. intros Hc. apply Hn.
        eapply creation_failed_tail; [|exact Hc].
        eapply Forall_impl; [|exact F]. intros ev Hev. left. exact Hev.
      * right. split; [exact Gc | apply creation_failed_app_l; exact Hc].
  - destruct (resolved_calls R) as [G [o [L [Cr [N _]]]]].
    destruct (indicators_call_nothing F) as [Gi [Li Ci]].
    split.
    + exists o. rewrite lookups_app, creations_app, L, Cr.
      cbn [lookups creations flat_map app].
      fold (lookups (ind ++ [EvLog ERROR msg])).
      fold (creations (ind ++ [EvLog ERROR msg])).
      rewrite lookups_app, creations_app, Li, Ci. cbn. rewrite !app_nil_r.
      split; reflexivity.
    + right.
      assert (Gc : generate_calls (pre ++ EvGenerate (request_for config text name)
                                           (Fail e) :: ind ++ [EvLog ERROR msg])
                   = [request_for config text name]).
      { rewrite generate_calls_app, G. cbn [generate_calls flat_map app].
        fold (generate_calls (ind ++ [EvLog ERROR msg])).
        rewrite generate_calls_app, Gi. reflexivity. }
      destruct N as [[-> Hn] | [-> Hc]].
      * left. split; [exact Gc|]. intros Hc. apply Hn.
        eapply creation_failed_tail; [|exact Hc]. apply tail_events. exact F.
      * right. split; [exact Gc | apply creation_failed_app_l; exact Hc].
Qed.

Lemma generate_calls_In (evs : list event) (req : request) :
  In req (generate_calls evs) <-> exists o, In (EvGenerate req o) evs.
Proof.
  unfold generate_calls. rewrite in_flat_map. split.
  - intros [ev [Hin Hreq]]. destruct ev; try contradiction.
    destruct Hreq as [<- | []]. eexists. exact Hin.
  - intros [o Hin]. eexists. split; [exact Hin|]. left. reflexivity.
Qed.

(** The backend calls of one run, by what happened at the user store. *)
Lemma orchestrated_backend_calls (evs : list event) (r : result str) :
  orchestrated config text username evs r ->
  (lookup_failed evs -> generate_calls evs = []) /\
  (~ lookup_failed evs -> ~ creation_failed evs ->
   generate_calls evs = [request_for config text username]) /\
  (creation_failed evs ->
   generate_calls evs = [request_for config text (lit "admin")]).
Proof.
  intros H. destruct (proj2 (orchestrated_calls H)) as [[G L] | [[G N] | [G Cf]]].
  - repeat apply conj.
    + intros _. exact G.
    + intros Hno. contradiction.
    + intros Hc. exfalso.
      destruct (orchestrated_creation_failed H Hc) as [o [Hin _]].
      assert (Hreq : In (request_for config text (lit "admin"))
                        (generate_calls evs)).
      { apply generate_calls_In. exists o. exact Hin. }
      rewrite G in Hreq. exact Hreq.
  - repeat apply conj.
    + intros L. exfalso.
      apply (proj1 (orchestrated_lookup_failed H L)).
      assert (Hreq : In (request_for config text username) (generate_calls evs)).
      { rewrite G. left. reflexivity. }
      apply generate_calls_In in Hreq. destruct Hreq as [o Hin].
      exists (request_for config text username), o. exact Hin.
    + intros _ _. exact G.
    + intros Hc. contradiction.
  - repeat apply conj.
    + intros L. exfalso.
      apply (proj1 (orchestrated_lookup_failed H L)).
      assert (Hreq : In (request_for config text (lit "admin"))
                        (generate_calls evs)).
      { rewrite G. left. reflexivity. }
      apply generate_calls_In in Hreq. destruct Hreq as [o Hin].
      exists (request_for config text (lit "admin")), o. exact Hin.
    + intros _ Hn. contradiction.
    + intros _. exact G.
Qed.

End OrchestratorCalls.

(** X6. In one run of either orchestrator the AI backend is called at
    most once. When the lookup of the user raised, it is not called at
    all. When the creation of the user failed, it is called once under
    "admin". When neither happened, it is called once under the derived
    username. Each call carries the inbound text unchanged, history on,
    source removal on, proxies off and the configured cookie file. *)
Theorem orchestrator_backend_calls
    {W : Type} {C : Collaborators W} (config : Config) (text username : str) :
  (forall st : state W Telegram.coro,
     let evs := events_since st
                  (snd (Telegram._generate_answer config text username st)) in
     (lookup_failed evs -> generate_calls evs = []) /\
     (~ lookup_failed evs -> ~ creation_failed evs ->
      generate_calls evs = [request_for config text username]) /\
     (creation_failed evs ->
      generate_calls evs = [request_for config text (lit "admin")]))
  /\
  (forall st : state W Slack.coro,
     let evs := events_since st
                  (snd (Slack._generate_answer config text username st)) in
     (lookup_failed evs -> generate_calls evs = []) /\
     (~ lookup_failed evs -> ~ creation_failed evs ->
      generate_calls evs
      = [request_for config text (lit "slack_" ++ username)]) /\
     (creation_failed evs ->
      generate_calls evs = [request_for config text (lit "admin")])).
Proof.
  split; intros st.
  - destruct (telegram_orchestrated config text username st)
      as [evs [r [st' [E [Hc Hs]]]]].
    cbv zeta. rewrite E. cbn [snd]. rewrite (events_since_continues Hc).
    exact (orchestrated_backend_calls Hs).
  - destruct (slack_orchestrated config text username st)
      as [evs [r [st' [E [Hc Hs]]]]].
    cbv zeta. rewrite E. cbn [snd]. rewrite (events_since_continues Hc).
    exact (orchestrated_backend_calls Hs).
Qed.

Lemma orchestrator_backend_calls_witness :
  let down := Scenario.with_get_user (Fail Scenario.store_down)
                Scenario.all_well in
  let evs := events_since (initial down)
               (snd (Telegram._generate_answer Scenario.a_config (lit "ping")
                       (lit "tg_42") (initial down))) in
  lookup_failed evs /\ generate_calls evs = [].
Proof.
  cbv zeta.
  assert (L : lookup_failed
                (events_since
                   (initial (Scenario.with_get_user (Fail Scenario.store_down)
                               Scenario.all_well))
                   (snd (Telegram._generate_answer Scenario.a_config (lit "ping")
                           (lit "tg_42")
                           (initial (Scenario.with_get_user
                                       (Fail Scenario.store_down)
                                       Scenario.all_well)))))).
  { exists (lit "tg_42"), Scenario.store_down. vm_compute. left. reflexivity. }
  split; [exact L|].
  exact (proj1 (proj1 (orchestrator_backend_calls Scenario.a_config (lit "ping")
                         (lit "tg_42")) _) L).
Defined.

(** X7. In one run of either orchestrator the user store is looked up
    exactly once, for the derived username, and the creation of that user
    is attempted exactly when the lookup answered that there is none: never
    for a user that exists, never after a lookup that raised, never
    twice. *)
Theorem orchestrator_store_calls
    {W : Type} {C : Collaborators W} (config : Config) (text username : str) :
  (forall st : state W Telegram.coro,
     let evs := events_since st
                  (snd (Telegram._generate_answer config text username st)) in
     exists o,
       lookups evs = [(username, o)] /\
       creations evs = match o with Ok None => [username] | _ => [] end)
  /\
  (forall st : state W Slack.coro,
     let evs := events_since st
                  (snd (Slack._generate_answer config text username st)) in
     exists o,
       lookups evs = [(lit "slack_" ++ username, o)] /\
       creations evs = match o with
                       | Ok None => [lit "slack_" ++ username]
                       | _ => []
                       end).
Proof.
  split; intros st.
  - destruct (telegram_orchestrated config text username st)
      as [evs [r [st' [E [Hc Hs]]]]].
    cbv zeta. rewrite E. cbn [snd]. rewrite (events_since_continues Hc).
    exact (proj1 (orchestrated_calls Hs)).
  - destruct (slack_orchestrated config text username st)
      as [evs [r [st' [E [Hc Hs]]]]].
    cbv zeta. rewrite E. cbn [snd]. rewrite (events_since_continues Hc).
    exact (proj1 (orchestrated_calls Hs)).
Qed.

(** ** Virtual usernames *)

Section Usernames.

Lemma lit_inj (a b : string) : lit a = lit b -> a = b.
Proof.
  unfold lit. intros H.
  rewrite <- (string_of_list_ascii_of_string a),
          <- (string_of_list_ascii_of_string b), H. reflexivity.
Qed.

Lemma str_of_int_inj (n m : Z) : str_of_int n = str_of_int m -> n = m.
Proof.
  unfold str_of_int. intros H. apply lit_inj in H.
  apply DecimalZ.to_int_inj.
  assert (E : Some (Z.to_int n) = Some (Z.to_int m)).
  { rewrite <- !NilEmpty.isi, H. reflexivity. }
  injection E as E. exact E.
Qed.

End Usernames.

(** X8. Virtual usernames are namespaced: two Telegram users with the
    same virtual username have the same id, and a Telegram username is
    never "admin" and never the username of a Slack user. *)
Theorem telegram_usernames_namespaced :
  (forall u1 u2 : User,
     Telegram.username_of u1 = Telegram.username_of u2 ->
     user_id u1 = user_id u2)
  /\ (forall u : User, Telegram.username_of u <> lit "admin")
  /\ (forall (u : User) (slack_id : str),
        Telegram.username_of u <> lit "slack_" ++ slack_id).
Proof.
  unfold Telegram.username_of, Telegram.TELEGRAM_USERNAME_PREFIX.
  repeat apply conj.
  - intros u1 u2 H. apply app_inv_head in H. exact (str_of_int_inj _ _ H).
  - intros u H. discriminate.
  - intros u slack_id H. discriminate.
Qed.

Lemma telegram_usernames_namespaced_witness :
  Telegram.username_of {| user_id := 42 |} = Telegram.username_of {| user_id := 42 |}
  /\ user_id {| user_id := 42 |} = user_id {| user_id := 42 |}.
Proof.
  split; [reflexivity|].
  exact (proj1 telegram_usernames_namespaced {| user_id := 42 |}
           {| user_id := 42 |} eq_refl).
Defined.

(** ** Blank messages *)

Section Blank.

Lemma lstrip_space_head (s : str) (a : ascii) (t : str) :
  lstrip_space s = a :: t -> isspace a = false.
Proof.
  induction s as [|c s IH]; [discriminate|]. cbn [lstrip_space].
  destruct (isspace c) eqn:E; [exact IH|].
  intros H. injection H as <- _. exact E.
Qed.

Lemma lstrip_space_blank (s : str) : lstrip_space s = [] <-> blank s.
Proof.
  unfold blank. induction s as [|c s IH]; [split; [constructor | reflexivity]|].
  cbn [lstrip_space]. destruct (isspace c) eqn:E.
  - rewrite IH. split; [intros H; constructor; assumption|].
    intros H. inversion H. assumption.
  - split; [discriminate|]. intros H. inversion H. congruence.
Qed.

Lemma strip_blank (s : str) : truthy (strip s) = false <-> blank s.
Proof.
  unfold strip. split.
  - intros H.
    destruct (rev (lstrip_space (rev (lstrip_space s)))) as [|a t] eqn:E;
      [|discriminate].
    apply (f_equal (@rev ascii)) in E. rewrite rev_involutive in E. cbn in E.
    apply lstrip_space_blank in E.
    destruct (lstrip_space s) as [|b r] eqn:Es; [apply lstrip_space_blank; exact Es|].
    exfalso. pose proof (lstrip_space_head _ Es) as Hb.
    unfold blank in E. rewrite Forall_forall in E.
    assert (Hin : In b (rev (b :: r))) by (apply in_rev; rewrite rev_involutive; left; reflexivity).
    rewrite (E b Hin) in Hb. discriminate.
  - intros H. apply lstrip_space_blank in H. rewrite H. reflexivity.
Qed.

Lemma dict_get_missing (d : dict) (key default : str) :
  missing key d -> dict_get d key default = default.
Proof.
  induction 1 as [|[k v] d Hk _ IH]; [reflexivity|].
  cbn [dict_get]. cbn [fst] in Hk. rewrite Hk. exact IH.
Qed.

End Blank.

(** X9. The Telegram handler ignores an update that has no message, no
    sender, no text, or a text made of white space only: it returns at
    once, and no task is created, no collaborator is called and nothing is
    sent. *)
Theorem telegram_ignores_blank
    {W : Type} {C : Collaborators W} (config : Config) (update : Update)
    (st : state W Telegram.coro) :
  upd_message update = None
  \/ effective_user update = None
  \/ (exists message, upd_message update = Some message /\
                      blank (Telegram.text_or_empty message)) ->
  Telegram.handle_message config update st = (Return tt, st).
Proof.
  intros H. unfold Telegram.handle_message.
  destruct (upd_message update) as [message|]; [|reflexivity].
  destruct (effective_user update) as [user|]; [|reflexivity].
  destruct H as [H | [H | [m [Hm Hb]]]]; try discriminate.
  injection Hm as <-. apply strip_blank in Hb. rewrite Hb. reflexivity.
Qed.

Lemma telegram_ignores_blank_witness :
  (exists message, upd_message Cases.blank_update = Some message /\
                   blank (Telegram.text_or_empty message)) /\
  Telegram.handle_message Scenario.a_config Cases.blank_update
    (initial Scenario.all_well)
  = (Return tt, initial Scenario.all_well).
Proof.
  assert (H : exists message, upd_message Cases.blank_update = Some message /\
                              blank (Telegram.text_or_empty message)).
  { eexists. split; [reflexivity|]. repeat constructor. }
  split; [exact H|].
  exact (@telegram_ignores_blank Scenario.script _ Scenario.a_config
           Cases.blank_update (initial Scenario.all_well)
           (or_intror (or_intror H))).
Defined.

(** X10. The Slack handler ignores an event that has no "text" key or
    whose text is made of white space only: nothing is looked up, the
    backend is not called, nothing is said. *)
Theorem slack_ignores_blank
    {W : Type} {C : Collaborators W} (config : Config) (message : dict)
    (st : state W Slack.coro) :
  missing (lit "text") message \/ blank (dict_get message (lit "text") []) ->
  Slack.handle_message config message st = (Return tt, st).
Proof.
  intros H. unfold Slack.handle_message.
  assert (Hb : blank (dict_get message (lit "text") [])).
  { destruct H as [H | H]; [|exact H].
    rewrite (dict_get_missing [] H). constructor. }
  apply strip_blank in Hb. rewrite Hb. reflexivity.
Qed.

Lemma slack_ignores_blank_witness :
  blank (dict_get Scenario.slack_blank (lit "text") []) /\
  Slack.handle_message Scenario.a_config Scenario.slack_blank
    (initial Scenario.all_well)
  = (Return tt, initial Scenario.all_well).
Proof.
  assert (H : blank (dict_get Scenario.slack_blank (lit "text") [])).
  { repeat constructor. }
  split; [exact H|].
  exact (@slack_ignores_blank Scenario.script _ Scenario.a_config
           Scenario.slack_blank (initial Scenario.all_well) (or_intror H)).
Defined.

(** X11. A Slack event that carries a text but no "user" key is answered
    under the shared identity [slack_unknown]: that is the one username
    looked up in the user store. *)
Theorem slack_anonymous_identity
    {W : Type} {C : Collaborators W} (config : Config) (message : dict)
    (st : state W Slack.coro) :
  missing (lit "user") message ->
  truthy (strip (dict_get message (lit "text") [])) = true ->
  exists o,
    lookups (events_since st (snd (Slack.handle_message config message st)))
    = [(lit "slack_unknown", o)].
Proof.
  intros Hu Htext. unfold Slack.handle_message.
  rewrite Htext, (dict_get_missing (lit "unknown") Hu). cbn [negb].
  unfold bind.
  destruct (slack_orchestrated config (dict_get message (lit "text") [])
              (lit "unknown") st) as [evs [r [s1 [E [Hc Hs]]]]].
  rewrite E. destruct (orchestrated_returns Hs) as [reply ->].
  unfold say.
  destruct (call_run (K := Slack.coro) (slack_say reply) (EvSay reply) s1)
    as [o [s2 [E2 [Hc2 _]]]].
  rewrite E2. cbn [snd].
  assert (Hev : events_since st s2 = evs ++ [EvSay reply o]).
  { apply events_since_continues. unfold continues in *.
    rewrite Hc2, Hc, app_assoc. reflexivity. }
  rewrite Hev, lookups_app. cbn [lookups flat_map app]. rewrite app_nil_r.
  destruct (proj1 (orchestrated_calls Hs)) as [o' [L _]].
  exists o'. exact L.
Qed.

Lemma slack_anonymous_identity_witness :
  (missing (lit "user") Cases.anonymous_ping /\
   truthy (strip (dict_get Cases.anonymous_ping (lit "text") [])) = true) /\
  exists o,
    lookups (events_since (initial Scenario.all_well)
               (snd (Slack.handle_message Scenario.a_config Cases.anonymous_ping
                       (initial Scenario.all_well))))
    = [(lit "slack_unknown", o)].
Proof.
  assert (H : missing (lit "user") Cases.anonymous_ping /\
              truthy (strip (dict_get Cases.anonymous_ping (lit "text") [])) = true).
  { split; [repeat constructor | reflexivity]. }
  split; [exact H|].
  exact (@slack_anonymous_identity Scenario.script _ Scenario.a_config
           Cases.anonymous_ping (initial Scenario.all_well) (proj1 H) (proj2 H)).
Defined.

(** ** Sending the chunks *)

Section Sending.

Context {W : Type} {C : Collaborators W}.

Lemma call_exact {K A} (f : W -> outcome A * W) (ev : outcome A -> event)
    (st : state W K) :
  call f ev st
  = (delivered (fst (f (world st))),
     {| world := snd (f (world st));
        trace := trace st ++ [ev (fst (f (world st)))];
        tasks := tasks st |}).
Proof.
  unfold call. destruct (f (world st)) as [o w]. destruct o; reflexivity.
Qed.

Lemma events_since_one {K} (st : state W K) (w : W) (evs : list event)
    (ts : list (task K)) :
  events_since st {| world := w; trace := trace st ++ evs; tasks := ts |} = evs.
Proof. apply events_since_continues. reflexivity. Qed.

Lemma events_since_trans {K} (st s1 s2 : state W K) (a b : list event) :
  continues st s1 a -> continues s1 s2 b ->
  events_since st s2 = a ++ events_since s1 s2.
Proof.
  intros H1 H2. rewrite (events_since_continues H2).
  apply events_since_continues. unfold continues in *.
  rewrite H2, H1, app_assoc. reflexivity.
Qed.

Lemma first_attempts_app (a b : list event) :
  first_attempts (a ++ b) = first_attempts a ++ first_attempts b.
Proof. apply flat_map_app. Qed.

(** One chunk: its events begin with the attempt in markdown and hold no
    other attempt with a parse mode. *)
Lemma send_chunk_attempt (message : Message) (chunk : str)
    (st : state W Telegram.coro) :
  exists r st' evs,
    Telegram.send_chunk message chunk st = (r, st') /\
    continues st st' evs /\ first_attempts evs = [chunk].
Proof.
  unfold Telegram.send_chunk, try_except, reply_text.
  rewrite call_exact.
  destruct (fst (message_reply_text message chunk (Some MARKDOWN) (world st)))
    as [[]|e] eqn:E1; cbn [delivered].
  - do 3 eexists. split; [reflexivity|]. split; [reflexivity|]. reflexivity.
  - destruct (handles (Except BadRequest) (Exc e)).
    + rewrite call_exact. cbn [world trace tasks].
      do 3 eexists. split; [reflexivity|]. split.
      * unfold continues. cbn [trace]. rewrite <- app_assoc. reflexivity.
      * reflexivity.
    + do 3 eexists. split; [reflexivity|]. split; reflexivity.
Qed.

End Sending.

(** X12. The retry policy of one chunk. The chunk is first sent as
    markdown. If the platform accepts it, that is the only send. If the
    platform rejects it with [BadRequest], the same chunk is sent once
    more without a parse mode, and the outcome of that second send is the
    outcome of the chunk. Any other error of the first send is raised
    without a retry. *)
Theorem send_chunk_retry_policy
    {W : Type} {C : Collaborators W} (message : Message) (chunk : str)
    (st : state W Telegram.coro) :
  let run := Telegram.send_chunk message chunk st in
  let first := message_reply_text message chunk (Some MARKDOWN) (world st) in
  let second := message_reply_text message chunk None (snd first) in
  match fst first with
  | Ok _ =>
    fst run = Return tt /\
    events_since st (snd run) = [EvReplyText chunk (Some MARKDOWN) (Ok tt)]
  | Fail e =>
    match err_class e with
    | BadRequest =>
      fst run = delivered (fst second) /\
      events_since st (snd run)
      = [EvReplyText chunk (Some MARKDOWN) (Fail e);
         EvReplyText chunk None (fst second)]
    | _ =>
      fst run = Raise (Exc e) /\
      events_since st (snd run) = [EvReplyText chunk (Some MARKDOWN) (Fail e)]
    end
  end.
Proof.
  cbv zeta. unfold Telegram.send_chunk, try_except, reply_text.
  rewrite call_exact.
  destruct (fst (message_reply_text message chunk (Some MARKDOWN) (world st)))
    as [[]|e] eqn:E1; cbn [delivered].
  - cbn [fst snd]. split; [reflexivity | apply events_since_one].
  - cbn [handles exc_class_eqb]. destruct (err_class e); cbn [exc_class_eqb].
    + cbn [fst snd]. split; [reflexivity | apply events_since_one].
    + rewrite call_exact. cbn [world trace tasks fst snd].
      split; [reflexivity|]. rewrite <- app_assoc. apply events_since_one.
    + cbn [fst snd]. split; [reflexivity | apply events_since_one].
Qed.

(** X13. The chunks are attempted strictly in order and none is skipped:
    the first attempts made are a prefix of the chunk list, the whole list
    when the loop returns normally; after a chunk whose sending raises, no
    later chunk is attempted. *)
Theorem send_chunks_in_order
    {W : Type} {C : Collaborators W} (message : Message) (chunks : list str)
    (st : state W Telegram.coro) :
  let run := for_each chunks (Telegram.send_chunk message) st in
  exists k,
    first_attempts (events_since st (snd run)) = firstn k chunks /\
    (k <= List.length chunks)%nat /\
    (fst run = Return tt -> k = List.length chunks) /\
    (fst run <> Return tt -> (0 < k)%nat).
Proof.
  cbv zeta. revert st. induction chunks as [|chunk chunks IH]; intros st.
  - exists 0%nat. cbn [for_each ret fst snd].
    rewrite (@events_since_continues _ _ st st []);
      [|unfold continues; rewrite app_nil_r; reflexivity].
    repeat apply conj; [reflexivity | lia | reflexivity | congruence].
  - cbn [for_each]. unfold bind.
    destruct (send_chunk_attempt message chunk st) as [r [s1 [evs [E [Hc Ha]]]]].
    rewrite E. destruct r as [[]|x|].
    + destruct (send_chunks_run message chunks s1)
        as [r' [s2 [sends [E2 [Hc2 _]]]]].
      destruct (IH s1) as [k [Hk [Hle [Hret Hne]]]].
      rewrite E2 in *. cbn [fst snd] in *.
      exists (S k).
      rewrite (events_since_trans Hc Hc2), first_attempts_app, Ha, Hk.
      repeat apply conj; [reflexivity | simpl; lia | | intros _; lia].
      intros Hr. simpl. f_equal. exact (Hret Hr).
    + exists 1%nat. cbn [fst snd]. rewrite (events_since_continues Hc), Ha.
      repeat apply conj; [reflexivity | simpl; lia | discriminate | lia].
    + exists 1%nat. cbn [fst snd]. rewrite (events_since_continues Hc), Ha.
      repeat apply conj; [reflexivity | simpl; lia | discriminate | lia].
Qed.

(** ** The liveness task *)

(** X14. One turn of the typing loop is best effort: it sends one
    indicator to the chat of the update (none when the update has no
    chat), and whatever the platform answers, error included, the loop
    does not raise and parks again; a cancellation delivered where it is
    parked makes it return without any event. *)
Theorem typing_loop_best_effort
    {W : Type} {C : Collaborators W} (update : Update)
    (st : state W Telegram.coro) :
  let step := co_step (Telegram._typing_loop update) st in
  fst step = Return Suspended /\
  tasks (snd step) = tasks st /\
  events_since st (snd step)
  = match effective_chat update with
    | Some chat =>
      [EvSendAction chat TYPING (fst (chat_send_action chat TYPING (world st)))]
    | None => []
    end /\
  co_cancel (Telegram._typing_loop update) st = (Return tt, st).
Proof.
  cbv zeta. cbn [Telegram._typing_loop co_step co_cancel].
  unfold bind, try_except.
  destruct (effective_chat update) as [chat|].
  - unfold send_action. rewrite call_exact.
    destruct (fst (chat_send_action chat TYPING (world st))) as [[]|e];
      cbn [delivered handles ret fst snd tasks];
      (repeat apply conj; [reflexivity | reflexivity | apply events_since_one
                           | reflexivity]).
  - cbn [ret fst snd]. repeat apply conj; try reflexivity.
    apply events_since_continues. unfold continues. rewrite app_nil_r.
    reflexivity.
Qed.

(** ** The whole Telegram handler *)

Section Delivery.

Context {W : Type} {C : Collaborators W}.
Variable config : Config.

Lemma generate_response_started (update : Update) (req : request)
    (st : state W Telegram.coro) :
  backend_yields ->
  tasks st = [{| task_coro := Telegram.TypingLoop update; task_state := Pending;
                 task_must_cancel := false |}] ->
  exists o ind st',
    generate_response req st = (delivered o, st') /\
    continues st st' (EvGenerate req o :: ind) /\ Forall is_indicator ind /\
    tasks st' = [parked update].
Proof.
  intros Hy Ht. unfold generate_response, await.
  destruct (Hy req (world st)) as [n Hn].
  destruct (ai_generate_response req (world st)) as [[o m] w].
  cbn [fst snd] in Hn. subst m. unfold bind.
  destruct (@suspend_single W C update n
              {| world := w; trace := trace st ++ [EvGenerate req o];
                 tasks := tasks st |} Ht) as [s1 [E [[ind [Hc Hi]] T]]].
  rewrite E. exists o, ind, s1. split; [destruct o; reflexivity|].
  split; [|split; [exact Hi | exact T]].
  unfold continues in *. rewrite Hc. cbn [trace]. rewrite <- app_assoc.
  reflexivity.
Qed.

Ltac started_tail Hy T :=
  match goal with
  | |- context [generate_response ?req ?s] =>
    let o := fresh "o" in let ind := fresh "ind" in let s2 := fresh "s" in
    let E := fresh "E" in let H := fresh "H" in let F := fresh "F" in
    let T' := fresh "T" in
    destruct (@generate_response_started _ req s Hy T)
      as [o [ind [s2 [E [H [F T']]]]]];
    rewrite E; destruct o as [reply | e']; cbn [delivered handles]
  end.

Ltac link :=
  unfold continues in *;
  repeat (cbn [trace];
          match goal with H : trace _ = _ |- _ => rewrite H; clear H end);
  cbn [trace]; repeat rewrite <- app_assoc; cbn [app]; reflexivity.

Ltac finish_started shape T :=
  do 3 eexists; split; [reflexivity|]; split; [|split; [shape | exact T]];
  link.

(** The orchestrator, run while the liveness task waits to start: when
    the lookup answers and the backend yields, it returns with the task
    started. *)
Lemma orchestrator_starts_task (update : Update) (text username : str)
    (st : state W Telegram.coro) :
  lookup_answers -> backend_yields ->
  tasks st = [{| task_coro := Telegram.TypingLoop update; task_state := Pending;
                 task_must_cancel := false |}] ->
  exists evs reply st',
    Telegram._generate_answer config text username st = (Return reply, st') /\
    continues st st' evs /\
    orchestrated config text username evs (Return reply) /\
    tasks st' = [parked update].
Proof.
  intros Hl Hy Ht.
  unfold Telegram._generate_answer, try_except at 1, bind at 1.
  unfold get_user_by_username. rewrite call_exact.
  destruct (Hl username (world st)) as [r Hr]. rewrite Hr.
  set (s1 := {| world := snd (db_get_user_by_username username (world st));
                trace := trace st ++ [EvGetUser username (Ok r)];
                tasks := tasks st |}).
  assert (H1 : continues st s1 [EvGetUser username (Ok r)]) by reflexivity.
  assert (T1 : tasks s1 = [{| task_coro := Telegram.TypingLoop update;
                              task_state := Pending;
                              task_must_cancel := false |}]) by exact Ht.
  clearbody s1. destruct r as [u|]; cbn [delivered].
  - unfold bind, ret. started_tail Hy T1.
    + finish_started ltac:(eapply Answered; [apply Known | eassumption]) T.
    + unfold log, emit.
      finish_started ltac:(eapply BackendFailed; [apply Known | eassumption]) T.
  - unfold try_except, bind at 1 2, create_user. rewrite call_exact.
    set (s2 := {| world := snd (db_create_user username (world s1));
                  trace := trace s1 ++
                           [EvCreateUser username
                              (fst (db_create_user username (world s1)))];
                  tasks := tasks s1 |}).
    assert (H2 : continues s1 s2
                   [EvCreateUser username
                      (fst (db_create_user username (world s1)))])
      by reflexivity.
    assert (T2 : tasks s2 = [{| task_coro := Telegram.TypingLoop update;
                                task_state := Pending;
                                task_must_cancel := false |}]) by exact T1.
    clearbody s2.
    destruct (fst (db_create_user username (world s1))) as [[]|e];
      cbn [delivered handles].
    + unfold log, emit, bind, ret. cbn [tasks].
      match goal with
      | |- context [generate_response _ ?s] =>
        assert (T3 : tasks s = [{| task_coro := Telegram.TypingLoop update;
                                   task_state := Pending;
                                   task_must_cancel := false |}]) by exact T2
      end.
      started_tail Hy T3.
      * finish_started ltac:(eapply Answered; [apply Created | eassumption]) T.
      * finish_started ltac:(eapply BackendFailed; [apply Created | eassumption]) T.
    + unfold log, emit, bind, ret. cbn [tasks].
      match goal with
      | |- context [generate_response _ ?s] =>
        assert (T3 : tasks s = [{| task_coro := Telegram.TypingLoop update;
                                   task_state := Pending;
                                   task_must_cancel := false |}]) by exact T2
      end.
      started_tail Hy T3.
      * finish_started ltac:(eapply Answered; [apply Fallback | eassumption]) T.
      * finish_started ltac:(eapply BackendFailed; [apply Fallback | eassumption]) T.
Qed.

End Delivery.

Section DeliveryEnd.

Context {W : Type} {C : Collaborators W}.
Variable config : Config.

Lemma sent_accepted (chunks : list str) :
  sent (map (fun c => EvReplyText c (Some MARKDOWN) (Ok tt)) chunks) = chunks.
Proof.
  induction chunks as [|c chunks IH]; [reflexivity|].
  cbn [map]. change (sent (EvReplyText c (Some MARKDOWN) (Ok tt) :: ?l))
    with (c :: sent l). simpl. f_equal. exact IH.
Qed.

Lemma send_chunks_accepted (message : Message) (chunks : list str) :
  platform_accepts ->
  forall st : state W Telegram.coro,
  exists st',
    for_each chunks (Telegram.send_chunk message) st = (Return tt, st') /\
    continues st st'
      (map (fun c => EvReplyText c (Some MARKDOWN) (Ok tt)) chunks) /\
    tasks st' = tasks st.
Proof.
  intros Hp. induction chunks as [|chunk chunks IH]; intros st.
  - exists st. split; [reflexivity|]. split; [|reflexivity].
    unfold continues. cbn [map]. rewrite app_nil_r. reflexivity.
  - cbn [for_each]. unfold bind, Telegram.send_chunk, try_except, reply_text.
    rewrite call_exact, (Hp message chunk (Some MARKDOWN) (world st)).
    cbn [delivered].
    match goal with
    | |- context [for_each chunks _ ?s] => destruct (IH s) as [s2 [E [Hc T]]]
    end.
    exists s2. split; [exact E|]. split; [|exact T].
    unfold continues in *. rewrite Hc. cbn [trace map].
    rewrite <- app_assoc. reflexivity.
Qed.

(** From the cancellation on, with the task started and a platform that
    accepts every message. *)
Lemma finish_from_parked_sent (update : Update) (message : Message)
    (reply : str) (st : state W Telegram.coro) :
  platform_accepts ->
  tasks st = [parked update] ->
  exists chunks st',
    (cancel 0 ;;
     try_except (await_task 0) ExceptException (fun _ => ret tt) ;;
     chunks <- Telegram.split_reply reply ;;
     for_each chunks (Telegram.send_chunk message)) st = (Return tt, st') /\
    Telegram._split_message reply Telegram.DEFAULT_MAX_LEN = Some chunks /\
    continues st st'
      (EvCancelTask 0
       :: map (fun c => EvReplyText c (Some MARKDOWN) (Ok tt)) chunks).
Proof.
  intros Hp Ht. destruct st as [w tr ts]. cbn [tasks] in Ht. subst ts.
  unfold bind at 1, cancel, bind at 1, emit, set_task.
  cbn [world trace tasks update_nth parked task_state task_coro].
  unfold bind at 1, try_except, await_task, status_of.
  cbn [tasks nth_error option_map task_state].
  unfold bind at 1, loop_turn. cbn [tasks List.length seq for_each].
  unfold bind at 1, run_task.
  cbn [tasks nth_error task_state task_must_cancel task_coro resume
       Telegram.telegram_coroutines Telegram._typing_loop co_cancel].
  unfold run_piece, bind at 1, try_except, raise.
  cbn [handles ret set_status set_task world trace tasks update_nth task_coro].
  unfold task_result, status_of.
  cbn [tasks nth_error option_map task_state ret].
  unfold bind at 1.
  match goal with
  | |- context [Telegram.split_reply reply ?s] =>
    destruct (split_reply_run reply s) as [chunks [Hsplit E]]; rewrite E;
    destruct (send_chunks_accepted message chunks Hp s) as [s' [E' [Hc _]]]
  end.
  exists chunks, s'. split; [exact E'|]. split; [exact Hsplit|].
  unfold continues in *. rewrite Hc. cbn [trace]. rewrite <- app_assoc.
  reflexivity.
Qed.

End DeliveryEnd.

(** X15. Order of the handler's calls. On every update that has a
    message, a sender and a text that is not blank, whatever the
    collaborators answer: the liveness task is created first, then the
    orchestrator runs and returns a reply, then the task is cancelled,
    once, and only after that come the typing indicators of that last
    turn and the sends of the chunks. *)
Theorem telegram_handler_order
    {W : Type} {C : Collaborators W} (config : Config) (update : Update)
    (message : Message) (user : User) (st : state W Telegram.coro) :
  upd_message update = Some message ->
  effective_user update = Some user ->
  truthy (strip (Telegram.text_or_empty message)) = true ->
  exists id evs reply ind sends,
    events_since st (snd (Telegram.handle_message config update st))
    = EvCreateTask id :: evs ++ EvCancelTask id :: ind ++ sends /\
    orchestrated config (Telegram.text_or_empty message)
      (Telegram.username_of user) evs (Return reply) /\
    Forall is_indicator ind /\ Forall is_reply sends.
Proof.
  intros Hm Hu Htext.
  destruct (telegram_call_sequence config update st Hm Hu Htext)
    as [id [evs [reply [ind [sends [r [st' [E [Hev [Hs [Fi Fs]]]]]]]]]]].
  rewrite E. cbn [snd]. exists id, evs, reply, ind, sends. auto.
Qed.

Lemma telegram_handler_order_witness :
  (upd_message Scenario.ping = Some {| msg_text := Some (lit "ping") |} /\
   effective_user Scenario.ping = Some {| user_id := 42 |} /\
   truthy (strip (Telegram.text_or_empty {| msg_text := Some (lit "ping") |}))
   = true) /\
  exists id evs reply ind sends,
    events_since (initial Scenario.all_well)
      (snd (Telegram.handle_message Scenario.a_config Scenario.ping
              (initial Scenario.all_well)))
    = EvCreateTask id :: evs ++ EvCancelTask id :: ind ++ sends /\
    orchestrated Scenario.a_config
      (Telegram.text_or_empty {| msg_text := Some (lit "ping") |})
      (Telegram.username_of {| user_id := 42 |}) evs (Return reply) /\
    Forall is_indicator ind /\ Forall is_reply sends.
Proof.
  assert (H : upd_message Scenario.ping = Some {| msg_text := Some (lit "ping") |} /\
              effective_user Scenario.ping = Some {| user_id := 42 |} /\
              truthy (strip (Telegram.text_or_empty
                               {| msg_text := Some (lit "ping") |})) = true).
  { repeat split. }
  split; [exact H|]. destruct H as [H1 [H2 H3]].
  exact (@telegram_handler_order Scenario.script _ Scenario.a_config Scenario.ping
           _ _ (initial Scenario.all_well) H1 H2 H3).
Defined.

(** X16. When the lookup of the user raises, the orchestrator returns
    without the event loop having run: the liveness task is cancelled
    before its first step, the handler ends with [CancelledError], and no
    chunk is sent, the apology included. *)
Theorem telegram_early_cancel_escapes
    {W : Type} {C : Collaborators W} (config : Config) (update : Update)
    (message : Message) (user : User) (st : state W Telegram.coro)
    (e : error) :
  upd_message update = Some message ->
  effective_user update = Some user ->
  truthy (strip (Telegram.text_or_empty message)) = true ->
  tasks st = [] ->
  fst (db_get_user_by_username (Telegram.username_of user) (world st)) = Fail e ->
  fst (Telegram.handle_message config update st) = Raise CancelledError /\
  sent (events_since st (snd (Telegram.handle_message config update st))) = [].
Proof.
  intros Hm Hu Htext Ht Hdb.
  destruct (db_get_user_by_username (Telegram.username_of user) (world st))
    as [o w] eqn:E. cbn [fst] in Hdb. subst o.
  destruct (telegram_cancel_before_start config update st Hm Hu Htext Ht E)
    as [st' [Hrun Hsent]].
  rewrite Hrun. split; [reflexivity | exact Hsent].
Qed.

Lemma telegram_early_cancel_escapes_witness :
  let down := Scenario.with_get_user (Fail Scenario.store_down)
                Scenario.all_well in
  (upd_message Scenario.ping = Some {| msg_text := Some (lit "ping") |} /\
   effective_user Scenario.ping = Some {| user_id := 42 |} /\
   truthy (strip (Telegram.text_or_empty {| msg_text := Some (lit "ping") |}))
   = true /\
   tasks (initial (K := Telegram.coro) down) = [] /\
   fst (db_get_user_by_username (Telegram.username_of {| user_id := 42 |})
          (world (initial (K := Telegram.coro) down)))
   = Fail Scenario.store_down) /\
  fst (Telegram.handle_message Scenario.a_config Scenario.ping (initial down))
  = Raise CancelledError /\
  sent (events_since (initial down)
          (snd (Telegram.handle_message Scenario.a_config Scenario.ping
                  (initial down)))) = [].
Proof.
  cbv zeta.
  split; [repeat split|].
  exact (@telegram_early_cancel_escapes Scenario.script _ Scenario.a_config
           Scenario.ping {| msg_text := Some (lit "ping") |} {| user_id := 42 |}
           (initial (Scenario.with_get_user (Fail Scenario.store_down)
                       Scenario.all_well))
           Scenario.store_down eq_refl eq_refl eq_refl eq_refl eq_refl).
Defined.

Section DeliveryRuns.

Context {W : Type} {C : Collaborators W}.
Variable config : Config.

Lemma telegram_late_cancel_run (update : Update) (message : Message)
    (user : User) (st : state W Telegram.coro) :
  upd_message update = Some message ->
  effective_user update = Some user ->
  truthy (strip (Telegram.text_or_empty message)) = true ->
  tasks st = [] ->
  lookup_answers -> backend_yields ->
  exists r st',
    Telegram.handle_message config update st = (r, st') /\
    r <> Raise CancelledError /\
    map (@task_state _) (tasks st') = [Finished (Return tt)].
Proof.
  intros Hm Hu Htext Ht Hl Hy. unfold Telegram.handle_message.
  rewrite Hm, Hu, Htext. cbn [negb].
  unfold bind at 1, create_task. rewrite Ht. cbn [List.length app].
  unfold bind at 1.
  match goal with
  | |- context [Telegram._generate_answer _ _ _ ?s] =>
    destruct (@orchestrator_starts_task W C config update
                (Telegram.text_or_empty message) (Telegram.username_of user) s
                Hl Hy eq_refl) as [evs [reply [s2 [E [_ [_ T]]]]]]
  end.
  rewrite E. exact (@finish_from_parked W C update message reply s2 T).
Qed.

Lemma telegram_delivery_run (update : Update) (message : Message)
    (user : User) (st : state W Telegram.coro) :
  upd_message update = Some message ->
  effective_user update = Some user ->
  truthy (strip (Telegram.text_or_empty message)) = true ->
  tasks st = [] ->
  lookup_answers -> backend_yields -> platform_accepts ->
  exists evs reply chunks st',
    Telegram.handle_message config update st = (Return tt, st') /\
    orchestrated config (Telegram.text_or_empty message)
      (Telegram.username_of user) evs (Return reply) /\
    Telegram._split_message reply Telegram.DEFAULT_MAX_LEN = Some chunks /\
    events_since st st'
    = EvCreateTask 0 :: evs ++ EvCancelTask 0
        :: map (fun c => EvReplyText c (Some MARKDOWN) (Ok tt)) chunks.
Proof.
  intros Hm Hu Htext Ht Hl Hy Hp. unfold Telegram.handle_message.
  rewrite Hm, Hu, Htext. cbn [negb].
  unfold bind at 1, create_task. rewrite Ht. cbn [List.length app].
  unfold bind at 1.
  match goal with
  | |- context [Telegram._generate_answer _ _ _ ?s] =>
    destruct (@orchestrator_starts_task W C config update
                (Telegram.text_or_empty message) (Telegram.username_of user) s
                Hl Hy eq_refl) as [evs [reply [s2 [E [Hc [Hs T]]]]]]
  end.
  rewrite E.
  destruct (@finish_from_parked_sent W C update message reply s2 Hp T)
    as [chunks [s3 [E3 [Hsplit Hc3]]]].
  exists evs, reply, chunks, s3. split; [exact E3|].
  split; [exact Hs|]. split; [exact Hsplit|].
  apply events_since_continues. unfold continues in *.
  rewrite Hc3, Hc. cbn [trace]. rewrite <- !app_assoc. reflexivity.
Qed.

End DeliveryRuns.

(** X17. When the lookup of the user never raises and the backend call
    always yields to the event loop, the liveness task has started by the
    time it is cancelled: its own handler returns, the task ends
    normally, and the handler does not end with [CancelledError]. *)
Theorem telegram_late_cancel_is_quiet
    {W : Type} {C : Collaborators W} (config : Config) (update : Update)
    (message : Message) (user : User) (st : state W Telegram.coro) :
  upd_message update = Some message ->
  effective_user update = Some user ->
  truthy (strip (Telegram.text_or_empty message)) = true ->
  tasks st = [] ->
  lookup_answers -> backend_yields ->
  fst (Telegram.handle_message config update st) <> Raise CancelledError /\
  map (@task_state _) (tasks (snd (Telegram.handle_message config update st)))
  = [Finished (Return tt)].
Proof.
  intros Hm Hu Htext Ht Hl Hy.
  destruct (telegram_late_cancel_run config update st Hm Hu Htext Ht Hl Hy)
    as [r [st' [E [N F]]]].
  rewrite E. split; [exact N | exact F].
Qed.

(** X18. End to end. With a user store whose lookup never raises, a
    backend call that yields to the event loop and a platform that
    accepts every message, the handler returns normally and what it sends
    is exactly the chunks of the orchestrator's reply, in order, each
    once; when the backend failed that is the apology alone. *)
Theorem telegram_reply_delivered
    {W : Type} {C : Collaborators W} (config : Config) (update : Update)
    (message : Message) (user : User) (st : state W Telegram.coro) :
  upd_message update = Some message ->
  effective_user update = Some user ->
  truthy (strip (Telegram.text_or_empty message)) = true ->
  tasks st = [] ->
  lookup_answers -> backend_yields -> platform_accepts ->
  exists evs reply chunks,
    fst (Telegram.handle_message config update st) = Return tt /\
    orchestrated config (Telegram.text_or_empty message)
      (Telegram.username_of user) evs (Return reply) /\
    Telegram._split_message reply Telegram.DEFAULT_MAX_LEN = Some chunks /\
    events_since st (snd (Telegram.handle_message config update st))
    = EvCreateTask 0 :: evs ++ EvCancelTask 0
        :: map (fun c => EvReplyText c (Some MARKDOWN) (Ok tt)) chunks /\
    sent (events_since st (snd (Telegram.handle_message config update st)))
    = chunks /\
    (backend_failed evs -> chunks = [APOLOGY]).
Proof.
  intros Hm Hu Htext Ht Hl Hy Hp.
  destruct (telegram_delivery_run config update st Hm Hu Htext Ht Hl Hy Hp)
    as [evs [reply [chunks [st' [E [Hs [Hsplit Hev]]]]]]].
  rewrite E. cbn [fst snd]. exists evs, reply, chunks.
  repeat apply conj.
  - reflexivity.
  - exact Hs.
  - exact Hsplit.
  - exact Hev.
  - rewrite Hev.
    change (sent (EvCreateTask 0 :: ?l)) with (sent l).
    rewrite sent_app, (proj2 (orchestrated_quiet Hs)). cbn [app].
    change (sent (EvCancelTask 0 :: ?l)) with (sent l).
    apply sent_accepted.
  - intros Hb. pose proof (orchestrated_backend_failed Hs Hb) as Hr.
    injection Hr as ->. vm_compute in Hsplit. injection Hsplit as <-.
    reflexivity.
Qed.

Lemma telegram_late_cancel_is_quiet_witness :
  (upd_message Scenario.ping = Some {| msg_text := Some (lit "ping") |} /\
   effective_user Scenario.ping = Some {| user_id := 42 |} /\
   truthy (strip (Telegram.text_or_empty {| msg_text := Some (lit "ping") |}))
   = true /\
   tasks (initial (K := Telegram.coro) tt) = [] /\
   lookup_answers (W := unit) /\ backend_yields (W := unit)) /\
  fst (Telegram.handle_message Scenario.a_config Scenario.ping (initial tt))
  <> Raise CancelledError /\
  map (@task_state _)
    (tasks (snd (Telegram.handle_message Scenario.a_config Scenario.ping
                   (initial tt))))
  = [Finished (Return tt)].
Proof.
  assert (Hl : lookup_answers (W := unit)).
  { intros name w. eexists. reflexivity. }
  assert (Hy : backend_yields (W := unit)).
  { intros req w. exists 0%nat. reflexivity. }
  split; [repeat split; assumption|].
  exact (@telegram_late_cancel_is_quiet unit _ Scenario.a_config Scenario.ping
           {| msg_text := Some (lit "ping") |} {| user_id := 42 |} (initial tt)
           eq_refl eq_refl eq_refl eq_refl Hl Hy).
Defined.

Lemma telegram_reply_delivered_witness :
  (upd_message Scenario.ping = Some {| msg_text := Some (lit "ping") |} /\
   effective_user Scenario.ping = Some {| user_id := 42 |} /\
   truthy (strip (Telegram.text_or_empty {| msg_text := Some (lit "ping") |}))
   = true /\
   tasks (initial (K := Telegram.coro) tt) = [] /\
   lookup_answers (W := unit) /\ backend_yields (W := unit) /\
   platform_accepts (W := unit)) /\
  exists evs reply chunks,
    fst (Telegram.handle_message Scenario.a_config Scenario.ping (initial tt))
    = Return tt /\
    orchestrated Scenario.a_config
      (Telegram.text_or_empty {| msg_text := Some (lit "ping") |})
      (Telegram.username_of {| user_id := 42 |}) evs (Return reply) /\
    Telegram._split_message reply Telegram.DEFAULT_MAX_LEN = Some chunks /\
    events_since (initial tt)
      (snd (Telegram.handle_message Scenario.a_config Scenario.ping (initial tt)))
    = EvCreateTask 0 :: evs ++ EvCancelTask 0
        :: map (fun c => EvReplyText c (Some MARKDOWN) (Ok tt)) chunks /\
    sent (events_since (initial tt)
            (snd (Telegram.handle_message Scenario.a_config Scenario.ping
                    (initial tt))))
    = chunks /\
    (backend_failed evs -> chunks = [APOLOGY]).
Proof.
  assert (Hl : lookup_answers (W := unit)).
  { intros name w. eexists. reflexivity. }
  assert (Hy : backend_yields (W := unit)).
  { intros req w. exists 0%nat. reflexivity. }
  assert (Hp : platform_accepts (W := unit)).
  { intros message text mode w. reflexivity. }
  split; [repeat split; assumption|].
  exact (@telegram_reply_delivered unit _ Scenario.a_config Scenario.ping
           {| msg_text := Some (lit "ping") |} {| user_id := 42 |} (initial tt)
           eq_refl eq_refl eq_refl eq_refl Hl Hy Hp).
Defined.

(** ** The launchers: attached, detached, and what goes wrong *)

Section LauncherRuns.

Context {W : Type} {C : Collaborators W}.
Variable config : Config.

Lemma threads_started_app (a b : list event) :
  threads_started (a ++ b) = threads_started a ++ threads_started b.
Proof. apply flat_map_app. Qed.

Lemma get_running_loop_run {K} (st : state W K) :
  get_running_loop st
  = (if asyncio_running_loop (world st) then Return tt
     else Raise (Exc {| err_class := RuntimeError;
                        err_str := lit "no running event loop" |}),
     {| world := world st;
        trace := trace st ++ [EvGetRunningLoop (asyncio_running_loop (world st))];
        tasks := tasks st |}).
Proof.
  unfold get_running_loop, bind, emit.
  destruct (asyncio_running_loop (world st)); reflexivity.
Qed.

Lemma telegram_detached_run (blocking : bool) (st : state W Telegram.coro)
    (token_override : option str) (token : str) :
  or_else token_override (bot_token (telegram config)) = Some token ->
  truthy token = true ->
  asyncio_running_loop (world st) = false ->
  Telegram.start_telegram_bot config blocking token_override st
  = (Return None,
     {| world := world st;
        trace := trace st ++
          [EvGetRunningLoop false;
           EvThreadStart (lit "telegram-bot");
           EvLog INFO (lit "Telegram bot polling started in background thread")];
        tasks := tasks st |}).
Proof.
  intros Htok Htruthy Hloop.
  unfold Telegram.start_telegram_bot. rewrite Htok, Htruthy. cbn [negb].
  unfold try_except, bind at 1. rewrite get_running_loop_run, Hloop.
  cbn [handles exc_class_eqb err_class].
  unfold thread_start, log, emit, bind, ret. cbn [world trace tasks].
  rewrite <- !app_assoc. reflexivity.
Qed.

Lemma slack_detached_run (blocking : bool) (st : state W Slack.coro)
    (bot_token_override app_token_override : option str) (bot app : str) :
  or_else bot_token_override (slack_bot_token (slack config)) = Some bot ->
  or_else app_token_override (slack_app_token (slack config)) = Some app ->
  truthy bot = true -> truthy app = true ->
  asyncio_running_loop (world st) = false ->
  Slack.start_slack_bot config blocking bot_token_override app_token_override st
  = (Return None,
     {| world := world st;
        trace := trace st ++
          [EvGetRunningLoop false;
           EvThreadStart (lit "slack-bot");
           EvLog INFO (lit "Slack bot started in background thread")];
        tasks := tasks st |}).
Proof.
  intros Hbot Happ Tb Ta Hloop.
  unfold Slack.start_slack_bot. rewrite Hbot, Happ, Tb, Ta. cbn [negb orb].
  unfold try_except, bind at 1. rewrite get_running_loop_run, Hloop.
  cbn [handles exc_class_eqb err_class].
  unfold thread_start, log, emit, bind, ret. cbn [world trace tasks].
  rewrite <- !app_assoc. reflexivity.
Qed.

Lemma telegram_failed_build_run (blocking : bool) (st : state W Telegram.coro)
    (token_override : option str) (token : str) (e : error) :
  or_else token_override (bot_token (telegram config)) = Some token ->
  truthy token = true ->
  asyncio_running_loop (world st) = true ->
  fst (Application_build token (world st)) = Fail e ->
  Telegram.start_telegram_bot config blocking token_override st
  = if exc_class_eqb RuntimeError (err_class e)
    then (Return None,
          {| world := snd (Application_build token (world st));
             trace := trace st ++
               [EvGetRunningLoop true;
                EvBuildApplication token (Fail e);
                EvThreadStart (lit "telegram-bot");
                EvLog INFO
                  (lit "Telegram bot polling started in background thread")];
             tasks := tasks st |})
    else (Raise (Exc e),
          {| world := snd (Application_build token (world st));
             trace := trace st ++
               [EvGetRunningLoop true; EvBuildApplication token (Fail e)];
             tasks := tasks st |}).
Proof.
  intros Htok Htruthy Hloop Hbuild.
  unfold Telegram.start_telegram_bot. rewrite Htok, Htruthy. cbn [negb].
  unfold try_except, bind at 1. rewrite get_running_loop_run, Hloop.
  unfold bind at 1. rewrite call_exact. cbn [world trace tasks].
  rewrite Hbuild. cbn [delivered handles].
  destruct (exc_class_eqb RuntimeError (err_class e)).
  - unfold thread_start, log, emit, bind, ret. cbn [world trace tasks].
    rewrite <- !app_assoc. reflexivity.
  - rewrite <- !app_assoc. reflexivity.
Qed.

Lemma slack_failed_build_run (blocking : bool) (st : state W Slack.coro)
    (bot_token_override app_token_override : option str) (bot app : str)
    (e : error) :
  or_else bot_token_override (slack_bot_token (slack config)) = Some bot ->
  or_else app_token_override (slack_app_token (slack config)) = Some app ->
  truthy bot = true -> truthy app = true ->
  asyncio_running_loop (world st) = true ->
  fst (AsyncApp_new bot (world st)) = Fail e ->
  Slack.start_slack_bot config blocking bot_token_override app_token_override st
  = (Return None,
     {| world := snd (AsyncApp_new bot (world st));
        trace := trace st ++
          [EvGetRunningLoop true;
           EvLog INFO (lit "Starting Slack bot in current loop");
           EvAsyncApp bot (Fail e)] ++
          (if exc_class_eqb RuntimeError (err_class e)
           then [EvThreadStart (lit "slack-bot");
                 EvLog INFO (lit "Slack bot started in background thread")]
           else [EvLog ERROR
                   (lit "Failed to initialize Slack bot: " ++ err_str e)]);
        tasks := tasks st |}).
Proof.
  intros Hbot Happ Tb Ta Hloop Hbuild.
  unfold Slack.start_slack_bot. rewrite Hbot, Happ, Tb, Ta. cbn [negb orb].
  unfold try_except, bind at 1. rewrite get_running_loop_run, Hloop.
  unfold log at 1, emit, bind at 1 2. cbn [world trace tasks].
  rewrite call_exact. cbn [world trace tasks]. rewrite Hbuild.
  cbn [delivered handles].
  destruct (exc_class_eqb RuntimeError (err_class e)).
  - unfold thread_start, log, emit, bind, ret. cbn [world trace tasks].
    rewrite <- !app_assoc. reflexivity.
  - cbn [handles]. unfold log, emit, bind, ret.
    cbn [world trace tasks exn_str]. rewrite <- !app_assoc. reflexivity.
Qed.

End LauncherRuns.

(** X19. Detached mode. When no event loop is running in the calling
    thread and the tokens are present, each launcher starts its daemon
    thread and returns [None], whatever [blocking] and the webhook
    settings are; in the calling thread it builds no application,
    registers no handler and schedules no task. *)
Theorem launcher_detached
    {W : Type} {C : Collaborators W} (config : Config) (blocking : bool) :
  (forall (st : state W Telegram.coro) (token_override : option str)
          (token : str),
     or_else token_override (bot_token (telegram config)) = Some token ->
     truthy token = true ->
     asyncio_running_loop (world st) = false ->
     Telegram.start_telegram_bot config blocking token_override st
     = (Return None,
        {| world := world st;
           trace := trace st ++
             [EvGetRunningLoop false;
              EvThreadStart (lit "telegram-bot");
              EvLog INFO (lit "Telegram bot polling started in background thread")];
           tasks := tasks st |}))
  /\
  (forall (st : state W Slack.coro)
          (bot_token_override app_token_override : option str)
          (bot app : str),
     or_else bot_token_override (slack_bot_token (slack config)) = Some bot ->
     or_else app_token_override (slack_app_token (slack config)) = Some app ->
     truthy bot = true -> truthy app = true ->
     asyncio_running_loop (world st) = false ->
     Slack.start_slack_bot config blocking bot_token_override app_token_override st
     = (Return None,
        {| world := world st;
           trace := trace st ++
             [EvGetRunningLoop false;
              EvThreadStart (lit "slack-bot");
              EvLog INFO (lit "Slack bot started in background thread")];
           tasks := tasks st |})).
Proof.
  split.
  - intros st token_override token Htok Htruthy Hloop.
    exact (telegram_detached_run config blocking st token_override
             Htok Htruthy Hloop).
  - intros st bo ao bot app Hbot Happ Tb Ta Hloop.
    exact (slack_detached_run config blocking st bo ao Hbot Happ Tb Ta Hloop).
Qed.

Section LauncherAttached.

Context {W : Type} {C : Collaborators W}.
Variable config : Config.

Lemma telegram_attached_run (blocking : bool) (st : state W Telegram.coro)
    (token_override : option str) (token : str) :
  or_else token_override (bot_token (telegram config)) = Some token ->
  truthy token = true ->
  asyncio_running_loop (world st) = true ->
  fst (Application_build token (world st)) = Ok tt ->
  let webhook := use_webhook (telegram config)
                 && opt_truthy (webhook_url (telegram config)) in
  let c := if webhook then run_webhook else _run_polling in
  let setup := [EvGetRunningLoop true;
                EvBuildApplication token (Ok tt);
                EvAddHandler (CommandHandler (lit "start"));
                EvAddHandler (CommandHandler (lit "help"));
                EvAddHandler MessageHandler;
                EvLoopCreateTask c] in
  Telegram.start_telegram_bot config blocking token_override st
  = if webhook || negb blocking
    then (Return (Some (Task c)),
          {| world := snd (Application_build token (world st));
             trace := trace st ++ setup; tasks := tasks st |})
    else (Return None,
          {| world := snd (Application_build token (world st));
             trace := trace st ++ setup ++
               [EvRunUntilComplete;
                EvThreadStart (lit "telegram-bot");
                EvLog INFO
                  (lit "Telegram bot polling started in background thread")];
             tasks := tasks st |}).
Proof.
  intros Htok Htruthy Hloop Hbuild. cbv zeta.
  unfold Telegram.start_telegram_bot. rewrite Htok, Htruthy. cbn [negb].
  unfold try_except, bind at 1. rewrite get_running_loop_run, Hloop.
  unfold bind at 1. rewrite call_exact. cbn [world trace tasks].
  rewrite Hbuild. cbn [delivered].
  unfold emit, bind at 1 2 3. cbn [world trace tasks].
  destruct (use_webhook (telegram config)
            && opt_truthy (webhook_url (telegram config))); cbn [orb].
  - unfold loop_create_task, bind, emit, ret. cbn [world trace tasks].
    rewrite <- !app_assoc. reflexivity.
  - destruct blocking; cbn [negb].
    + unfold loop_create_task, run_until_complete, thread_start, log, bind,
        emit, ret, raise. cbn [world trace tasks handles exc_class_eqb err_class].
      rewrite <- !app_assoc. reflexivity.
    + unfold loop_create_task, bind, emit, ret. cbn [world trace tasks].
      rewrite <- !app_assoc. reflexivity.
Qed.

Lemma slack_attached_run (blocking : bool) (st : state W Slack.coro)
    (bot_token_override app_token_override : option str) (bot app : str) :
  or_else bot_token_override (slack_bot_token (slack config)) = Some bot ->
  or_else app_token_override (slack_app_token (slack config)) = Some app ->
  truthy bot = true -> truthy app = true ->
  asyncio_running_loop (world st) = true ->
  fst (AsyncApp_new bot (world st)) = Ok tt ->
  let setup := [EvGetRunningLoop true;
                EvLog INFO (lit "Starting Slack bot in current loop");
                EvAsyncApp bot (Ok tt);
                EvAddHandler MessageHandler;
                EvLoopCreateTask _setup_and_run] in
  Slack.start_slack_bot config blocking bot_token_override app_token_override st
  = if blocking
    then (Return None,
          {| world := snd (AsyncApp_new bot (world st));
             trace := trace st ++ setup ++
               [EvRunUntilComplete;
                EvThreadStart (lit "slack-bot");
                EvLog INFO (lit "Slack bot started in background thread")];
             tasks := tasks st |})
    else (Return (Some (Task _setup_and_run)),
          {| world := snd (AsyncApp_new bot (world st));
             trace := trace st ++ setup; tasks := tasks st |}).
Proof.
  intros Hbot Happ Tb Ta Hloop Hbuild. cbv zeta.
  unfold Slack.start_slack_bot. rewrite Hbot, Happ, Tb, Ta. cbn [negb orb].
  unfold try_except, bind at 1. rewrite get_running_loop_run, Hloop.
  unfold log at 1, emit, bind at 1 2. cbn [world trace tasks].
  rewrite call_exact. cbn [world trace tasks]. rewrite Hbuild.
  cbn [delivered]. unfold bind at 1. cbn [world trace tasks].
  destruct blocking.
  - unfold loop_create_task, run_until_complete, thread_start, log, bind,
      emit, ret, raise. cbn [world trace tasks handles exc_class_eqb err_class].
    rewrite <- !app_assoc. reflexivity.
  - unfold loop_create_task, bind, emit, ret. cbn [world trace tasks].
    rewrite <- !app_assoc. reflexivity.
Qed.

End LauncherAttached.

(** X20. Attached mode. When an event loop is running, the tokens are
    present and the SDK object is built, a launcher asked not to block
    registers its handlers, schedules its receive loop on that loop and
    returns the task; it starts no thread. For Telegram the scheduled
    coroutine is the webhook set-up when the webhook flag is on and the
    webhook URL is not empty (then even with [blocking]), the polling
    loop otherwise. *)
Theorem launcher_attached
    {W : Type} {C : Collaborators W} (config : Config) :
  (forall (blocking : bool) (st : state W Telegram.coro)
          (token_override : option str) (token : str),
     or_else token_override (bot_token (telegram config)) = Some token ->
     truthy token = true ->
     asyncio_running_loop (world st) = true ->
     fst (Application_build token (world st)) = Ok tt ->
     use_webhook (telegram config) && opt_truthy (webhook_url (telegram config))
     = true \/ blocking = false ->
     let c := if use_webhook (telegram config)
                 && opt_truthy (webhook_url (telegram config))
              then run_webhook else _run_polling in
     let run := Telegram.start_telegram_bot config blocking token_override st in
     fst run = Return (Some (Task c)) /\
     events_since st (snd run)
     = [EvGetRunningLoop true;
        EvBuildApplication token (Ok tt);
        EvAddHandler (CommandHandler (lit "start"));
        EvAddHandler (CommandHandler (lit "help"));
        EvAddHandler MessageHandler;
        EvLoopCreateTask c])
  /\
  (forall (st : state W Slack.coro)
          (bot_token_override app_token_override : option str)
          (bot app : str),
     or_else bot_token_override (slack_bot_token (slack config)) = Some bot ->
     or_else app_token_override (slack_app_token (slack config)) = Some app ->
     truthy bot = true -> truthy app = true ->
     asyncio_running_loop (world st) = true ->
     fst (AsyncApp_new bot (world st)) = Ok tt ->
     let run := Slack.start_slack_bot config false bot_token_override
                  app_token_override st in
     fst run = Return (Some (Task _setup_and_run)) /\
     events_since st (snd run)
     = [EvGetRunningLoop true;
        EvLog INFO (lit "Starting Slack bot in current loop");
        EvAsyncApp bot (Ok tt);
        EvAddHandler MessageHandler;
        EvLoopCreateTask _setup_and_run]).
Proof.
  split.
  - intros blocking st token_override token Htok Htruthy Hloop Hbuild Hmode.
    cbv zeta.
    rewrite (telegram_attached_run config blocking st token_override
               Htok Htruthy Hloop Hbuild).
    cbv zeta.
    assert (E : (use_webhook (telegram config)
                 && opt_truthy (webhook_url (telegram config)))
                || negb blocking = true).
    { destruct Hmode as [-> | ->]; [reflexivity | apply orb_true_r]. }
    rewrite E. cbn [fst snd]. split; [reflexivity | apply events_since_one].
  - intros st bo ao bot app Hbot Happ Tb Ta Hloop Hbuild. cbv zeta.
    rewrite (slack_attached_run config false st bo ao Hbot Happ Tb Ta Hloop
               Hbuild).
    cbv zeta. cbn [fst snd]. split; [reflexivity | apply events_since_one].
Qed.

Lemma launcher_attached_witness :
  (or_else None (bot_token (telegram Cases.tokens)) = Some (lit "123:abc") /\
   truthy (lit "123:abc") = true /\
   asyncio_running_loop (world (initial (K := Telegram.coro) Scenario.all_well))
   = true /\
   fst (Application_build (lit "123:abc")
          (world (initial (K := Telegram.coro) Scenario.all_well))) = Ok tt) /\
  fst (Telegram.start_telegram_bot Cases.tokens false None
         (initial Scenario.all_well))
  = Return (Some (Task _run_polling)) /\
  events_since (initial Scenario.all_well)
    (snd (Telegram.start_telegram_bot Cases.tokens false None
            (initial Scenario.all_well)))
  = [EvGetRunningLoop true;
     EvBuildApplication (lit "123:abc") (Ok tt);
     EvAddHandler (CommandHandler (lit "start"));
     EvAddHandler (CommandHandler (lit "help"));
     EvAddHandler MessageHandler;
     EvLoopCreateTask _run_polling].
Proof.
  split; [repeat split|].
  exact (proj1 (@launcher_attached Scenario.script _ Cases.tokens) false
           (initial Scenario.all_well) None (lit "123:abc")
           eq_refl eq_refl eq_refl eq_refl (or_intror eq_refl)).
Defined.

(** X21. A launcher asked to block while an event loop is running starts
    its receive loop twice. The task is scheduled on the running loop;
    [run_until_complete] on that loop raises [RuntimeError]; the clause
    meant for "no running loop" catches it and starts the background
    thread as well; the launcher returns [None] and the scheduled task is
    not handed to the caller. (For Telegram: in polling mode.) *)
Theorem launcher_blocking_starts_twice
    {W : Type} {C : Collaborators W} (config : Config) :
  (forall (st : state W Telegram.coro) (token_override : option str)
          (token : str),
     or_else token_override (bot_token (telegram config)) = Some token ->
     truthy token = true ->
     asyncio_running_loop (world st) = true ->
     fst (Application_build token (world st)) = Ok tt ->
     use_webhook (telegram config) && opt_truthy (webhook_url (telegram config))
     = false ->
     let run := Telegram.start_telegram_bot config true token_override st in
     fst run = Return None /\
     scheduled (events_since st (snd run)) = [_run_polling] /\
     threads_started (events_since st (snd run)) = [lit "telegram-bot"])
  /\
  (forall (st : state W Slack.coro)
          (bot_token_override app_token_override : option str)
          (bot app : str),
     or_else bot_token_override (slack_bot_token (slack config)) = Some bot ->
     or_else app_token_override (slack_app_token (slack config)) = Some app ->
     truthy bot = true -> truthy app = true ->
     asyncio_running_loop (world st) = true ->
     fst (AsyncApp_new bot (world st)) = Ok tt ->
     let run := Slack.start_slack_bot config true bot_token_override
                  app_token_override st in
     fst run = Return None /\
     scheduled (events_since st (snd run)) = [_setup_and_run] /\
     threads_started (events_since st (snd run)) = [lit "slack-bot"]).
Proof.
  split.
  - intros st token_override token Htok Htruthy Hloop Hbuild Hweb. cbv zeta.
    rewrite (telegram_attached_run config true st token_override
               Htok Htruthy Hloop Hbuild).
    cbv zeta. rewrite Hweb. cbn [orb negb fst snd].
    rewrite events_since_one. repeat split.
  - intros st bo ao bot app Hbot Happ Tb Ta Hloop Hbuild. cbv zeta.
    rewrite (slack_attached_run config true st bo ao Hbot Happ Tb Ta Hloop
               Hbuild).
    cbv zeta. cbn [fst snd]. rewrite events_since_one. repeat split.
Qed.

Lemma launcher_blocking_starts_twice_witness :
  (or_else None (bot_token (telegram Cases.tokens)) = Some (lit "123:abc") /\
   truthy (lit "123:abc") = true /\
   asyncio_running_loop (world (initial (K := Telegram.coro) Scenario.all_well))
   = true /\
   fst (Application_build (lit "123:abc")
          (world (initial (K := Telegram.coro) Scenario.all_well))) = Ok tt /\
   use_webhook (telegram Cases.tokens)
   && opt_truthy (webhook_url (telegram Cases.tokens)) = false) /\
  fst (Telegram.start_telegram_bot Cases.tokens true None
         (initial Scenario.all_well)) = Return None /\
  scheduled (events_since (initial Scenario.all_well)
               (snd (Telegram.start_telegram_bot Cases.tokens true None
                       (initial Scenario.all_well)))) = [_run_polling] /\
  threads_started (events_since (initial Scenario.all_well)
                     (snd (Telegram.start_telegram_bot Cases.tokens true None
                             (initial Scenario.all_well))))
  = [lit "telegram-bot"].
Proof.
  split; [repeat split|].
  exact (proj1 (@launcher_blocking_starts_twice Scenario.script _ Cases.tokens)
           (initial Scenario.all_well) None (lit "123:abc")
           eq_refl eq_refl eq_refl eq_refl eq_refl).
Defined.

Lemma launcher_detached_witness :
  let alone := Cases.with_loop false Scenario.all_well in
  (or_else None (bot_token (telegram Cases.tokens)) = Some (lit "123:abc") /\
   truthy (lit "123:abc") = true /\
   asyncio_running_loop (world (initial (K := Telegram.coro) alone)) = false) /\
  Telegram.start_telegram_bot Cases.tokens true None (initial alone)
  = (Return None,
     {| world := alone;
        trace := [EvGetRunningLoop false;
                  EvThreadStart (lit "telegram-bot");
                  EvLog INFO
                    (lit "Telegram bot polling started in background thread")];
        tasks := [] |}).
Proof.
  cbv zeta. split; [repeat split|].
  exact (proj1 (@launcher_detached Scenario.script _ Cases.tokens true)
           (initial (Cases.with_loop false Scenario.all_well)) None
           (lit "123:abc") eq_refl eq_refl eq_refl).
Defined.

(** X22. [start_slack_bot] never raises: it returns [None] or the
    scheduled task. When the construction of the Slack application fails
    with an error that is not a [RuntimeError], the failure is logged,
    [None] is returned, no thread is started and nothing is scheduled. *)
Theorem slack_launcher_contains_failures
    {W : Type} {C : Collaborators W} (config : Config) (blocking : bool)
    (bot_token_override app_token_override : option str)
    (st : state W Slack.coro) :
  let run := Slack.start_slack_bot config blocking bot_token_override
               app_token_override st in
  (fst run = Return None \/ fst run = Return (Some (Task _setup_and_run))) /\
  (forall (bot app : str) (e : error),
     or_else bot_token_override (slack_bot_token (slack config)) = Some bot ->
     or_else app_token_override (slack_app_token (slack config)) = Some app ->
     truthy bot = true -> truthy app = true ->
     asyncio_running_loop (world st) = true ->
     fst (AsyncApp_new bot (world st)) = Fail e ->
     err_class e <> RuntimeError ->
     fst run = Return None /\
     events_since st (snd run)
     = [EvGetRunningLoop true;
        EvLog INFO (lit "Starting Slack bot in current loop");
        EvAsyncApp bot (Fail e);
        EvLog ERROR (lit "Failed to initialize Slack bot: " ++ err_str e)]).
Proof.
  cbv zeta. split.
  - destruct (or_else bot_token_override (slack_bot_token (slack config)))
      as [bot|] eqn:Hbot;
      [destruct (or_else app_token_override (slack_app_token (slack config)))
         as [app|] eqn:Happ |];
      try (left; unfold Slack.start_slack_bot; rewrite Hbot; try rewrite Happ;
           reflexivity).
    destruct (truthy bot) eqn:Tb; [destruct (truthy app) eqn:Ta |];
      try (left; unfold Slack.start_slack_bot; rewrite Hbot, Happ, Tb;
           try rewrite Ta; reflexivity).
    destruct (asyncio_running_loop (world st)) eqn:Hloop.
    + destruct (fst (AsyncApp_new bot (world st))) as [[]|e] eqn:Hbuild.
      * rewrite (slack_attached_run config blocking st _ _ Hbot Happ Tb Ta
                   Hloop Hbuild).
        cbv zeta. destruct blocking; [left | right]; reflexivity.
      * rewrite (slack_failed_build_run config blocking st _ _ Hbot Happ Tb Ta
                   Hloop Hbuild).
        left. reflexivity.
    + rewrite (slack_detached_run config blocking st _ _ Hbot Happ Tb Ta Hloop).
      left. reflexivity.
  - intros bot app e Hbot Happ Tb Ta Hloop Hbuild Hclass.
    rewrite (slack_failed_build_run config blocking st _ _ Hbot Happ Tb Ta
               Hloop Hbuild).
    assert (E : exc_class_eqb RuntimeError (err_class e) = false).
    { destruct (err_class e); [contradiction Hclass| |]; reflexivity. }
    rewrite E. cbn [fst snd]. split; [reflexivity | apply events_since_one].
Qed.

Lemma slack_launcher_contains_failures_witness :
  let broken := Cases.with_build (Fail Cases.invalid_token) Scenario.all_well in
  (or_else None (slack_bot_token (slack Cases.tokens)) = Some (lit "xoxb-1") /\
   or_else None (slack_app_token (slack Cases.tokens)) = Some (lit "xapp-1") /\
   asyncio_running_loop (world (initial (K := Slack.coro) broken)) = true /\
   fst (AsyncApp_new (lit "xoxb-1") (world (initial (K := Slack.coro) broken)))
   = Fail Cases.invalid_token /\
   err_class Cases.invalid_token <> RuntimeError) /\
  fst (Slack.start_slack_bot Cases.tokens false None None (initial broken))
  = Return None /\
  events_since (initial broken)
    (snd (Slack.start_slack_bot Cases.tokens false None None (initial broken)))
  = [EvGetRunningLoop true;
     EvLog INFO (lit "Starting Slack bot in current loop");
     EvAsyncApp (lit "xoxb-1") (Fail Cases.invalid_token);
     EvLog ERROR (lit "Failed to initialize Slack bot: invalid token")].
Proof.
  cbv zeta. split; [repeat split; discriminate|].
  refine (proj2 (@slack_launcher_contains_failures Scenario.script _
                   Cases.tokens false None None
                   (initial (Cases.with_build (Fail Cases.invalid_token)
                               Scenario.all_well)))
            (lit "xoxb-1") (lit "xapp-1") Cases.invalid_token
            eq_refl eq_refl eq_refl eq_refl eq_refl eq_refl _).
  discriminate.
Defined.

(** X23. [start_telegram_bot] has no such net: when the construction of
    the Telegram application fails with an error that is not a
    [RuntimeError], the error reaches the caller; no handler is
    registered, nothing is scheduled and no thread is started. *)
Theorem telegram_launcher_propagates_build_failure
    {W : Type} {C : Collaborators W} (config : Config) (blocking : bool)
    (token_override : option str) (st : state W Telegram.coro)
    (token : str) (e : error) :
  or_else token_override (bot_token (telegram config)) = Some token ->
  truthy token = true ->
  asyncio_running_loop (world st) = true ->
  fst (Application_build token (world st)) = Fail e ->
  err_class e <> RuntimeError ->
  let run := Telegram.start_telegram_bot config blocking token_override st in
  fst run = Raise (Exc e) /\
  events_since st (snd run)
  = [EvGetRunningLoop true; EvBuildApplication token (Fail e)].
Proof.
  intros Htok Htruthy Hloop Hbuild Hclass. cbv zeta.
  rewrite (telegram_failed_build_run config blocking st token_override
             Htok Htruthy Hloop Hbuild).
  assert (E : exc_class_eqb RuntimeError (err_class e) = false).
  { destruct (err_class e); [contradiction Hclass| |]; reflexivity. }
  rewrite E. cbn [fst snd]. split; [reflexivity | apply events_since_one].
Qed.

Lemma telegram_launcher_propagates_build_failure_witness :
  let broken := Cases.with_build (Fail Cases.invalid_token) Scenario.all_well in
  (or_else None (bot_token (telegram Cases.tokens)) = Some (lit "123:abc") /\
   asyncio_running_loop (world (initial (K := Telegram.coro) broken)) = true /\
   fst (Application_build (lit "123:abc")
          (world (initial (K := Telegram.coro) broken)))
   = Fail Cases.invalid_token /\
   err_class Cases.invalid_token <> RuntimeError) /\
  fst (Telegram.start_telegram_bot Cases.tokens false None (initial broken))
  = Raise (Exc Cases.invalid_token) /\
  events_since (initial broken)
    (snd (Telegram.start_telegram_bot Cases.tokens false None (initial broken)))
  = [EvGetRunningLoop true;
     EvBuildApplication (lit "123:abc") (Fail Cases.invalid_token)].
Proof.
  cbv zeta. split; [repeat split; discriminate|].
  refine (@telegram_launcher_propagates_build_failure Scenario.script _
            Cases.tokens false None
            (initial (Cases.with_build (Fail Cases.invalid_token)
                        Scenario.all_well))
            (lit "123:abc") Cases.invalid_token
            eq_refl eq_refl eq_refl eq_refl _).
  discriminate.
Defined.

(** X24. A [RuntimeError] raised by the construction of the SDK object
    while an event loop is running is taken for "no running event loop":
    both launchers start their background thread and return [None]. *)
Theorem launcher_mistakes_runtime_error
    {W : Type} {C : Collaborators W} (config : Config) (blocking : bool)
    (e : error) :
  err_class e = RuntimeError ->
  (forall (st : state W Telegram.coro) (token_override : option str)
          (token : str),
     or_else token_override (bot_token (telegram config)) = Some token ->
     truthy token = true ->
     asyncio_running_loop (world st) = true ->
     fst (Application_build token (world st)) = Fail e ->
     let run := Telegram.start_telegram_bot config blocking token_override st in
     fst run = Return None /\
     events_since st (snd run)
     = [EvGetRunningLoop true;
        EvBuildApplication token (Fail e);
        EvThreadStart (lit "telegram-bot");
        EvLog INFO (lit "Telegram bot polling started in background thread")])
  /\
  (forall (st : state W Slack.coro)
          (bot_token_override app_token_override : option str)
          (bot app : str),
     or_else bot_token_override (slack_bot_token (slack config)) = Some bot ->
     or_else app_token_override (slack_app_token (slack config)) = Some app ->
     truthy bot = true -> truthy app = true ->
     asyncio_running_loop (world st) = true ->
     fst (AsyncApp_new bot (world st)) = Fail e ->
     let run := Slack.start_slack_bot config blocking bot_token_override
                  app_token_override st in
     fst run = Return None /\
     events_since st (snd run)
     = [EvGetRunningLoop true;
        EvLog INFO (lit "Starting Slack bot in current loop");
        EvAsyncApp bot (Fail e);
        EvThreadStart (lit "slack-bot");
        EvLog INFO (lit "Slack bot started in background thread")]).
Proof.
  intros Hclass. split.
  - intros st token_override token Htok Htruthy Hloop Hbuild. cbv zeta.
    rewrite (telegram_failed_build_run config blocking st token_override
               Htok Htruthy Hloop Hbuild).
    rewrite Hclass. cbn [exc_class_eqb fst snd].
    split; [reflexivity | apply events_since_one].
  - intros st bo ao bot app Hbot Happ Tb Ta Hloop Hbuild. cbv zeta.
    rewrite (slack_failed_build_run config blocking st bo ao Hbot Happ Tb Ta
               Hloop Hbuild).
    rewrite Hclass. cbn [exc_class_eqb fst snd List.app].
    split; [reflexivity | apply events_since_one].
Qed.

Lemma launcher_mistakes_runtime_error_witness :
  let clash := {| err_class := RuntimeError;
                  err_str := lit "cannot schedule new futures" |} in
  let broken := Cases.with_build (Fail clash) Scenario.all_well in
  (err_class clash = RuntimeError /\
   or_else None (bot_token (telegram Cases.tokens)) = Some (lit "123:abc") /\
   asyncio_running_loop (world (initial (K := Telegram.coro) broken)) = true /\
   fst (Application_build (lit "123:abc")
          (world (initial (K := Telegram.coro) broken))) = Fail clash) /\
  fst (Telegram.start_telegram_bot Cases.tokens false None (initial broken))
  = Return None /\
  events_since (initial broken)
    (snd (Telegram.start_telegram_bot Cases.tokens false None (initial broken)))
  = [EvGetRunningLoop true;
     EvBuildApplication (lit "123:abc") (Fail clash);
     EvThreadStart (lit "telegram-bot");
     EvLog INFO (lit "Telegram bot polling started in background thread")].
Proof.
  cbv zeta. split; [repeat split|].
  exact (proj1 (@launcher_mistakes_runtime_error Scenario.script _
                  Cases.tokens false
                  {| err_class := RuntimeError;
                     err_str := lit "cannot schedule new futures" |} eq_refl)
           (initial (Cases.with_build
                       (Fail {| err_class := RuntimeError;
                                err_str := lit "cannot schedule new futures" |})
                       Scenario.all_well))
           None (lit "123:abc") eq_refl eq_refl eq_refl eq_refl).
Defined.

(** X25. From the environment to the receive loop. With the Telegram
    section read from the environment, a running loop and a built
    application: when TELEGRAM_USE_WEBHOOK is "true" in any letter case
    and TELEGRAM_WEBHOOK_URL is not empty, the launcher schedules the
    webhook set-up, returns its task and starts no thread, whatever
    [blocking] is; when the flag or the URL is unset, or the URL is
    empty, it schedules the polling loop. *)
Theorem webhook_from_environment
    {W : Type} {C : Collaborators W} (getenv : str -> option str)
    (config : Config) (st : state W Telegram.coro)
    (token_override : option str) (token : str) :
  telegram config = TelegramConfig_default getenv ->
  or_else token_override (getenv (lit "TELEGRAM_BOT_TOKEN")) = Some token ->
  truthy token = true ->
  asyncio_running_loop (world st) = true ->
  fst (Application_build token (world st)) = Ok tt ->
  (forall (flag url : str) (blocking : bool),
     getenv (lit "TELEGRAM_USE_WEBHOOK") = Some flag ->
     lower flag = lit "true" ->
     getenv (lit "TELEGRAM_WEBHOOK_URL") = Some url ->
     truthy url = true ->
     let run := Telegram.start_telegram_bot config blocking token_override st in
     fst run = Return (Some (Task run_webhook)) /\
     scheduled (events_since st (snd run)) = [run_webhook] /\
     threads_started (events_since st (snd run)) = [])
  /\
  (forall blocking : bool,
     getenv (lit "TELEGRAM_USE_WEBHOOK") = None \/
     getenv (lit "TELEGRAM_WEBHOOK_URL") = None \/
     getenv (lit "TELEGRAM_WEBHOOK_URL") = Some [] ->
     let run := Telegram.start_telegram_bot config blocking token_override st in
     scheduled (events_since st (snd run)) = [_run_polling]).
Proof.
  intros Hcfg Htok Htruthy Hloop Hbuild.
  assert (Htok' : or_else token_override (bot_token (telegram config))
                  = Some token).
  { rewrite Hcfg. exact Htok. }
  split.
  - intros flag url blocking Hflag Hlower Hurl Turl. cbv zeta.
    rewrite (telegram_attached_run config blocking st token_override
               Htok' Htruthy Hloop Hbuild).
    cbv zeta. rewrite Hcfg.
    unfold TelegramConfig_default, getenv_default.
    cbn [use_webhook webhook_url]. rewrite Hflag, Hlower, Hurl.
    cbn [opt_truthy]. rewrite Turl.
    change (str_eqb (lit "true") (lit "true")) with true.
    cbn [andb orb fst snd]. rewrite events_since_one. repeat split.
  - intros blocking Hmiss. cbv zeta.
    rewrite (telegram_attached_run config blocking st token_override
               Htok' Htruthy Hloop Hbuild).
    cbv zeta. rewrite Hcfg.
    unfold TelegramConfig_default, getenv_default.
    cbn [use_webhook webhook_url].
    assert (E : str_eqb
                  (lower match getenv (lit "TELEGRAM_USE_WEBHOOK") with
                         | Some v => v
                         | None => lit "false"
                         end) (lit "true")
                && opt_truthy (getenv (lit "TELEGRAM_WEBHOOK_URL")) = false).
    { destruct Hmiss as [H | [H | H]]; rewrite H.
      - reflexivity.
      - apply andb_false_r.
      - apply andb_false_r. }
    rewrite E. cbn [orb]. destruct blocking; cbn [negb fst snd];
      rewrite events_since_one; reflexivity.
Qed.

Lemma webhook_from_environment_witness :
  (telegram Cases.webhook_config = TelegramConfig_default Cases.webhook_env /\
   or_else None (Cases.webhook_env (lit "TELEGRAM_BOT_TOKEN"))
   = Some (lit "123:abc") /\
   asyncio_running_loop (world (initial (K := Telegram.coro) Scenario.all_well))
   = true /\
   Cases.webhook_env (lit "TELEGRAM_USE_WEBHOOK") = Some (lit "TRUE") /\
   lower (lit "TRUE") = lit "true" /\
   Cases.webhook_env (lit "TELEGRAM_WEBHOOK_URL")
   = Some (lit "https://bot.example/hook")) /\
  fst (Telegram.start_telegram_bot Cases.webhook_config true None
         (initial Scenario.all_well))
  = Return (Some (Task run_webhook)) /\
  scheduled (events_since (initial Scenario.all_well)
               (snd (Telegram.start_telegram_bot Cases.webhook_config true None
                       (initial Scenario.all_well)))) = [run_webhook] /\
  threads_started (events_since (initial Scenario.all_well)
                     (snd (Telegram.start_telegram_bot Cases.webhook_config true
                             None (initial Scenario.all_well)))) = [].
Proof.
  split; [repeat split|].
  exact (proj1 (@webhook_from_environment Scenario.script _ Cases.webhook_env
                  Cases.webhook_config (initial Scenario.all_well) None
                  (lit "123:abc") eq_refl eq_refl eq_refl eq_refl eq_refl)
           (lit "TRUE") (lit "https://bot.example/hook") true
           eq_refl eq_refl eq_refl eq_refl).
Defined.

(** X26. The command handlers answer in plain text and do nothing else:
    [/help] sends its one message without a parse mode, consults neither
    the user store nor the backend, and hands a rejection by the platform
    to its caller without a second attempt; [/start] does the same for an
    update that has a user, and nothing at all for one that has none. *)
Theorem command_handlers_plain
    {W : Type} {C : Collaborators W} (update : Update) (message : Message)
    (st : state W Telegram.coro) :
  upd_message update = Some message ->
  (let text := lit "Just send a message, no commands needed." in
   let run := Telegram.help_cmd update st in
   let answer := fst (message_reply_text message text None (world st)) in
   fst run = delivered answer /\
   events_since st (snd run) = [EvReplyText text None answer])
  /\
  (let text := lit "Hi! Send me any message and I'll reply using FreeGPT4." in
   let run := Telegram.start_cmd update st in
   let answer := fst (message_reply_text message text None (world st)) in
   match effective_user update with
   | Some _ =>
     fst run = delivered answer /\
     events_since st (snd run) = [EvReplyText text None answer]
   | None => run = (Return tt, st)
   end).
Proof.
  intros Hmsg. cbv zeta. split.
  - unfold Telegram.help_cmd. rewrite Hmsg. unfold reply_text.
    rewrite call_exact. cbn [fst snd]. split; [reflexivity|].
    apply events_since_one.
  - unfold Telegram.start_cmd. destruct (effective_user update); [|reflexivity].
    rewrite Hmsg. unfold reply_text.
    rewrite call_exact. cbn [fst snd]. split; [reflexivity|].
    apply events_since_one.
Qed.

Lemma command_handlers_plain_witness :
  upd_message Cases.command_update = Some {| msg_text := Some (lit "/help") |} /\
  fst (Telegram.help_cmd Cases.command_update (initial Scenario.all_well))
  = Return tt /\
  events_since (initial Scenario.all_well)
    (snd (Telegram.help_cmd Cases.command_update (initial Scenario.all_well)))
  = [EvReplyText (lit "Just send a message, no commands needed.") None (Ok tt)].
Proof.
  split; [reflexivity|].
  exact (proj1 (@command_handlers_plain Scenario.script _ Cases.command_update
                  {| msg_text := Some (lit "/help") |}
                  (initial Scenario.all_well) eq_refl)).
Defined.

(** X27. Which token a launcher uses. An override that is the empty
    string counts as no override: the configured token is used. An
    override that is not empty wins: the run does not depend on the
    configured token (for Slack: with both overrides given, on the
    configuration at all). *)
Theorem token_override_precedence
    {W : Type} {C : Collaborators W} (config : Config) (blocking : bool) :
  (forall st : state W Telegram.coro,
     Telegram.start_telegram_bot config blocking (Some []) st
     = Telegram.start_telegram_bot config blocking None st)
  /\
  (forall (st : state W Telegram.coro) (token : str) (other : Config),
     truthy token = true ->
     use_webhook (telegram other) = use_webhook (telegram config) ->
     webhook_url (telegram other) = webhook_url (telegram config) ->
     Telegram.start_telegram_bot other blocking (Some token) st
     = Telegram.start_telegram_bot config blocking (Some token) st)
  /\
  (forall (st : state W Slack.coro) (app_token_override : option str),
     Slack.start_slack_bot config blocking (Some []) app_token_override st
     = Slack.start_slack_bot config blocking None app_token_override st)
  /\
  (forall (st : state W Slack.coro) (bot_token_override : option str),
     Slack.start_slack_bot config blocking bot_token_override (Some []) st
     = Slack.start_slack_bot config blocking bot_token_override None st)
  /\
  (forall (st : state W Slack.coro) (bot app : str) (other : Config),
     truthy bot = true -> truthy app = true ->
     Slack.start_slack_bot other blocking (Some bot) (Some app) st
     = Slack.start_slack_bot config blocking (Some bot) (Some app) st).
Proof.
  repeat apply conj.
  - intros st. reflexivity.
  - intros st token other Ht Hflag Hurl. unfold Telegram.start_telegram_bot.
    unfold or_else. cbn [opt_truthy]. rewrite Ht, Hflag, Hurl. reflexivity.
  - intros st ao. reflexivity.
  - intros st bo. reflexivity.
  - intros st bot app other Tb Ta. unfold Slack.start_slack_bot.
    unfold or_else. cbn [opt_truthy]. rewrite Tb, Ta. reflexivity.
Qed.

Lemma token_override_precedence_witness :
  truthy (lit "999:zzz") = true /\
  Telegram.start_telegram_bot Scenario.a_config false (Some (lit "999:zzz"))
    (initial Scenario.all_well)
  = Telegram.start_telegram_bot Cases.tokens false (Some (lit "999:zzz"))
      (initial Scenario.all_well).
Proof.
  split; [reflexivity|].
  exact (proj1 (proj2 (@token_override_precedence Scenario.script _
                         Cases.tokens false))
           (initial Scenario.all_well) (lit "999:zzz") Scenario.a_config
           eq_refl eq_refl eq_refl).
Defined.

(** X28. Segmenting is stable: every chunk [_split_message] returns is
    returned unchanged, as a single chunk, when it is segmented again
    with the same limit. *)
Theorem split_message_stable (text : str) (max_len : Z) (chunks : list str) :
  0 < max_len ->
  Telegram._split_message text max_len = Some chunks ->
  Forall (fun c => Telegram._split_message c max_len = Some [c]) chunks.
Proof.
  intros Hm Hrun.
  assert (Hle : Forall (fun c => len c <= max_len) chunks).
  { unfold Telegram._split_message in Hrun.
    destruct (Z.leb_spec (len text) max_len) as [Hfit | Hlong].
    - injection Hrun as <-. constructor; [exact Hfit | constructor].
    - destruct (@split_loop_spec max_len Hm (S (List.length text)) text []
                  ltac:(lia))
        as [cs [stripped [Hrun' [_ [_ [_ [Hle _]]]]]]].
      rewrite Hrun' in Hrun. cbn [List.app] in Hrun. injection Hrun as <-.
      exact Hle. }
  revert Hle. apply Forall_impl.
  intros c Hc. unfold Telegram._split_message.
  destruct (Z.leb_spec (len c) max_len); [reflexivity | lia].
Qed.

Lemma split_message_stable_witness :
  0 < 5 /\
  Telegram._split_message (lit "hello world") 5
  = Some [lit "hello"; lit " worl"; lit "d"] /\
  Forall (fun c => Telegram._split_message c 5 = Some [c])
    [lit "hello"; lit " worl"; lit "d"].
Proof.
  split; [lia|]. split; [vm_compute; reflexivity|].
  apply (@split_message_stable (lit "hello world") 5); [lia|].
  vm_compute. reflexivity.
Defined.

Lemma send_chunks_in_order_witness :
  let message := {| msg_text := Some (lit "ping") |} in
  let chunks := [lit "one"; lit "two"] in
  let run := for_each chunks (Telegram.send_chunk message)
               (initial Scenario.all_well) in
  exists k,
    first_attempts (events_since (initial Scenario.all_well) (snd run))
    = firstn k chunks /\
    (k <= List.length chunks)%nat /\
    (fst run = Return tt -> k = List.length chunks) /\
    (fst run <> Return tt -> (0 < k)%nat).
Proof.
  exact (@send_chunks_in_order Scenario.script _
           {| msg_text := Some (lit "ping") |} [lit "one"; lit "two"]
           (initial Scenario.all_well)).
Defined.
